(** * Recipe Hub: a shallow embedding of the model and query code

    The development follows the JavaScript sources:
    - [models/recipe.js]        (class [Recipe]),
    - [models/inventoryItem.js] (class [InventoryItem]),
    - [middleware/validators.js],
    - [app.js]                  (routes, [textIncludes], [scaleLine]).

    JavaScript numbers are IEEE 754 binary64 values and are modelled by Rocq's
    primitive floats; strings are sequences of 8-bit code units read as the
    code points U+0000 - U+00FF; arrays live in a heap and are referred to by
    location, so that aliasing between a caller's array and a record's array
    can be stated. *)

From Stdlib Require Import ZArith NArith List String Ascii Bool Lia Floats Sorted.
From stdpp Require Import base option list gmap.
Import ListNotations.

Local Open Scope string_scope.

(** ** Characters and strings *)

Module Str.

Definition code (c : ascii) : N := N_of_ascii c.

(** [\d] of the regular expressions. *)
Definition isDigit (c : ascii) : bool :=
  ((48 <=? code c) && (code c <=? 57))%N.

(** The characters that [.] of a regular expression does not match. *)
Definition isLineTerminator (c : ascii) : bool :=
  ((code c =? 10) || (code c =? 13))%N.

(** [\s], and what [String.prototype.trim] strips: TAB, LF, VT, FF, CR,
    SPACE and NBSP (the white space and line terminators below U+0100). *)
Definition isSpace (c : ascii) : bool :=
  (((9 <=? code c) && (code c <=? 13)) || (code c =? 32) || (code c =? 160))%N.

Definition digitVal (c : ascii) : Z := Z.of_N (code c) - 48.

Fixpoint rev (s : string) : string :=
  match s with
  | EmptyString => EmptyString
  | String c s' => rev s' ++ String c EmptyString
  end.

Fixpoint all (p : ascii -> bool) (s : string) : bool :=
  match s with
  | EmptyString => true
  | String c s' => p c && all p s'
  end.

Fixpoint any (p : ascii -> bool) (s : string) : bool :=
  match s with
  | EmptyString => false
  | String c s' => p c || any p s'
  end.

Definition isEmpty (s : string) : bool :=
  match s with EmptyString => true | _ => false end.

Fixpoint trimStart (s : string) : string :=
  match s with
  | EmptyString => EmptyString
  | String c s' => if isSpace c then trimStart s' else s
  end.

Definition trimEnd (s : string) : string := rev (trimStart (rev s)).

(** [String.prototype.trim]. *)
Definition trim (s : string) : string := trimEnd (trimStart s).

(** [String.prototype.toLowerCase] on the code points below U+0100:
    A-Z, and the Latin-1 capitals U+00C0 - U+00DE except the
    multiplication sign U+00D7. *)
Definition lowerChar (c : ascii) : ascii :=
  let n := code c in
  if (((65 <=? n) && (n <=? 90))
      || ((192 <=? n) && (n <=? 222) && negb (n =? 215)))%N
  then ascii_of_N (n + 32) else c.

Fixpoint toLowerCase (s : string) : string :=
  match s with
  | EmptyString => EmptyString
  | String c s' => String (lowerChar c) (toLowerCase s')
  end.

(** [hay.includes(needle)]: some suffix of [hay] starts with [needle]. *)
Fixpoint includes (hay needle : string) : bool :=
  String.prefix needle hay
  || match hay with
     | EmptyString => false
     | String _ hay' => includes hay' needle
     end.

Fixpoint replicate (n : nat) (c : ascii) : string :=
  match n with
  | O => EmptyString
  | S n' => String c (replicate n' c)
  end.

(** [s.padStart(width, "0")]. *)
Definition padStart0 (width : nat) (s : string) : string :=
  replicate (width - String.length s) "0"%char ++ s.

(** Decimal digits of a natural number, as [String(n)] prints an integer. *)
Fixpoint digitsOf (fuel : nat) (n : N) (acc : string) : string :=
  match fuel with
  | O => acc
  | S fuel' =>
      let acc' := String (ascii_of_N (48 + n mod 10)) acc in
      if (n / 10 =? 0)%N then acc' else digitsOf fuel' (n / 10)%N acc'
  end.

Definition ofN (n : N) : string := digitsOf (S (N.to_nat (N.log2 n))) n "".

(** The value of a string of decimal digits. *)
Fixpoint digitsValue (acc : Z) (s : string) : Z :=
  match s with
  | EmptyString => acc
  | String c s' => digitsValue (10 * acc + digitVal c) s'
  end.

(** Empty, or starting with a character that is not white space. *)
Definition headOk (s : string) : bool :=
  match s with
  | EmptyString => true
  | String c _ => negb (isSpace c)
  end.

Definition startsWithDigit (s : string) : bool :=
  match s with
  | String c _ => isDigit c
  | EmptyString => false
  end.

(** [a > b] on strings: code-unit-wise lexicographic order. *)
Definition gtb (a b : string) : bool :=
  match String.compare a b with Gt => true | _ => false end.

End Str.

(** ** Numbers

    A JavaScript Number is a binary64 value.  Arithmetic and comparisons are
    the primitive ones; conversions between Numbers and strings, and the
    [Math] functions, follow ECMA-262 on the exact rational value of the
    float. *)

Module Num.

Local Open Scope Z_scope.

Definition ofBool (neg : bool) (pos_value neg_value : float) : float :=
  if neg then neg_value else pos_value.

Definition ndigits (n : Z) : Z :=
  Z.of_nat (String.length (Str.ofN (Z.to_N n))).

(** The binary64 value nearest to [num / den], ties to even
    ([0 <= num], [0 < den]). *)
Definition roundRatio (neg : bool) (num den : Z) : spec_float :=
  match num with
  | Z0 => S754_zero neg
  | Zpos _ =>
      let '(q, e, l) := SFdiv_core_binary prec emax num 0 den 0 in
      binary_round_aux prec emax neg q e l
  | Zneg _ => S754_nan
  end.

(** The Number value of [d * 10^e] for a digit string value [d >= 0]. *)
Definition ofDecimal (neg : bool) (d e : Z) : float :=
  if d =? 0 then ofBool neg zero neg_zero
  else
    let mag := ndigits d + e in
    if 310 <? mag then ofBool neg infinity neg_infinity
    else if mag <? -330 then ofBool neg zero neg_zero
    else SF2Prim (if 0 <=? e then roundRatio neg (d * 10 ^ e) 1
                  else roundRatio neg d (10 ^ (- e))).

Definition ofZ (z : Z) : float :=
  SF2Prim (binary_normalize prec emax z 0 false).

Definition ofN (n : N) : float := ofZ (Z.of_N n).

(** *** Reading a decimal literal (StrDecimalLiteral) *)

Fixpoint spanDigits (s : string) : string * string :=
  match s with
  | EmptyString => (EmptyString, EmptyString)
  | String c s' =>
      if Str.isDigit c
      then let '(d, r) := spanDigits s' in (String c d, r)
      else (EmptyString, s)
  end.

Definition scanExponent (s : string) : Z * string :=
  match s with
  | String c s1 =>
      if ((c =? "e") || (c =? "E"))%char then
        let '(neg, s2) :=
          match s1 with
          | String "+" t => (false, t)
          | String "-" t => (true, t)
          | _ => (false, s1)
          end in
        let '(ds, rest) := spanDigits s2 in
        if Str.isEmpty ds then (0, s)
        else (if neg then - Str.digitsValue 0 ds else Str.digitsValue 0 ds, rest)
      else (0, s)
  | EmptyString => (0, s)
  end.

Fixpoint drop (n : nat) (s : string) : string :=
  match n, s with
  | S n', String _ s' => drop n' s'
  | _, _ => s
  end.

Fixpoint take (n : nat) (s : string) : string :=
  match n, s with
  | S n', String c s' => String c (take n' s')
  | _, _ => EmptyString
  end.

Definition scanUnsigned (neg : bool) (s : string) : option (float * string) :=
  if String.prefix "Infinity" s
  then Some (ofBool neg infinity neg_infinity, drop 8 s)
  else
    let '(ip, s1) := spanDigits s in
    match s1 with
    | String "." s2 =>
        let '(fp, s3) := spanDigits s2 in
        if Str.isEmpty ip && Str.isEmpty fp then None
        else
          let '(e, rest) := scanExponent s3 in
          Some (ofDecimal neg (Str.digitsValue 0 (ip ++ fp))
                  (e - Z.of_nat (String.length fp)), rest)
    | _ =>
        if Str.isEmpty ip then None
        else
          let '(e, rest) := scanExponent s1 in
          Some (ofDecimal neg (Str.digitsValue 0 ip) e, rest)
    end.

(** The longest prefix of [s] that is a StrDecimalLiteral, with its value
    and the unread rest. *)
Definition scanDecimal (s : string) : option (float * string) :=
  match s with
  | String "+" t => scanUnsigned false t
  | String "-" t => scanUnsigned true t
  | _ => scanUnsigned false s
  end.

(** [parseFloat(s)] for a string [s]. *)
Definition parseFloat (s : string) : float :=
  match scanDecimal (Str.trimStart s) with
  | Some (v, _) => v
  | None => nan
  end.

(** *** [Number(s)] for a string (StringToNumber) *)

Definition radixDigit (radix : Z) (c : ascii) : option Z :=
  let n := Z.of_N (Str.code c) in
  let v := if (48 <=? n) && (n <=? 57) then n - 48
           else if (97 <=? n) && (n <=? 102) then n - 87
           else if (65 <=? n) && (n <=? 70) then n - 55
           else radix in
  if v <? radix then Some v else None.

Fixpoint radixValue (radix acc : Z) (s : string) : option Z :=
  match s with
  | EmptyString => Some acc
  | String c s' =>
      match radixDigit radix c with
      | Some v => radixValue radix (radix * acc + v) s'
      | None => None
      end
  end.

(** NonDecimalIntegerLiteral: [0x], [0o], [0b] and at least one digit. *)
Definition scanNonDecimal (s : string) : option float :=
  match s with
  | String "0" (String p (String c ds as body)) =>
      let radix := if ((p =? "x") || (p =? "X"))%char then 16
                   else if ((p =? "o") || (p =? "O"))%char then 8
                   else if ((p =? "b") || (p =? "B"))%char then 2
                   else 0 in
      if radix =? 0 then None
      else option_map ofZ (radixValue radix 0 body)
  | _ => None
  end.

Definition ofString (s : string) : float :=
  let t := Str.trim s in
  if Str.isEmpty t then zero
  else
    match scanNonDecimal t with
    | Some v => v
    | None =>
        match scanDecimal t with
        | Some (v, EmptyString) => v
        | _ => nan
        end
    end.

(** *** [Number::toString] (radix 10) *)

(** The positive rational [m * 2^e] as a fraction. *)
Definition fracOf (m : positive) (e : Z) : Z * Z :=
  if 0 <=? e then (Zpos m * 2 ^ e, 1) else (Zpos m, 2 ^ (- e)).

(** [num / den * 10^t] as a fraction. *)
Definition scale10 (num den t : Z) : Z * Z :=
  if 0 <=? t then (num * 10 ^ t, den) else (num, den * 10 ^ (- t)).

(** The [n] with [10^(n-1) <= num/den < 10^n]. *)
Definition decExponent (num den : Z) : Z :=
  let n0 := ndigits num - ndigits den in
  let '(a, b) := scale10 num den (- n0) in
  if b <=? a then n0 + 1 else n0.

(** The shortest digit string [s] (of [k] digits) and exponent [n] with
    [s * 10^(n-k)] rounding to [x]; among the candidates of that length the
    one closest to [x].  Returns [(s, k, n)]. *)
Fixpoint shortestFrom (fuel : nat) (x : float) (num den n k : Z) : Z * Z * Z :=
  let '(a, b) := scale10 num den (k - n) in
  let lo := a / b in
  let r := a mod b in
  let hi := lo + 1 in
  let fits c := PrimFloat.eqb (ofDecimal false c (n - k)) x in
  let pick c := if c =? 10 ^ k then (1, 1, n + 1) else (c, k, n) in
  match fuel with
  | O => pick lo
  | S fuel' =>
      if r =? 0 then pick lo
      else
        match fits lo, fits hi with
        | true, true =>
            match 2 * r ?= b with
            | Lt => pick lo
            | Gt => pick hi
            | Eq => if Z.even lo then pick lo else pick hi
            end
        | true, false => pick lo
        | false, true => pick hi
        | false, false => shortestFrom fuel' x num den n (k + 1)
        end
  end.

Definition zeros (n : Z) : string := Str.replicate (Z.to_nat n) "0"%char.

Definition formatDigits (s k n : Z) : string :=
  let ds := Str.ofN (Z.to_N s) in
  if (k <=? n) && (n <=? 21) then ds ++ zeros (n - k)
  else if (0 <? n) && (n <=? 21)
    then take (Z.to_nat n) ds ++ "." ++ drop (Z.to_nat n) ds
  else if (-6 <? n) && (n <=? 0) then "0." ++ zeros (- n) ++ ds
  else
    let e := n - 1 in
    let es := (if 0 <=? e then "+" else "-") ++ Str.ofN (Z.to_N (Z.abs e)) in
    if k =? 1 then ds ++ "e" ++ es
    else take 1 ds ++ "." ++ drop 1 ds ++ "e" ++ es.

Definition toString (x : float) : string :=
  match Prim2SF x with
  | S754_nan => "NaN"
  | S754_zero _ => "0"
  | S754_infinity s => if s then "-Infinity" else "Infinity"
  | S754_finite s m e =>
      let '(num, den) := fracOf m e in
      let n := decExponent num den in
      let '(d, k, n') := shortestFrom 17 (abs x) num den n 1 in
      (if s then "-" else "") ++ formatDigits d k n'
  end.

(** *** [Number.prototype.toFixed(fd)] *)

Definition fixedDigits (fd : nat) (n : Z) : string :=
  let m := Str.padStart0 (S fd) (Str.ofN (Z.to_N n)) in
  match fd with
  | O => m
  | _ =>
      let k := (String.length m - fd)%nat in
      take k m ++ "." ++ drop k m
  end.

Definition toFixed (fd : nat) (x : float) : string :=
  match Prim2SF x with
  | S754_nan | S754_infinity _ => toString x
  | S754_zero _ => fixedDigits fd 0
  | S754_finite s m e =>
      let '(num, den) := fracOf m e in
      if 10 ^ 21 * den <=? num then toString x
      else
        let n := (2 * num * 10 ^ Z.of_nat fd + den) / (2 * den) in
        (if s then "-" else "") ++ fixedDigits fd n
  end.

(** *** [Math] *)

Definition isNaN (x : float) : bool := is_nan x.
Definition isFinite (x : float) : bool := is_finite x.

Definition isNegZero (x : float) : bool :=
  match classify x with NZero => true | _ => false end.
Definition isPosZero (x : float) : bool :=
  match classify x with PZero => true | _ => false end.

(** [Math.round]: the nearest integer, ties towards +Infinity. *)
Definition round (x : float) : float :=
  match Prim2SF x with
  | S754_finite s m e =>
      if 0 <=? e then x
      else
        let den := 2 ^ (- e) in
        let num := if s then Zneg m else Zpos m in
        let r := (2 * num + den) / (2 * den) in
        if r =? 0 then ofBool s zero neg_zero else ofZ r
  | _ => x
  end.

(** [Math.ceil]. *)
Definition ceil (x : float) : float :=
  match Prim2SF x with
  | S754_finite s m e =>
      if 0 <=? e then x
      else
        let den := 2 ^ (- e) in
        let num := if s then Zneg m else Zpos m in
        let r := - ((- num) / den) in
        if r =? 0 then ofBool s zero neg_zero else ofZ r
  | _ => x
  end.

(** [Math.max(a, b)] and [Math.min(a, b)]. *)
Definition max (a b : float) : float :=
  if isNaN a || isNaN b then nan
  else if PrimFloat.ltb a b || (isNegZero a && isPosZero b) then b
  else a.

Definition min (a b : float) : float :=
  if isNaN a || isNaN b then nan
  else if PrimFloat.ltb b a || (isPosZero a && isNegZero b) then b
  else a.

End Num.

(** ** Primitive values, conversions, the heap of arrays *)

Inductive prim : Type :=
| PUndef
| PNull
| PBool (b : bool)
| PNum (f : float)
| PStr (s : string).

Definition loc := positive.

(** A value is a primitive or a reference to an array. *)
Inductive value : Type :=
| VPrim (p : prim)
| VArr (l : loc).

Module JS.

(** ToBoolean. *)
Definition truthy (v : prim) : bool :=
  match v with
  | PUndef | PNull => false
  | PBool b => b
  | PNum f => negb (is_zero f || is_nan f)
  | PStr s => negb (Str.isEmpty s)
  end.

(** [a || b]. *)
Definition or (a b : prim) : prim := if truthy a then a else b.

(** [a ?? b]. *)
Definition coalesce (a b : prim) : prim :=
  match a with
  | PUndef | PNull => b
  | _ => a
  end.

(** [String(v)]. *)
Definition ToString (v : prim) : string :=
  match v with
  | PUndef => "undefined"
  | PNull => "null"
  | PBool true => "true"
  | PBool false => "false"
  | PNum f => Num.toString f
  | PStr s => s
  end.

(** [Number(v)]. *)
Definition ToNumber (v : prim) : float :=
  match v with
  | PUndef => nan
  | PNull => zero
  | PBool true => one
  | PBool false => zero
  | PNum f => f
  | PStr s => Num.ofString s
  end.

(** [a > b] (IsLessThan with the operands swapped): two strings are
    compared as strings, anything else as Numbers. *)
Definition gt (a b : prim) : bool :=
  match a, b with
  | PStr x, PStr y => Str.gtb x y
  | _, _ => PrimFloat.ltb (ToNumber b) (ToNumber a)
  end.

(** [typeof v !== "undefined"]. *)
Definition defined (v : prim) : bool :=
  match v with PUndef => false | _ => true end.

End JS.

(** *** Exceptions and state *)

Inductive result (A : Type) : Type :=
| Ok (a : A)
| Throw (msg : string).
Arguments Ok {A} a.
Arguments Throw {A} msg.

(** A computation over a store [S] that returns or throws; the store as it
    is when the exception is raised is kept. *)
Definition M (S A : Type) : Type := S -> result A * S.

Definition ret {S A} (a : A) : M S A := fun s => (Ok a, s).

Definition throw {S A} (msg : string) : M S A := fun s => (Throw msg, s).

Definition bind {S A B} (c : M S A) (k : A -> M S B) : M S B :=
  fun s =>
    match c s with
    | (Ok a, s') => k a s'
    | (Throw msg, s') => (Throw msg, s')
    end.

Definition gets {S A} (f : S -> A) : M S A := fun s => (Ok (f s), s).

Definition modify {S} (f : S -> S) : M S unit := fun s => (Ok tt, f s).

Notation "'let*' x ':=' c 'in' k" := (bind c (fun x => k))
  (at level 10, x name, c at level 100, k at level 200).
Notation "'do' c 'in' k" := (bind c (fun _ => k))
  (at level 10, c at level 100, k at level 200).

(** [try c catch (err) h(err.message)]. *)
Definition tryCatch {S A} (c : M S A) (h : string -> M S A) : M S A :=
  fun s =>
    match c s with
    | (Ok a, s') => (Ok a, s')
    | (Throw msg, s') => h msg s'
    end.

(** *** Regular expressions of the models *)

Module Re.

(** [/^P-(\d{5})$/.exec(s)] for a prefix letter [P]: the captured digits. *)
Definition matchId (p : ascii) (s : string) : option string :=
  match s with
  | String c (String "-" ds) =>
      if (c =? p)%char && (String.length ds =? 5)%nat && Str.all Str.isDigit ds
      then Some ds else None
  | _ => None
  end.

Definition testId (p : ascii) (s : string) : bool :=
  match matchId p s with Some _ => true | None => false end.

(** [/^\d{4}-\d{2}-\d{2}$/.test(s)]. *)
Definition isYmd (s : string) : bool :=
  match s with
  | String y1 (String y2 (String y3 (String y4 (String "-"
      (String m1 (String m2 (String "-"
      (String d1 (String d2 EmptyString))))))))) =>
      forallb Str.isDigit [y1; y2; y3; y4; m1; m2; d1; d2]
  | _ => false
  end.

(** [s.split(/\r?\n|,/)]: [cur] is the piece being read, reversed. *)
Fixpoint splitFrom (cur : string) (s : string) : list string :=
  match s with
  | EmptyString => [Str.rev cur]
  | String c s' =>
      if (c =? ",")%char || (Str.code c =? 10)%N
      then Str.rev cur :: splitFrom EmptyString s'
      else
        match s' with
        | String c' s'' =>
            if (Str.code c =? 13)%N && (Str.code c' =? 10)%N
            then Str.rev cur :: splitFrom EmptyString s''
            else splitFrom (String c cur) s'
        | EmptyString => splitFrom (String c cur) s'
        end
  end.

Definition split (s : string) : list string := splitFrom EmptyString s.

End Re.

(** *** The heap of arrays *)

Abbreviation heap := (gmap loc (list prim)).

Module Heap.

(** The elements of the array at [l] (no array: no elements). *)
Definition read (h : heap) (l : loc) : list prim := default [] (h !! l).

(** A new array with elements [xs], at a location not in use. *)
Definition alloc (xs : list prim) (h : heap) : loc * heap :=
  let l := fresh (dom h) in (l, <[l := xs]> h).

End Heap.

(** *** [encodeURIComponent]

    Every character but the unreserved ones (letters, digits and
    [- _ . ! ~ * ' ( )]) is replaced by the octets of its UTF-8 encoding,
    each written [%XX] with capital hexadecimal digits.  A code point below
    U+0080 is one octet, one from U+0080 to U+00FF two. *)

Module Uri.

Definition isAlnum (c : ascii) : bool :=
  let n := Str.code c in
  (((65 <=? n) && (n <=? 90)) || ((97 <=? n) && (n <=? 122))
   || ((48 <=? n) && (n <=? 57)))%N.

Definition isMark (c : ascii) : bool :=
  existsb (Ascii.eqb c) ["-"; "_"; "."; "!"; "~"; "*"; "'"; "("; ")"]%char.

Definition isUnreserved (c : ascii) : bool := isAlnum c || isMark c.

Definition hexDigit (n : N) : ascii :=
  (if n <? 10 then ascii_of_N (48 + n) else ascii_of_N (55 + n))%N.

Definition percent (octet : N) : string :=
  String "%" (String (hexDigit (octet / 16)) (String (hexDigit (octet mod 16)) "")).

Definition encodeChar (c : ascii) : string :=
  let n := Str.code c in
  if isUnreserved c then String c ""
  else if (n <? 128)%N then percent n
  else percent (192 + n / 64) ++ percent (128 + n mod 64).

Fixpoint encodeURIComponent (s : string) : string :=
  match s with
  | EmptyString => EmptyString
  | String c s' => encodeChar c ++ encodeURIComponent s'
  end.

End Uri.

(** *** Arrays of strings: [new Set(...)] and [sort()] *)

Module Arr.

(** [[...new Set(xs)]]: the first occurrence of every value, in the order
    of insertion; [seen] are the values already in the set. *)
Fixpoint uniqFrom (seen xs : list string) : list string :=
  match xs with
  | [] => []
  | x :: xs' =>
      if existsb (String.eqb x) seen then uniqFrom seen xs'
      else x :: uniqFrom (x :: seen) xs'
  end.

Definition uniq (xs : list string) : list string := uniqFrom [] xs.

(** [xs.sort()] with the default comparison, on strings: ascending in the
    order of the code units.  Equal strings cannot be told apart, so the
    sorted arrangement is the same for every sorting method; here it is
    built by insertion. *)
Fixpoint insert (x : string) (l : list string) : list string :=
  match l with
  | [] => [x]
  | y :: l' => if Str.gtb x y then y :: insert x l' else x :: l
  end.

Definition sort (xs : list string) : list string := fold_right insert [] xs.

(** [s || d] for a string [s]. *)
Definition orStr (s d : string) : string := if Str.isEmpty s then d else s.

End Arr.

(** ** models/recipe.js *)

Module Recipe.

(** A stored recipe; [ingredients] and [instructions] refer to arrays. *)
Record t : Type := mk {
  recipeId : string;
  title : string;
  chef : string;
  ingredients : loc;
  instructions : loc;
  mealType : string;
  cuisineType : string;
  prepTime : float;
  difficulty : string;
  servings : float;
  createdDate : string
}.

(** The store the class works on: the arrays, and the [recipes] array. *)
Record store : Type := mkStore {
  arrays : heap;
  recipes : list t
}.

Definition newArray (xs : list prim) : M store loc :=
  fun s =>
    let '(l, h) := Heap.alloc xs (arrays s) in
    (Ok l, mkStore h (recipes s)).

Definition readArray (l : loc) : M store (list prim) :=
  gets (fun s => Heap.read (arrays s) l).

(** The object given to the constructor. *)
Record args : Type := mkArgs {
  a_recipeId : prim;
  a_title : prim;
  a_chef : prim;
  a_ingredients : value;
  a_instructions : value;
  a_mealType : prim;
  a_cuisineType : prim;
  a_prepTime : prim;
  a_difficulty : prim;
  a_servings : prim;
  a_createdDate : prim
}.

(** A parameter default [x = []]. *)
Definition defaultArray (v : value) : M store value :=
  match v with
  | VPrim PUndef => let* l := newArray [] in ret (VArr l)
  | _ => ret v
  end.

(** A parameter default [x = d] for a primitive. *)
Definition defaultPrim (v d : prim) : prim :=
  match v with PUndef => d | _ => v end.

Definition isDifficulty (s : string) : bool :=
  (s =? "Easy") || (s =? "Medium") || (s =? "Hard").

(** [arr.slice()]: a new array with the elements of [arr].  The
    constructor only gets here with an array. *)
Definition slice (v : value) : M store loc :=
  match v with
  | VArr l => let* xs := readArray l in newArray xs
  | VPrim _ => throw "TypeError: slice is not a function"
  end.

Definition isArray (v : value) : bool :=
  match v with VArr _ => true | VPrim _ => false end.

(** The "Data validation" part of the constructor: the message of the
    first check that fails, in the order of the source. *)
Definition validate (a : args) (ingredients instructions : value)
    (createdDate : prim) : option string :=
  let n := JS.ToNumber in
  if negb (Re.testId "R" (JS.ToString (a_recipeId a)))
  then Some "recipeId must be in 'R-00001' format"
  else if Str.isEmpty (Str.trim (JS.ToString (JS.or (a_title a) (PStr ""))))
  then Some "title is required"
  else if Str.isEmpty (Str.trim (JS.ToString (JS.or (a_chef a) (PStr ""))))
  then Some "chef is required"
  else if negb (Num.isFinite (n (a_prepTime a))) || (n (a_prepTime a) <=? 0)%float
  then Some "prepTime must be a number > 0"
  else if negb (isDifficulty (JS.ToString (a_difficulty a)))
  then Some "difficulty must be one of 'Easy' | 'Medium' | 'Hard'"
  else if negb (Num.isFinite (n (a_servings a))) || (n (a_servings a) <=? 0)%float
  then Some "servings must be a number > 0"
  else if negb (isArray ingredients)
  then Some "ingredients must be an array"
  else if negb (isArray instructions)
  then Some "instructions must be an array"
  else if negb (Re.isYmd (JS.ToString createdDate))
  then Some "createdDate must be in 'YYYY-MM-DD' format"
  else None.

(** [new Recipe({...})]: the parameter defaults, the validation, and the
    "Assign" part.  [today] is what
    [new Date().toISOString().slice(0, 10)] evaluates to. *)
Definition new (today : string) (a : args) : M store t :=
  let* ingredients := defaultArray (a_ingredients a) in
  let* instructions := defaultArray (a_instructions a) in
  let createdDate := defaultPrim (a_createdDate a) (PStr today) in
  match validate a ingredients instructions createdDate with
  | Some msg => throw msg
  | None =>
      let* ing := slice ingredients in
      let* ins := slice instructions in
      ret {| recipeId := JS.ToString (a_recipeId a);
             title := Str.trim (JS.ToString (a_title a));
             chef := Str.trim (JS.ToString (a_chef a));
             ingredients := ing;
             instructions := ins;
             mealType := Str.trim (JS.ToString (JS.or (a_mealType a) (PStr "")));
             cuisineType := Str.trim (JS.ToString (JS.or (a_cuisineType a) (PStr "")));
             prepTime := JS.ToNumber (a_prepTime a);
             difficulty := JS.ToString (a_difficulty a);
             servings := JS.ToNumber (a_servings a);
             createdDate := JS.ToString createdDate |}
  end.

(** [Recipe.formatId(n)] for the integer [n]. *)
Definition formatId (n : N) : string :=
  "R-" ++ Str.padStart0 5 (Str.ofN n).

(** The pieces [Recipe.parseList(str)] returns. *)
Definition parseItems (str : prim) : list string :=
  List.filter (fun s => negb (Str.isEmpty s))
    (map Str.trim (Re.split (JS.ToString (JS.or str (PStr ""))))).

(** [Recipe.parseList(str)]: the pieces, in a new array. *)
Definition parseList (str : prim) : M store loc :=
  newArray (map PStr (parseItems str)).

(** [recipes.find(r => r.recipeId === rid) || null]. *)
Definition findById (recipeId : prim) : M store (option t) :=
  let rid := JS.ToString (JS.or recipeId (PStr "")) in
  gets (fun s => find (fun r => (Recipe.recipeId r =? rid)%string) (recipes s)).

(** The numeric suffix a stored id contributes to the next id. *)
Definition idNumber (id : string) : N :=
  match Re.matchId "R" (JS.ToString (JS.or (PStr id) (PStr ""))) with
  | Some ds => Z.to_N (Str.digitsValue 0 ds)
  | None => 0
  end.

(** [recipes.map(...).reduce((a, b) => Math.max(a, b), 0) + 1]; the
    Numbers involved are integers of at most six digits. *)
Definition nextNum (rs : list t) : N :=
  (fold_left N.max (map (fun r => idNumber (recipeId r)) rs) 0 + 1)%N.

(** The fields [add] reads from [req.body], and two it does not read. *)
Record payload : Type := mkPayload {
  p_title : prim;
  p_chef : prim;
  p_mealType : prim;
  p_cuisineType : prim;
  p_prepTime : prim;
  p_difficulty : prim;
  p_servings : prim;
  p_ingredients : prim;
  p_instructions : prim;
  p_recipeId : prim;
  p_createdDate : prim
}.

Definition emptyPayload : payload :=
  mkPayload PUndef PUndef PUndef PUndef PUndef PUndef PUndef PUndef PUndef
    PUndef PUndef.

Definition push (r : t) : M store unit :=
  modify (fun s => mkStore (arrays s) (recipes s ++ [r])%list).

(** The object [newRecipe] that [add] builds. *)
Definition newRecipe (today : string) (nextNum : N) (p : payload)
    (ingredients instructions : loc) : args :=
  {| a_recipeId := PStr (formatId nextNum);
     a_title := PStr (Str.trim (JS.ToString (JS.or (p_title p) (PStr ""))));
     a_chef := PStr (Str.trim (JS.ToString (JS.or (p_chef p) (PStr ""))));
     a_mealType := PStr (Str.trim (JS.ToString (JS.or (p_mealType p) (PStr ""))));
     a_cuisineType :=
       PStr (Str.trim (JS.ToString (JS.or (p_cuisineType p) (PStr ""))));
     a_prepTime := PNum (JS.ToNumber (p_prepTime p));
     a_difficulty :=
       PStr (Str.trim (JS.ToString (JS.or (p_difficulty p) (PStr ""))));
     a_servings := PNum (JS.ToNumber (p_servings p));
     a_createdDate := PStr today;
     a_ingredients := VArr ingredients;
     a_instructions := VArr instructions |}.

(** [Recipe.add(recipes, payload)]; [None] is a missing payload. *)
Definition add (today : string) (payload : option payload) : M store t :=
  let p := default emptyPayload payload in
  let t := Str.trim (JS.ToString (JS.or (p_title p) (PStr ""))) in
  let chefValue := Str.trim (JS.ToString (JS.or (p_chef p) (PStr ""))) in
  if Str.isEmpty t then throw "title is required"
  else if Str.isEmpty chefValue then throw "chef is required"
  else
    let* rs := gets recipes in
    let nextNum := nextNum rs in
    let* ingredients := parseList (p_ingredients p) in
    let* instructions := parseList (p_instructions p) in
    let* validated := new today (newRecipe today nextNum p ingredients instructions) in
    do push validated in
    ret validated.

(** [Recipe.deleteById(recipes, recipeId)]. *)
Fixpoint removeFirst (rid : string) (rs : list t) : option (t * list t) :=
  match rs with
  | [] => None
  | r :: rs' =>
      if (recipeId r =? rid)%string then Some (r, rs')
      else
        match removeFirst rid rs' with
        | Some (x, rest) => Some (x, r :: rest)
        | None => None
        end
  end.

Definition deleteById (recipeId : prim) : M store (option t) :=
  let rid := JS.ToString (JS.or recipeId (PStr "")) in
  fun s =>
    match removeFirst rid (recipes s) with
    | Some (removed, rest) => (Ok (Some removed), mkStore (arrays s) rest)
    | None => (Ok None, s)
    end.

(** [Recipe.list(recipes)]. *)
Definition list : M store (Datatypes.list t) := gets recipes.

End Recipe.

(** ** Dates

    A Date object is its time value: milliseconds since the epoch in UTC, or
    NaN ([None]).  The host's local time zone is a fixed offset [tza]
    (milliseconds east of UTC; LocalTZA of ECMA-262, without daylight
    saving).  The strings the application stores as dates have the form
    [YYYY-MM-DD], which the constructors check; what the engine makes of a
    string of another form is a parameter, [otherForms], of the functions
    that parse a date. *)

Module Date.

Local Open Scope Z_scope.

Definition t : Type := option Z.

Definition msPerDay : Z := 86400000.

Definition timeClip (v : Z) : t :=
  if Z.abs v <=? 8640000000000000 then Some v else None.

Definition isLeap (y : Z) : bool :=
  ((y mod 4 =? 0) && negb (y mod 100 =? 0)) || (y mod 400 =? 0).

Definition dayFromYear (y : Z) : Z :=
  365 * (y - 1970) + (y - 1969) / 4 - (y - 1901) / 100 + (y - 1601) / 400.

Definition daysInMonth (y m : Z) : Z :=
  if m =? 2 then (if isLeap y then 29 else 28)
  else if (m =? 4) || (m =? 6) || (m =? 9) || (m =? 11) then 30
  else 31.

(** Days of the year before the first of month [m] (1 - 12). *)
Fixpoint daysBefore (y : Z) (m : nat) : Z :=
  match m with
  | O | S O => 0
  | S m' => daysBefore y m' + daysInMonth y (Z.of_nat m')
  end.

(** MakeDay: the day number of the calendar date. *)
Definition makeDay (y m d : Z) : Z :=
  dayFromYear y + daysBefore y (Z.to_nat m) + d - 1.

(** [Date.parse(s)].  The date-only form [YYYY-MM-DD] denotes midnight UTC
    of a calendar date.  The engine (V8) takes a month from 01 to 12 and a
    day from 01 to 31 and refuses the others; a day past the end of its
    month runs into the next month, as MakeDay has it ([2026-02-30] is the
    second of March).  What a string of another form denotes is the
    engine's business: [otherForms] stands for its parser on those. *)
Definition parse (otherForms : string -> t) (s : string) : t :=
  if Re.isYmd s then
    let y := Str.digitsValue 0 (Num.take 4 s) in
    let m := Str.digitsValue 0 (Num.take 2 (Num.drop 5 s)) in
    let d := Str.digitsValue 0 (Num.take 2 (Num.drop 8 s)) in
    if (1 <=? m) && (m <=? 12) && (1 <=? d) && (d <=? 31)
    then timeClip (makeDay y m d * msPerDay)
    else None
  else otherForms s.

(** The integer part of a finite Number. *)
Definition truncate (x : float) : option Z :=
  match Prim2SF x with
  | S754_zero _ => Some 0
  | S754_finite s m e =>
      let a := if 0 <=? e then Zpos m * 2 ^ e else Zpos m / 2 ^ (- e) in
      Some (if s then - a else a)
  | _ => None
  end.

(** [new Date(v)] for a primitive [v]: a string is parsed, anything else
    is a time value. *)
Definition ofPrim (otherForms : string -> t) (v : prim) : t :=
  match v with
  | PStr s => parse otherForms s
  | _ =>
      match truncate (JS.ToNumber v) with
      | Some z => timeClip z
      | None => None
      end
  end.

(** [d.setHours(0, 0, 0, 0)]: midnight, local time, of the day of [d]. *)
Definition setHours0 (tza : Z) (d : t) : t :=
  match d with
  | Some v =>
      let localDay := (v + tza) / msPerDay in
      timeClip (localDay * msPerDay - tza)
  | None => None
  end.

(** The Number a Date converts to in arithmetic. *)
Definition valueOf (d : t) : float :=
  match d with
  | Some v => Num.ofZ v
  | None => nan
  end.

End Date.

(** ** models/inventoryItem.js *)

Module InventoryItem.

Record t : Type := mk {
  inventoryId : string;
  userId : string;
  ingredientName : string;
  quantity : float;
  unit : string;
  category : string;
  purchaseDate : prim;
  expirationDate : prim;
  location : string;
  cost : float;
  createdDate : string
}.

(** The object given to the constructor. *)
Record args : Type := mkArgs {
  a_inventoryId : prim;
  a_userId : prim;
  a_ingredientName : prim;
  a_quantity : prim;
  a_unit : prim;
  a_category : prim;
  a_purchaseDate : prim;
  a_expirationDate : prim;
  a_location : prim;
  a_cost : prim;
  a_createdDate : prim
}.

Definition defaultPrim (v d : prim) : prim :=
  match v with PUndef => d | _ => v end.

Definition blank (v : prim) : bool :=
  Str.isEmpty (Str.trim (JS.ToString (JS.or v (PStr "")))).

Definition isYmd (v : prim) : bool := Re.isYmd (JS.ToString v).

(** The "Data validation" part of the constructor: the message of the
    first check that fails, in the order of the source. *)
Definition validate (a : args) (cost createdDate : prim) : option string :=
  let n := JS.ToNumber in
  if negb (Re.testId "I" (JS.ToString (a_inventoryId a)))
  then Some "inventoryId must be in 'I-00001' format"
  else if blank (a_userId a) then Some "userId is required"
  else if blank (a_ingredientName a) then Some "ingredientName is required"
  else if blank (a_unit a) then Some "unit is required"
  else if blank (a_category a) then Some "category is required"
  else if blank (a_location a) then Some "location is required"
  else if negb (Num.isFinite (n (a_quantity a))) || (n (a_quantity a) <? 0)%float
  then Some "quantity must be a non-negative number"
  else if negb (Num.isFinite (n cost)) || (n cost <? 0)%float
  then Some "cost must be a number >= 0"
  else if JS.truthy (a_purchaseDate a) && negb (isYmd (a_purchaseDate a))
  then Some "purchaseDate must be in 'YYYY-MM-DD' format"
  else if JS.truthy (a_expirationDate a) && negb (isYmd (a_expirationDate a))
  then Some "expirationDate must be in 'YYYY-MM-DD' format"
  else if negb (isYmd createdDate)
  then Some "createdDate must be in 'YYYY-MM-DD' format"
  else if JS.truthy (a_purchaseDate a) && JS.truthy (a_expirationDate a)
          && JS.gt (a_purchaseDate a) (a_expirationDate a)
  then Some "expirationDate must not be earlier than purchaseDate"
  else None.

(** [new InventoryItem({...})]. *)
Definition new {S} (today : string) (a : args) : M S t :=
  let cost := defaultPrim (a_cost a) (PNum zero) in
  let createdDate := defaultPrim (a_createdDate a) (PStr today) in
  match validate a cost createdDate with
  | Some msg => throw msg
  | None =>
      ret {| inventoryId := JS.ToString (a_inventoryId a);
             userId := Str.trim (JS.ToString (a_userId a));
             ingredientName := Str.trim (JS.ToString (a_ingredientName a));
             quantity := JS.ToNumber (a_quantity a);
             unit := Str.trim (JS.ToString (a_unit a));
             category := Str.trim (JS.ToString (a_category a));
             purchaseDate := JS.or (a_purchaseDate a) (PStr "");
             expirationDate := JS.or (a_expirationDate a) (PStr "");
             location := Str.trim (JS.ToString (a_location a));
             cost := JS.ToNumber cost;
             createdDate := JS.ToString createdDate |}
  end.

(** [InventoryItem.formatId(n)]. *)
Definition formatId (n : N) : string :=
  "I-" ++ Str.padStart0 5 (Str.ofN n).

Definition findById (inventoryId : prim) : M (list t) (option t) :=
  let iid := JS.ToString (JS.or inventoryId (PStr "")) in
  gets (fun items => find (fun i => (InventoryItem.inventoryId i =? iid)%string) items).

Definition idNumber (id : string) : N :=
  match Re.matchId "I" (JS.ToString (JS.or (PStr id) (PStr ""))) with
  | Some ds => Z.to_N (Str.digitsValue 0 ds)
  | None => 0
  end.

Definition nextNum (items : list t) : N :=
  (fold_left N.max (map (fun i => idNumber (inventoryId i)) items) 0 + 1)%N.

(** The form fields [add] reads. *)
Record payload : Type := mkPayload {
  p_userId : prim;
  p_name : prim;
  p_ingredientName : prim;
  p_category : prim;
  p_location : prim;
  p_quantity : prim;
  p_unit : prim;
  p_pricePerUnit : prim;
  p_cost : prim;
  p_expiry : prim;
  p_expirationDate : prim;
  p_purchaseDate : prim;
  p_createdDate : prim
}.

Definition emptyPayload : payload :=
  mkPayload PUndef PUndef PUndef PUndef PUndef PUndef PUndef PUndef PUndef
    PUndef PUndef PUndef PUndef.

Definition push (i : t) : M (list t) Datatypes.unit :=
  modify (fun items : list t => (items ++ [i])%list).

(** The object [newItemRaw] that [add] builds. *)
Definition newItemRaw (today : string) (nextNum : N) (p : payload) : args :=
  {| a_inventoryId := PStr (formatId nextNum);
     a_userId := PStr (Str.trim (JS.ToString (JS.or (p_userId p) (PStr ""))));
     a_ingredientName :=
       PStr (Str.trim (JS.ToString
               (JS.or (JS.or (p_ingredientName p) (p_name p)) (PStr ""))));
     a_quantity := PNum (JS.ToNumber (p_quantity p));
     a_unit := PStr (Str.trim (JS.ToString (JS.or (p_unit p) (PStr ""))));
     a_category := PStr (Str.trim (JS.ToString (JS.or (p_category p) (PStr ""))));
     a_purchaseDate := JS.or (p_purchaseDate p) (PStr today);
     a_expirationDate :=
       PStr (JS.ToString (JS.or (JS.or (p_expirationDate p) (p_expiry p)) (PStr "")));
     a_location :=
       PStr (Str.trim (JS.ToString (JS.or (p_location p) (PStr "Unknown"))));
     a_cost :=
       PNum (JS.ToNumber
               (JS.coalesce (JS.coalesce (p_cost p) (p_pricePerUnit p)) (PNum zero)));
     a_createdDate := PStr (JS.ToString (JS.or (p_createdDate p) (PStr today))) |}.

(** [InventoryItem.add(items, payload)]. *)
Definition add (today : string) (payload : option payload) : M (list t) t :=
  let p := default emptyPayload payload in
  let ingName :=
    Str.trim (JS.ToString (JS.or (JS.or (p_ingredientName p) (p_name p)) (PStr ""))) in
  if Str.isEmpty ingName then throw "ingredientName (or name) is required"
  else
    let uid := Str.trim (JS.ToString (JS.or (p_userId p) (PStr ""))) in
    if Str.isEmpty uid then throw "userId is required"
    else
      let* items := gets (fun items => items) in
      let nextNum := nextNum items in
      let* validated := new today (newItemRaw today nextNum p) in
      do push validated in
      ret validated.

Fixpoint removeFirst (iid : string) (items : list t) : option (t * list t) :=
  match items with
  | [] => None
  | i :: items' =>
      if (inventoryId i =? iid)%string then Some (i, items')
      else
        match removeFirst iid items' with
        | Some (x, rest) => Some (x, i :: rest)
        | None => None
        end
  end.

Definition deleteById (inventoryId : prim) : M (list t) (option t) :=
  let iid := JS.ToString (JS.or inventoryId (PStr "")) in
  fun items =>
    match removeFirst iid items with
    | Some (removed, rest) => (Ok (Some removed), rest)
    | None => (Ok None, items)
    end.

(** An item with the two derived fields; [daysLeft = None] is [null]. *)
Record derived : Type := mkDerived {
  item : t;
  daysLeft : option float;
  lineValue : float
}.

Definition derive (otherForms : string -> Date.t) (base : Date.t) (i : t) : derived :=
  let daysLeft :=
    if JS.truthy (expirationDate i) then
      let d := Date.ofPrim otherForms (expirationDate i) in
      Some (Num.ceil ((Date.valueOf d - Date.valueOf base) / 86400000)%float)
    else None in
  let lineValue :=
    (JS.ToNumber (PNum (quantity i))
     * JS.ToNumber (JS.or (PNum (cost i)) (PNum zero)))%float in
  mkDerived i daysLeft lineValue.

(** [InventoryItem.withDerived(items, today)] in a host at offset [tza]
    whose [Date] reads the strings that are not [YYYY-MM-DD] as
    [otherForms] says. *)
Definition withDerived (otherForms : string -> Date.t) (tza : Z) (today : Date.t)
  : M (list t) (list derived) :=
  let base := Date.setHours0 tza today in
  gets (fun items => map (derive otherForms base) items).

(** [InventoryItem.list(items)]. *)
Definition list : M (Datatypes.list t) (Datatypes.list t) :=
  gets (fun items => items).

End InventoryItem.

(** ** middleware/validators.js *)

Module Validators.

(** What a middleware does: call [next()], answer 400, or fail with a
    TypeError (calling [.trim] on a value that has none). *)
Inductive outcome : Type :=
| Next
| Send400 (msg : string)
| TypeError.

(** [!v?.trim()]: [None] when [v.trim] is not a function. *)
Definition blank (v : prim) : option bool :=
  match v with
  | PUndef | PNull => Some true
  | PStr s => Some (Str.isEmpty (Str.trim s))
  | PBool _ | PNum _ => None
  end.

Definition require (v : prim) (msg : string) (k : outcome) : outcome :=
  match blank v with
  | None => TypeError
  | Some true => Send400 msg
  | Some false => k
  end.

(** [numNZ]: [!isNaN(v) && Number(v) >= 0]. *)
Definition numNZ (v : prim) : bool :=
  negb (Num.isNaN (JS.ToNumber v)) && (0 <=? JS.ToNumber v)%float.

(** [validateInventoryBody] on [req.body]. *)
Definition validateInventoryBody (b : InventoryItem.payload) : outcome :=
  require (InventoryItem.p_ingredientName b) "ingredientName is required" (
  require (InventoryItem.p_category b) "category is required" (
  require (InventoryItem.p_unit b) "unit is required" (
  require (InventoryItem.p_location b) "location is required" (
  if negb (numNZ (InventoryItem.p_quantity b)) then Send400 "quantity must be >= 0"
  else if negb (numNZ (InventoryItem.p_cost b)) then Send400 "cost must be >= 0"
  else if JS.truthy (InventoryItem.p_expirationDate b)
          && negb (Re.isYmd (JS.ToString (InventoryItem.p_expirationDate b)))
  then Send400 "expirationDate must be YYYY-MM-DD"
  else Next)))).

(** [pos]: [Number.isFinite(Number(v)) && Number(v) > 0]. *)
Definition pos (v : prim) : bool :=
  Num.isFinite (JS.ToNumber v) && (0 <? JS.ToNumber v)%float.

(** [validateRecipeBody] on [req.body]. *)
Definition validateRecipeBody (b : Recipe.payload) : outcome :=
  require (Recipe.p_title b) "Title is required" (
  require (Recipe.p_chef b) "Chef is required" (
  require (Recipe.p_mealType b) "Meal type is required" (
  require (Recipe.p_cuisineType b) "Cuisine type is required" (
  if negb (pos (Recipe.p_prepTime b))
  then Send400 "prepTime must be a positive number"
  else if negb (existsb (String.eqb (JS.ToString (Recipe.p_difficulty b)))
                  ["Easy"; "Medium"; "Hard"])
  then Send400 "difficulty must be Easy/Medium/Hard"
  else if negb (pos (Recipe.p_servings b))
  then Send400 "servings must be a positive number"
  else if Str.isEmpty (Str.trim (JS.ToString
            (JS.coalesce (Recipe.p_ingredients b) (PStr ""))))
  then Send400 "ingredients is required"
  else if Str.isEmpty (Str.trim (JS.ToString
            (JS.coalesce (Recipe.p_instructions b) (PStr ""))))
  then Send400 "instructions is required"
  else Next)))).

End Validators.

(** ** app.js *)

Module App.

(** What a handler answers. *)
Inductive response : Type :=
| Redirect (status : nat) (url : string)
| Send (status : nat) (body : string)
| Uncaught.

Definition send400 (msg : string) : response :=
  Send 400 ("<h3>400 Bad Request</h3><p>" ++ msg ++ "</p>").

Definition defaultUserId : string := "TakumiWatanabe-00000001".

(** [req.body.userId = v]. *)
Definition setUserId (v : prim) (b : InventoryItem.payload) : InventoryItem.payload :=
  let 'InventoryItem.mkPayload _ nm ing cat loc qty un ppu cst exy exd pur cre := b in
  InventoryItem.mkPayload v nm ing cat loc qty un ppu cst exy exd pur cre.

(** [app.post("/inventory-00000001", validateInventoryBody, handler)]. *)
Definition postInventory (today : string) (body : InventoryItem.payload)
  : M (list InventoryItem.t) response :=
  match Validators.validateInventoryBody body with
  | Validators.Send400 msg => ret (send400 msg)
  | Validators.TypeError => ret Uncaught
  | Validators.Next =>
      tryCatch
        (let body' :=
           if negb (JS.truthy (InventoryItem.p_userId body))
           then setUserId (PStr defaultUserId) body else body in
         do InventoryItem.add today (Some body') in
         ret (Redirect 303 "/inventoryItem-00000001"))
        (fun msg => ret (Send 400 msg))
  end.

(** [textIncludes(haystack, needle)]. *)
Definition textIncludes (haystack needle : prim) : bool :=
  Str.includes
    (Str.toLowerCase (JS.ToString (JS.or haystack (PStr ""))))
    (Str.toLowerCase (JS.ToString (JS.or needle (PStr "")))).

(** [String(line).match(re)] for the pattern of [scaleLine]: from the
    start, white space [\s], a first group [[0-9]+] with an optional
    fraction [\.[0-9]+], white space [\s], and a second group of any
    characters but line terminators up to the end.  The result is the two
    groups.  Every quantifier is greedy, and giving characters back never
    helps the second group reach the end of the line, so the match, if
    any, is the one that takes the longest white space, the longest number,
    the longest white space, and a rest without line terminator.
    [optFraction ip s1] reads the optional fraction after the digits [ip]. *)
Definition optFraction (ip s1 : string) : string * string :=
  match s1 with
  | String "." t =>
      let '(fp, s2) := Num.spanDigits t in
      if Str.isEmpty fp then (ip, s1) else (ip ++ "." ++ fp, s2)
  | _ => (ip, s1)
  end.

Definition matchLine (s : string) : option (string * string) :=
  let '(ip, s1) := Num.spanDigits (Str.trimStart s) in
  if Str.isEmpty ip then None
  else
    let '(tok, s2) := optFraction ip s1 in
    let rest := Str.trimStart s2 in
    if Str.any Str.isLineTerminator rest then None else Some (tok, rest).

(** [scaleLine(line, scale)]. *)
Definition scaleLine (line : prim) (scale : float) : prim :=
  match matchLine (JS.ToString line) with
  | None => line
  | Some (tok, rest) =>
      let qty := Num.parseFloat tok in
      if negb (Num.isFinite qty) then line
      else
        let scaled := JS.ToNumber (PStr (Num.toFixed 2 (qty * scale)%float)) in
        PStr (Str.trim (JS.ToString (PNum scaled) ++ " " ++ rest))
  end.

(** A query parameter: a string, or not supplied. *)
Definition param (p : option string) : prim :=
  match p with
  | Some s => PStr s
  | None => PUndef
  end.

(** [parseFloat(v)]. *)
Definition parseFloat (v : prim) : float := Num.parseFloat (JS.ToString v).

(** The sanitized scale: fallback 1, clamped to 0.25 - 5. *)
Definition sanitizeScale (v : prim) : float :=
  let rawScale := parseFloat v in
  if Num.isFinite rawScale
  then Num.min 5 (Num.max 0.25 rawScale)
  else 1%float.

(** The predicate given to [recipes.filter]. *)
Definition matches (h : heap) (query : string) (r : Recipe.t) : bool :=
  if negb (JS.truthy (PStr query)) then true
  else
    textIncludes (PStr (Recipe.title r)) (PStr query)
    || textIncludes (PStr (Recipe.chef r)) (PStr query)
    || textIncludes (PStr (Recipe.mealType r)) (PStr query)
    || textIncludes (PStr (Recipe.cuisineType r)) (PStr query)
    || existsb (fun x => textIncludes x (PStr query))
         (Heap.read h (Recipe.ingredients r))
    || existsb (fun x => textIncludes x (PStr query))
         (Heap.read h (Recipe.instructions r)).

(** An element of [results]: the recipe and the three computed fields. *)
Record scaledRecipe : Type := mkScaled {
  recipe : Recipe.t;
  servingsScaled : float;
  ingredientsScaled : list prim;
  scaleUsed : float
}.

Definition scaleRecipe (h : heap) (scale : float) (r : Recipe.t) : scaledRecipe :=
  {| recipe := r;
     servingsScaled :=
       Num.max 1 (Num.round
         (JS.ToNumber (JS.or (PNum (Recipe.servings r)) (PNum 1)) * scale)%float);
     ingredientsScaled :=
       map (fun line => scaleLine line scale) (Heap.read h (Recipe.ingredients r));
     scaleUsed := scale |}.

(** What the search page is rendered with. *)
Record searchView : Type := mkView {
  results : list scaledRecipe;
  count : nat;
  query : string;
  scale : float;
  hasSearched : bool
}.

(** [app.get("/search-recipe-00000001", handler)] on the query parameters
    [query] and [scale]. *)
Definition searchRecipe (qQuery qScale : option string) : M Recipe.store searchView :=
  let hasSearched := JS.defined (param qQuery) || JS.defined (param qScale) in
  let query := Str.trim (JS.ToString (JS.or (param qQuery) (PStr ""))) in
  let scale := sanitizeScale (param qScale) in
  let* h := gets Recipe.arrays in
  let* recipes := gets Recipe.recipes in
  let results :=
    if hasSearched
    then map (scaleRecipe h scale) (List.filter (fun r => matches h query r) recipes)
    else [] in
  ret {| results := results;
         count := length results;
         query := query;
         scale := scale;
         hasSearched := hasSearched |}.

(** [app.post("/recipe-1", validateRecipeBody, handler)]. *)
Definition postRecipe (today : string) (body : Recipe.payload)
  : M Recipe.store response :=
  match Validators.validateRecipeBody body with
  | Validators.Send400 msg => ret (send400 msg)
  | Validators.TypeError => ret Uncaught
  | Validators.Next =>
      tryCatch
        (do Recipe.add today (Some body) in
         ret (Redirect 303 "/recipe-00000001"))
        (fun msg => ret (Send 400 msg))
  end.

(** The body of the delete confirmation form. *)
Record deleteForm : Type := mkDeleteForm {
  f_recipeId : prim;
  f_confirm : prim
}.

(** [x === "on"]. *)
Definition isOn (x : prim) : bool :=
  match x with
  | PStr s => (s =? "on")%string
  | _ => false
  end.

(** [app.post("/delete-recipe-00000001", handler)]; [res.redirect(url)]
    without a status answers 302. *)
Definition postDeleteRecipe (body : deleteForm) : M Recipe.store response :=
  let rid := JS.ToString (JS.or (f_recipeId body) (PStr "")) in
  let confirmed := isOn (f_confirm body) in
  if negb confirmed then
    ret (Redirect 302
           ("/delete-recipe-00000001?id=" ++ Uri.encodeURIComponent rid
            ++ "&type=warning&msg="
            ++ Uri.encodeURIComponent
                 "Please tick the confirmation checkbox to proceed."))
  else
    let* removed := Recipe.deleteById (PStr rid) in
    match removed with
    | None =>
        ret (Redirect 302
               ("/delete-recipe-00000001?type=danger&msg="
                ++ Uri.encodeURIComponent "Invalid recipe ID selected."))
    | Some _ => ret (Redirect 303 "/recipe-00000001")
    end.

(** [app.post("/recipe/:recipeId/delete-00000001", handler)]. *)
Definition postRecipeDelete (recipeId : string) : M Recipe.store response :=
  do Recipe.deleteById (PStr (JS.ToString (PStr recipeId))) in
  ret (Redirect 303 "/recipe-00000001").

(** [app.post("/delete-inventoryItem-00000001", handler)]. *)
Definition postDeleteInventoryItem (itemId : prim) : response :=
  Redirect 307
    ("/inventory/" ++ Uri.encodeURIComponent (JS.ToString itemId)
     ++ "/delete-00000001").

(** [app.post("/inventory/:inventoryId/delete-00000001", handler)]. *)
Definition postInventoryDelete (inventoryId : string)
  : M (list InventoryItem.t) response :=
  let* removed := InventoryItem.deleteById (PStr inventoryId) in
  match removed with
  | None =>
      ret (Redirect 302
             ("/inventoryItem-00000001?type=danger&msg="
              ++ Uri.encodeURIComponent "Inventory ID not found."))
  | Some r =>
      ret (Redirect 303
             ("/inventoryItem-00000001?type=success&msg="
              ++ Uri.encodeURIComponent
                   ("Deleted: " ++ InventoryItem.ingredientName r
                    ++ " (ID: " ++ InventoryItem.inventoryId r ++ ")")))
  end.

(** The [metrics] of the home page, [app.get("/", handler)]. *)
Record metrics : Type := mkMetrics {
  totalRecipes : nat;
  totalInventoryItems : nat;
  cuisineTypeCount : nat;
  inventoryValue : float
}.

Definition home (recipes : list Recipe.t) (inventory : list InventoryItem.t)
  : metrics :=
  {| totalRecipes := length recipes;
     totalInventoryItems := length inventory;
     cuisineTypeCount := length (Arr.uniq (map Recipe.cuisineType recipes));
     inventoryValue :=
       fold_left
         (fun sum i =>
            (sum + JS.ToNumber (PNum (InventoryItem.quantity i))
                   * JS.ToNumber (JS.or (PNum (InventoryItem.cost i)) (PNum zero)))%float)
         inventory zero |}.

(** What the inventory dashboard is rendered with,
    [app.get("/inventoryItem-00000001", handler)]; [now] is the value of
    [new Date()]. *)
Record dashboard : Type := mkDashboard {
  items : list InventoryItem.derived;
  totalValue : float;
  categories : list string;
  locations : list string;
  msg : prim;
  msgType : prim
}.

Definition inventoryDashboard (otherForms : string -> Date.t) (tza : Z) (now : Date.t)
  (qMsg qType : option string) : M (list InventoryItem.t) dashboard :=
  let* items := InventoryItem.withDerived otherForms tza now in
  let totalValue :=
    fold_left
      (fun s i =>
         (s + JS.ToNumber
                (JS.coalesce (PNum (InventoryItem.lineValue i))
                   (PNum (JS.ToNumber (JS.or (PNum (InventoryItem.quantity
                                                      (InventoryItem.item i)))
                                             (PNum zero))
                          * JS.ToNumber (JS.or (PNum (InventoryItem.cost
                                                        (InventoryItem.item i)))
                                               (PNum zero))))))%float)
      items zero in
  ret {| items := items;
         totalValue := totalValue;
         categories :=
           Arr.uniq (map (fun i => Arr.orStr (InventoryItem.category (InventoryItem.item i))
                                     "Uncategorized") items);
         locations :=
           Arr.uniq (map (fun i => Arr.orStr (InventoryItem.location (InventoryItem.item i))
                                     "Unknown") items);
         msg := JS.or (param qMsg) PNull;
         msgType := JS.or (param qType) (PStr "info") |}.

(** [eqOrAll(val, sel)] of the filter page. *)
Definition eqOrAll (val sel : string) : bool :=
  (sel =? "all")%string
  || (Str.toLowerCase (JS.ToString (JS.or (PStr val) (PStr "")))
      =? Str.toLowerCase (JS.ToString (PStr sel)))%string.

(** [[...new Set(xs)].filter(Boolean).sort()]. *)
Definition options (xs : list string) : list string :=
  Arr.sort (List.filter (fun x => JS.truthy (PStr x)) (Arr.uniq xs)).

(** What the filter page is rendered with,
    [app.get("/filter-recipe-00000001", handler)]. *)
Record filterView : Type := mkFilterView {
  filtered : list Recipe.t;
  total : nat;
  shown : nat;
  mealTypes : list string;
  cuisineTypes : list string;
  difficulties : list string;
  selMealType : string;
  selCuisineType : string;
  selDifficulty : string
}.

Definition filterRecipe (qMealType qCuisineType qDifficulty : option string)
    (recipes : list Recipe.t) : filterView :=
  let mealType := default "all" qMealType in
  let cuisineType := default "all" qCuisineType in
  let difficulty := default "all" qDifficulty in
  let filtered :=
    List.filter
      (fun r => eqOrAll (Recipe.mealType r) mealType
                && eqOrAll (Recipe.cuisineType r) cuisineType
                && eqOrAll (Recipe.difficulty r) difficulty)
      recipes in
  {| filtered := filtered;
     total := length recipes;
     shown := length filtered;
     mealTypes := options (map Recipe.mealType recipes);
     cuisineTypes := options (map Recipe.cuisineType recipes);
     difficulties := ["Easy"; "Medium"; "Hard"];
     selMealType := mealType;
     selCuisineType := cuisineType;
     selDifficulty := difficulty |}.

End App.

(** ** data/sampleData.js *)

Module SampleData.

Definition arrays : heap :=
  list_to_map
    [(1%positive,
       [PStr "400g spaghetti"; PStr "200g pancetta"; PStr "4 large eggs";
        PStr "100g Pecorino Romano"; PStr "Black pepper"]);
     (2%positive,
       [PStr "Boil salted water for pasta"; PStr "Cook pancetta until crispy";
        PStr "Whisk eggs with cheese"; PStr "Combine hot pasta with pancetta";
        PStr "Add egg mixture off heat"]);
     (3%positive,
       [PStr "2 slices sourdough bread"; PStr "1 ripe avocado"; PStr "1 tomato";
        PStr "Feta cheese"; PStr "Olive oil"; PStr "Lemon juice"]);
     (4%positive,
       [PStr "Toast bread until golden"; PStr "Mash avocado with lemon";
        PStr "Slice tomato"; PStr "Spread avocado on toast";
        PStr "Top with tomato and feta"])].

Definition carbonara : Recipe.t :=
  {| Recipe.recipeId := "R-00001";
     Recipe.title := "Classic Spaghetti Carbonara";
     Recipe.chef := "TakumiWatanabe";
     Recipe.ingredients := 1%positive;
     Recipe.instructions := 2%positive;
     Recipe.mealType := "Dinner";
     Recipe.cuisineType := "Italian";
     Recipe.prepTime := 25;
     Recipe.difficulty := "Medium";
     Recipe.servings := 4;
     Recipe.createdDate := "2025-07-20" |}.

Definition avocadoToast : Recipe.t :=
  {| Recipe.recipeId := "R-00002";
     Recipe.title := "Avocado Toast Supreme";
     Recipe.chef := "TakumiWatanabe";
     Recipe.ingredients := 3%positive;
     Recipe.instructions := 4%positive;
     Recipe.mealType := "Breakfast";
     Recipe.cuisineType := "Mediterranean";
     Recipe.prepTime := 10;
     Recipe.difficulty := "Easy";
     Recipe.servings := 2;
     Recipe.createdDate := "2025-07-21" |}.

Definition recipes : Recipe.store :=
  Recipe.mkStore arrays [carbonara; avocadoToast].

Definition tomatoes : InventoryItem.t :=
  {| InventoryItem.inventoryId := "I-00001";
     InventoryItem.userId := "TakumiWatanabe";
     InventoryItem.ingredientName := "Fresh Tomatoes";
     InventoryItem.quantity := 8;
     InventoryItem.unit := "pieces";
     InventoryItem.category := "Vegetables";
     InventoryItem.purchaseDate := PStr "2025-07-18";
     InventoryItem.expirationDate := PStr "2025-07-25";
     InventoryItem.location := "Fridge";
     InventoryItem.cost := Num.ofString "6.4";
     InventoryItem.createdDate := "2025-07-18" |}.

Definition pasta : InventoryItem.t :=
  {| InventoryItem.inventoryId := "I-00002";
     InventoryItem.userId := "TakumiWatanabe";
     InventoryItem.ingredientName := "Spaghetti Pasta";
     InventoryItem.quantity := 2;
     InventoryItem.unit := "kg";
     InventoryItem.category := "Grains";
     InventoryItem.purchaseDate := PStr "2025-07-15";
     InventoryItem.expirationDate := PStr "2025-12-15";
     InventoryItem.location := "Pantry";
     InventoryItem.cost := Num.ofString "8.9";
     InventoryItem.createdDate := "2025-07-22" |}.

Definition inventory : list InventoryItem.t := [tomatoes; pasta].

End SampleData.

(** ** The properties of the specification, in its words

    These definitions are not translated from the code: they state what the
    data model and the testable properties of the specification say, to be
    compared with what the code computes. *)

Module Spec.

(** "finite, > 0". *)
Definition positiveNumber (f : float) : bool :=
  Num.isFinite f && (0 <? f)%float.

(** "finite, >= 0". *)
Definition nonNegativeNumber (f : float) : bool :=
  Num.isFinite f && (0 <=? f)%float.

(** "non-empty after trim"; an absent field is empty. *)
Definition nonBlank (v : prim) : bool :=
  negb (Str.isEmpty (Str.trim (JS.ToString (JS.or v (PStr ""))))).

(** "format YYYY-MM-DD if present". *)
Definition ymdIfPresent (v : prim) : bool :=
  if JS.truthy v then Re.isYmd (JS.ToString v) else true.

(** A payload that meets the constraints of the Recipe table for the fields
    [add] takes from it. *)
Definition validRecipePayload (p : Recipe.payload) : bool :=
  nonBlank (Recipe.p_title p)
  && nonBlank (Recipe.p_chef p)
  && positiveNumber (JS.ToNumber (Recipe.p_prepTime p))
  && Recipe.isDifficulty
       (Str.trim (JS.ToString (JS.or (Recipe.p_difficulty p) (PStr ""))))
  && positiveNumber (JS.ToNumber (Recipe.p_servings p)).

(** The fields of an inventory payload after the aliases and defaults of
    the Inventory Repository: [name], [pricePerUnit] and [expiry] stand in
    for a missing canonical field, location defaults to "Unknown", cost to
    0, purchaseDate and createdDate to the current date. *)
Definition ingredientNameOf (p : InventoryItem.payload) : prim :=
  JS.or (InventoryItem.p_ingredientName p) (InventoryItem.p_name p).
Definition costOf (p : InventoryItem.payload) : prim :=
  JS.coalesce (JS.coalesce (InventoryItem.p_cost p) (InventoryItem.p_pricePerUnit p))
    (PNum zero).
Definition expirationOf (p : InventoryItem.payload) : prim :=
  PStr (JS.ToString
          (JS.or (JS.or (InventoryItem.p_expirationDate p) (InventoryItem.p_expiry p))
             (PStr ""))).
Definition locationOf (p : InventoryItem.payload) : prim :=
  JS.or (InventoryItem.p_location p) (PStr "Unknown").
Definition purchaseOf (today : string) (p : InventoryItem.payload) : prim :=
  JS.or (InventoryItem.p_purchaseDate p) (PStr today).
Definition createdOf (today : string) (p : InventoryItem.payload) : string :=
  JS.ToString (JS.or (InventoryItem.p_createdDate p) (PStr today)).

(** "expirationDate must be >= purchaseDate when both present". *)
Definition notBefore (expiration purchase : prim) : bool :=
  if JS.truthy expiration && JS.truthy purchase
  then negb (JS.gt purchase expiration) else true.

(** A payload that meets the constraints of the InventoryItem table. *)
Definition validInventoryPayload (today : string) (p : InventoryItem.payload) : bool :=
  nonBlank (InventoryItem.p_userId p)
  && nonBlank (ingredientNameOf p)
  && nonNegativeNumber (JS.ToNumber (InventoryItem.p_quantity p))
  && nonBlank (InventoryItem.p_unit p)
  && nonBlank (InventoryItem.p_category p)
  && nonBlank (locationOf p)
  && nonNegativeNumber (JS.ToNumber (costOf p))
  && ymdIfPresent (purchaseOf today p)
  && ymdIfPresent (expirationOf p)
  && Re.isYmd (createdOf today p)
  && notBefore (expirationOf p) (purchaseOf today p).

(** "max(existing numeric suffixes)", 0 for the empty collection. *)
Definition maxOf (l : list N) : N := fold_right N.max 0%N l.

Definition maxRecipeSuffix (rs : list Recipe.t) : N :=
  maxOf (map (fun r => Recipe.idNumber (Recipe.recipeId r)) rs).

Definition maxInventorySuffix (items : list InventoryItem.t) : N :=
  maxOf (map (fun i => InventoryItem.idNumber (InventoryItem.inventoryId i)) items).

(** "[q] is a case-insensitive substring of [s]". *)
Definition ciSubstring (q s : string) : Prop :=
  exists pre post, Str.toLowerCase s = pre ++ Str.toLowerCase q ++ post.

(** The text of an array entry. *)
Definition entryText (x : prim) : string := JS.ToString (JS.or x (PStr "")).

(** "the query is a case-insensitive substring of title, chef, mealType,
    cuisineType, or of some single ingredients entry, or of some single
    instructions entry". *)
Definition textMatch (h : heap) (q : string) (r : Recipe.t) : Prop :=
  ciSubstring q (Recipe.title r)
  \/ ciSubstring q (Recipe.chef r)
  \/ ciSubstring q (Recipe.mealType r)
  \/ ciSubstring q (Recipe.cuisineType r)
  \/ (exists x, In x (Heap.read h (Recipe.ingredients r)) /\ ciSubstring q (entryText x))
  \/ (exists x, In x (Heap.read h (Recipe.instructions r)) /\ ciSubstring q (entryText x)).

(** A numeric token: digits, with an optional fraction [frac] that is
    empty or a point and digits. *)
Definition isDigits (s : string) : bool :=
  negb (Str.isEmpty s) && Str.all Str.isDigit s.

Definition isFraction (frac : string) : bool :=
  match frac with
  | EmptyString => true
  | String c fp => (c =? ".")%char && isDigits fp
  end.

(** The token ends where [after] starts: [after] does not go on with a
    digit, nor, after a token without fraction, with a point and a digit. *)
Definition tokenEnds (frac after : string) : bool :=
  match after with
  | EmptyString => true
  | String c t =>
      negb (Str.isDigit c)
      && (negb (Str.isEmpty frac)
          || negb ((c =? ".")%char
                   && match t with String d _ => Str.isDigit d | EmptyString => false end))
  end.

(** A payload in which the caller supplies [v] as createdDate. *)
Definition withCreatedDate (v : prim) (p : Recipe.payload) : Recipe.payload :=
  let 'Recipe.mkPayload ti ch me cu pr di se ing ins rid _ := p in
  Recipe.mkPayload ti ch me cu pr di se ing ins rid v.

(** "begins with a leading numeric token": a digit after the white space. *)
Definition hasLeadingNumber (s : string) : bool :=
  match Str.trimStart s with
  | String c _ => Str.isDigit c
  | EmptyString => false
  end.

(** The value of a finite Number as a fraction: a signed numerator over a
    positive denominator. *)
Definition fraction (x : float) : option (Z * Z) :=
  match Prim2SF x with
  | S754_zero _ => Some (0, 1)%Z
  | S754_finite s m e =>
      let '(num, den) := Num.fracOf m e in
      Some (if s then (- num)%Z else num, den)
  | _ => None
  end.

(** The Number [x] is the integer [r]. *)
Definition isInteger (x : float) (r : Z) : Prop :=
  exists num den, fraction x = Some (num, den) /\ (num = r * den)%Z.

(** "round": [r] is the integer nearest to the finite Number [x], the
    larger of the two when [x] is half way between them. *)
Definition nearestInteger (x : float) (r : Z) : Prop :=
  exists num den,
    fraction x = Some (num, den)
    /\ ((2 * r - 1) * den <= 2 * num < (2 * r + 1) * den)%Z.

(** "rounded to [fd] decimals": [n / 10^fd] is nearest to the magnitude of
    the finite Number [x], with the larger [n] when two are as near. *)
Definition nearestDecimal (fd : nat) (x : float) (n : Z) : Prop :=
  exists num den,
    fraction x = Some (num, den)
    /\ ((2 * n - 1) * den <= 2 * Z.abs num * 10 ^ Z.of_nat fd < (2 * n + 1) * den)%Z.

End Spec.

(** ** The constructors' validation as conjunctions

    The checks each constructor makes one after the other, as one boolean,
    and the store [Recipe.add] hands to the constructor. *)

Module Checks.

Definition recipe (a : Recipe.args) (ingredients instructions : value)
    (createdDate : prim) : bool :=
  Re.testId "R" (JS.ToString (Recipe.a_recipeId a))
  && negb (Str.isEmpty (Str.trim (JS.ToString (JS.or (Recipe.a_title a) (PStr "")))))
  && negb (Str.isEmpty (Str.trim (JS.ToString (JS.or (Recipe.a_chef a) (PStr "")))))
  && Spec.positiveNumber (JS.ToNumber (Recipe.a_prepTime a))
  && Recipe.isDifficulty (JS.ToString (Recipe.a_difficulty a))
  && Spec.positiveNumber (JS.ToNumber (Recipe.a_servings a))
  && Recipe.isArray ingredients
  && Recipe.isArray instructions
  && Re.isYmd (JS.ToString createdDate).

Definition inventory (a : InventoryItem.args) (cost createdDate : prim) : bool :=
  Re.testId "I" (JS.ToString (InventoryItem.a_inventoryId a))
  && negb (InventoryItem.blank (InventoryItem.a_userId a))
  && negb (InventoryItem.blank (InventoryItem.a_ingredientName a))
  && negb (InventoryItem.blank (InventoryItem.a_unit a))
  && negb (InventoryItem.blank (InventoryItem.a_category a))
  && negb (InventoryItem.blank (InventoryItem.a_location a))
  && Spec.nonNegativeNumber (JS.ToNumber (InventoryItem.a_quantity a))
  && Spec.nonNegativeNumber (JS.ToNumber cost)
  && Spec.ymdIfPresent (InventoryItem.a_purchaseDate a)
  && Spec.ymdIfPresent (InventoryItem.a_expirationDate a)
  && InventoryItem.isYmd createdDate
  && Spec.notBefore (InventoryItem.a_expirationDate a) (InventoryItem.a_purchaseDate a).

(** The two arrays [Recipe.add] makes with [parseList], and the heap then. *)
Definition parsed (p : Recipe.payload) (s : Recipe.store) : loc * loc * heap :=
  let '(l1, h1) :=
    Heap.alloc (map PStr (Recipe.parseItems (Recipe.p_ingredients p))) (Recipe.arrays s) in
  let '(l2, h2) :=
    Heap.alloc (map PStr (Recipe.parseItems (Recipe.p_instructions p))) h1 in
  (l1, l2, h2).

End Checks.

(** ** Well-formed records

    What the validation of the two constructors, and the normalisation they
    do when they assign the fields, guarantee about a record. *)

Module Invariants.

(** Not empty, and without white space at either end. *)
Definition nonEmptyTrimmed (s : string) : bool :=
  negb (Str.isEmpty s) && (Str.trim s =? s)%string.

Definition trimmed (s : string) : bool := (Str.trim s =? s)%string.

Definition recipeOk (r : Recipe.t) : bool :=
  Re.testId "R" (Recipe.recipeId r)
  && nonEmptyTrimmed (Recipe.title r)
  && nonEmptyTrimmed (Recipe.chef r)
  && trimmed (Recipe.mealType r)
  && trimmed (Recipe.cuisineType r)
  && Spec.positiveNumber (Recipe.prepTime r)
  && Recipe.isDifficulty (Recipe.difficulty r)
  && Spec.positiveNumber (Recipe.servings r)
  && Re.isYmd (Recipe.createdDate r).

Definition itemOk (i : InventoryItem.t) : bool :=
  Re.testId "I" (InventoryItem.inventoryId i)
  && nonEmptyTrimmed (InventoryItem.userId i)
  && nonEmptyTrimmed (InventoryItem.ingredientName i)
  && nonEmptyTrimmed (InventoryItem.unit i)
  && nonEmptyTrimmed (InventoryItem.category i)
  && nonEmptyTrimmed (InventoryItem.location i)
  && Spec.nonNegativeNumber (InventoryItem.quantity i)
  && Spec.nonNegativeNumber (InventoryItem.cost i)
  && Spec.ymdIfPresent (InventoryItem.purchaseDate i)
  && Spec.ymdIfPresent (InventoryItem.expirationDate i)
  && Re.isYmd (InventoryItem.createdDate i)
  && Spec.notBefore (InventoryItem.expirationDate i) (InventoryItem.purchaseDate i).

(** An entry of a parsed list: not empty, no white space at either end,
    no comma and no line feed. *)
Definition isSeparator (c : ascii) : bool :=
  (c =? ",")%char || (Str.code c =? 10)%N.

Definition cleanEntry (x : string) : bool :=
  nonEmptyTrimmed x && negb (Str.any isSeparator x).

(** The number yyyymmdd of a date string [yyyy-mm-dd]. *)
Definition ymdNumber (s : string) : Z :=
  Str.digitsValue 0 (Num.take 4 s ++ Num.take 2 (Num.drop 5 s) ++ Num.take 2 (Num.drop 8 s)).

(** A record of the collection: well formed, and its two lists are arrays
    of the heap. *)
Definition recipeStored (h : heap) (r : Recipe.t) : Prop :=
  recipeOk r = true
  /\ is_Some (h !! Recipe.ingredients r)
  /\ is_Some (h !! Recipe.instructions r).

Definition storeOk (s : Recipe.store) : Prop :=
  Forall (recipeStored (Recipe.arrays s)) (Recipe.recipes s).

End Invariants.

(** ** Example inputs *)

Module Examples.

Definition today : string := "2025-07-20".

(** A form submission for a new recipe. *)
Definition soup : Recipe.payload :=
  {| Recipe.p_title := PStr "Miso Soup";
     Recipe.p_chef := PStr "Aiko";
     Recipe.p_mealType := PStr "Dinner";
     Recipe.p_cuisineType := PStr "Japanese";
     Recipe.p_prepTime := PStr "15";
     Recipe.p_difficulty := PStr "Easy";
     Recipe.p_servings := PStr "2";
     Recipe.p_ingredients := PStr "2 cups water, 1 tbsp miso";
     Recipe.p_instructions := PStr "Boil the water, Stir in the miso";
     Recipe.p_recipeId := PUndef;
     Recipe.p_createdDate := PUndef |}.

(** The same submission without a title. *)
Definition untitled : Recipe.payload :=
  {| Recipe.p_title := PStr "   ";
     Recipe.p_chef := PStr "Aiko";
     Recipe.p_mealType := PStr "Dinner";
     Recipe.p_cuisineType := PStr "Japanese";
     Recipe.p_prepTime := PStr "15";
     Recipe.p_difficulty := PStr "Easy";
     Recipe.p_servings := PStr "2";
     Recipe.p_ingredients := PStr "2 cups water, 1 tbsp miso";
     Recipe.p_instructions := PStr "Boil the water, Stir in the miso";
     Recipe.p_recipeId := PUndef;
     Recipe.p_createdDate := PUndef |}.

(** A collection whose only record has the last five-digit id. *)
Definition lastRecipe : Recipe.t :=
  {| Recipe.recipeId := "R-99999";
     Recipe.title := "Classic Spaghetti Carbonara";
     Recipe.chef := "TakumiWatanabe";
     Recipe.ingredients := 1%positive;
     Recipe.instructions := 2%positive;
     Recipe.mealType := "Dinner";
     Recipe.cuisineType := "Italian";
     Recipe.prepTime := 25;
     Recipe.difficulty := "Medium";
     Recipe.servings := 4;
     Recipe.createdDate := "2025-07-20" |}.

Definition fullStore : Recipe.store :=
  Recipe.mkStore SampleData.arrays [lastRecipe].

(** A collection whose only record has an id outside the format. *)
Definition oddRecipe : Recipe.t :=
  {| Recipe.recipeId := "recipe-7";
     Recipe.title := "Classic Spaghetti Carbonara";
     Recipe.chef := "TakumiWatanabe";
     Recipe.ingredients := 1%positive;
     Recipe.instructions := 2%positive;
     Recipe.mealType := "Dinner";
     Recipe.cuisineType := "Italian";
     Recipe.prepTime := 25;
     Recipe.difficulty := "Medium";
     Recipe.servings := 4;
     Recipe.createdDate := "2025-07-20" |}.

Definition oddStore : Recipe.store :=
  Recipe.mkStore SampleData.arrays [oddRecipe].

Definition oddItem : InventoryItem.t :=
  {| InventoryItem.inventoryId := "7";
     InventoryItem.userId := "TakumiWatanabe";
     InventoryItem.ingredientName := "Fresh Tomatoes";
     InventoryItem.quantity := 8;
     InventoryItem.unit := "pieces";
     InventoryItem.category := "Vegetables";
     InventoryItem.purchaseDate := PStr "2025-07-18";
     InventoryItem.expirationDate := PStr "2025-07-25";
     InventoryItem.location := "Fridge";
     InventoryItem.cost := 1;
     InventoryItem.createdDate := "2025-07-18" |}.

(** A form submission for a new inventory item: no [userId], and a
    [createdDate] of the caller's. *)
Definition milk : InventoryItem.payload :=
  {| InventoryItem.p_userId := PUndef;
     InventoryItem.p_name := PUndef;
     InventoryItem.p_ingredientName := PStr "Milk";
     InventoryItem.p_category := PStr "Dairy";
     InventoryItem.p_location := PStr "Fridge";
     InventoryItem.p_quantity := PStr "2";
     InventoryItem.p_unit := PStr "l";
     InventoryItem.p_pricePerUnit := PUndef;
     InventoryItem.p_cost := PStr "1.5";
     InventoryItem.p_expiry := PUndef;
     InventoryItem.p_expirationDate := PStr "2025-08-01";
     InventoryItem.p_purchaseDate := PUndef;
     InventoryItem.p_createdDate := PStr "2000-01-01" |}.

(** The same submission by a named user. *)
Definition milkOfAiko : InventoryItem.payload :=
  App.setUserId (PStr "Aiko") milk.

(** The same submission with a negative quantity. *)
Definition badMilk : InventoryItem.payload :=
  {| InventoryItem.p_userId := PStr "Aiko";
     InventoryItem.p_name := PUndef;
     InventoryItem.p_ingredientName := PStr "Milk";
     InventoryItem.p_category := PStr "Dairy";
     InventoryItem.p_location := PStr "Fridge";
     InventoryItem.p_quantity := PStr "-2";
     InventoryItem.p_unit := PStr "l";
     InventoryItem.p_pricePerUnit := PUndef;
     InventoryItem.p_cost := PStr "1.5";
     InventoryItem.p_expiry := PUndef;
     InventoryItem.p_expirationDate := PStr "2025-08-01";
     InventoryItem.p_purchaseDate := PUndef;
     InventoryItem.p_createdDate := PUndef |}.

(** The object of a direct constructor call whose lists are the caller's
    arrays 1 and 2 of the sample heap. *)
Definition carbonaraArgs : Recipe.args :=
  {| Recipe.a_recipeId := PStr "R-00001";
     Recipe.a_title := PStr "Classic Spaghetti Carbonara";
     Recipe.a_chef := PStr "TakumiWatanabe";
     Recipe.a_ingredients := VArr 1%positive;
     Recipe.a_instructions := VArr 2%positive;
     Recipe.a_mealType := PStr "Dinner";
     Recipe.a_cuisineType := PStr "Italian";
     Recipe.a_prepTime := PNum 25;
     Recipe.a_difficulty := PStr "Medium";
     Recipe.a_servings := PNum 4;
     Recipe.a_createdDate := PStr "2025-07-20" |}.

Definition emptyStore : Recipe.store := Recipe.mkStore SampleData.arrays [].

(** A submission for milk that went off before [today], with no purchase
    date. *)
Definition staleMilk : InventoryItem.payload :=
  {| InventoryItem.p_userId := PStr "Aiko";
     InventoryItem.p_name := PUndef;
     InventoryItem.p_ingredientName := PStr "Milk";
     InventoryItem.p_category := PStr "Dairy";
     InventoryItem.p_location := PStr "Fridge";
     InventoryItem.p_quantity := PStr "2";
     InventoryItem.p_unit := PStr "l";
     InventoryItem.p_pricePerUnit := PUndef;
     InventoryItem.p_cost := PStr "1.5";
     InventoryItem.p_expiry := PUndef;
     InventoryItem.p_expirationDate := PStr "2025-07-01";
     InventoryItem.p_purchaseDate := PUndef;
     InventoryItem.p_createdDate := PUndef |}.

(** A submission whose expiration date has the form of a date and is on
    no calendar. *)
Definition februaryThirty : InventoryItem.payload :=
  {| InventoryItem.p_userId := PStr "Aiko";
     InventoryItem.p_name := PUndef;
     InventoryItem.p_ingredientName := PStr "Yoghurt";
     InventoryItem.p_category := PStr "Dairy";
     InventoryItem.p_location := PStr "Fridge";
     InventoryItem.p_quantity := PStr "4";
     InventoryItem.p_unit := PStr "cup";
     InventoryItem.p_pricePerUnit := PUndef;
     InventoryItem.p_cost := PStr "0.9";
     InventoryItem.p_expiry := PUndef;
     InventoryItem.p_expirationDate := PStr "2026-02-30";
     InventoryItem.p_purchaseDate := PUndef;
     InventoryItem.p_createdDate := PUndef |}.

(** Midnight UTC at the start of 2026-02-27. *)
Definition february27 : Date.t := Some 1772150400000%Z.

(** The host is ten hours east of UTC, and it is 09:00 there on
    2025-07-25 (23:00 UTC the day before). *)
Definition tzaEast : Z := 36000000.
Definition morningEast : Date.t := Some 1753398000000%Z.

(** Midnight UTC at the start of 2025-07-25 and of 2025-07-26. *)
Definition july25 : Date.t := Some 1753401600000%Z.
Definition july26 : Date.t := Some 1753488000000%Z.

(** Midnight of 2025-07-25 in the host ten hours east of UTC. *)
(** An engine that reads no string but the date-only form. *)
Definition dateOnly : string -> Date.t := fun _ => None.

Definition midnightEast : Z := 1753365600000.
Definition nineEast : Z := 1753398000000.

End Examples.

(** * Facts about the embedding *)

#[local] Arguments String.append !_ _ / : simpl nomatch.
#[local] Arguments String.length !_ / : simpl nomatch.

Module StrFacts.
Import Str.

Lemma app_nil_r (s : string) : s ++ "" = s.
Proof. induction s; simpl; congruence. Qed.

Lemma app_assoc (a b c : string) : (a ++ b) ++ c = a ++ (b ++ c).
Proof. induction a; simpl; congruence. Qed.

Lemma rev_app (a b : string) : rev (a ++ b) = rev b ++ rev a.
Proof.
  induction a as [|c a IH]; simpl.
  - now rewrite app_nil_r.
  - now rewrite IH, app_assoc.
Qed.

Lemma rev_involutive (s : string) : rev (rev s) = s.
Proof. induction s as [|c s IH]; simpl; [reflexivity|]. now rewrite rev_app, IH. Qed.

Lemma trimStart_app (a b : string) :
  trimStart (a ++ b) = if all isSpace a then trimStart b else trimStart a ++ b.
Proof.
  induction a as [|c a IH]; simpl; [reflexivity|].
  destruct (isSpace c); simpl; [exact IH | reflexivity].
Qed.

Lemma trimStart_all (s : string) : all isSpace s = true -> trimStart s = "".
Proof.
  induction s as [|c s IH]; simpl; [reflexivity|].
  destruct (isSpace c); simpl; [exact IH | discriminate].
Qed.

Lemma trimStart_headOk (s : string) : headOk (trimStart s) = true.
Proof.
  induction s as [|c s IH]; simpl; [reflexivity|].
  destruct (isSpace c) eqn:E; [exact IH | simpl; now rewrite E].
Qed.

Lemma trimStart_id (s : string) : headOk s = true -> trimStart s = s.
Proof. destruct s as [|c s]; simpl; [reflexivity|]. now destruct (isSpace c). Qed.

Lemma trimStart_idem (s : string) : trimStart (trimStart s) = trimStart s.
Proof. apply trimStart_id, trimStart_headOk. Qed.

Lemma trimEnd_cons (c : ascii) (s : string) :
  trimEnd (String c s) =
  if all isSpace (rev s) && isSpace c then "" else String c (trimEnd s).
Proof.
  unfold trimEnd. simpl. rewrite trimStart_app.
  destruct (all isSpace (rev s)) eqn:A; simpl.
  - destruct (isSpace c); simpl; [reflexivity|].
    now rewrite (trimStart_all _ A).
  - now rewrite rev_app.
Qed.

Lemma trimEnd_headOk (s : string) : headOk s = true -> headOk (trimEnd s) = true.
Proof.
  destruct s as [|c s]; [reflexivity|]. simpl. intros H.
  rewrite trimEnd_cons. destruct (isSpace c) eqn:E; [discriminate|].
  rewrite andb_false_r. simpl. now rewrite E.
Qed.

Lemma trim_idem (s : string) : trim (trim s) = trim s.
Proof.
  unfold trim.
  rewrite (trimStart_id (trimEnd (trimStart s))).
  - unfold trimEnd. now rewrite rev_involutive, trimStart_idem.
  - apply trimEnd_headOk, trimStart_headOk.
Qed.

Lemma prefix_iff (a b : string) :
  String.prefix a b = true <-> exists post, b = a ++ post.
Proof.
  revert b. induction a as [|c a IH]; intros b.
  - split; [intros _; now exists b | intros _; now destruct b].
  - destruct b as [|d b]; simpl.
    + split; [discriminate | intros [post H]; discriminate].
    + destruct (ascii_dec c d) as [->|Hne].
      * rewrite IH. split; intros [post H]; exists post; congruence.
      * split; [discriminate | intros [post H]; congruence].
Qed.

Lemma includes_nil (needle : string) :
  includes "" needle = String.prefix needle "" || false.
Proof. reflexivity. Qed.

Lemma includes_cons (c : ascii) (hay needle : string) :
  includes (String c hay) needle
  = String.prefix needle (String c hay) || includes hay needle.
Proof. reflexivity. Qed.

Lemma includes_iff (hay needle : string) :
  includes hay needle = true <-> exists pre post, hay = pre ++ needle ++ post.
Proof.
  induction hay as [|c hay IH].
  - rewrite includes_nil, orb_false_r, prefix_iff. split.
    + intros [post H]. exists "", post. exact H.
    + intros [pre [post H]]. destruct pre; simpl in H; [now exists post | discriminate].
  - rewrite includes_cons, orb_true_iff, IH, prefix_iff. split.
    + intros [[post H] | [pre [post H]]].
      * exists "", post. exact H.
      * exists (String c pre), post. simpl. now rewrite H.
    + intros [pre [post H]]. destruct pre as [|d pre]; simpl in H.
      * left. now exists post.
      * right. exists pre, post. congruence.
Qed.
End StrFacts.

Module JSFacts.

Lemma or_str_empty (s : string) : JS.ToString (JS.or (PStr s) (PStr "")) = s.
Proof. unfold JS.or. simpl. now destruct s. Qed.

End JSFacts.

Module NumFacts.
Local Open Scope float_scope.

Lemma SFcompare_zero_r (x : spec_float) :
  SFcompare x (S754_zero false) =
  match SFcompare (S754_zero false) x with
  | Some c => Some (CompOpp c)
  | None => None
  end.
Proof. destruct x as [s|s| |s m e]; try destruct s; reflexivity. Qed.

Lemma leb0_ltb0 (f : float) : is_nan f = false -> (f <=? 0) = negb (0 <? f).
Proof.
  unfold is_nan.
  rewrite FloatAxioms.eqb_spec, FloatAxioms.leb_spec, FloatAxioms.ltb_spec.
  change (Prim2SF 0) with (S754_zero false).
  unfold SFleb, SFltb, SFeqb. rewrite SFcompare_zero_r.
  destruct (Prim2SF f) as [s|s| |s m e]; try destruct s; simpl;
    try reflexivity; try discriminate.
Qed.

Lemma ltb0_leb0 (f : float) : is_nan f = false -> (f <? 0) = negb (0 <=? f).
Proof.
  unfold is_nan.
  rewrite FloatAxioms.eqb_spec, FloatAxioms.leb_spec, FloatAxioms.ltb_spec.
  change (Prim2SF 0) with (S754_zero false).
  unfold SFleb, SFltb, SFeqb. rewrite SFcompare_zero_r.
  destruct (Prim2SF f) as [s|s| |s m e]; try destruct s; simpl;
    try reflexivity; try discriminate.
Qed.

Lemma finite_not_nan (f : float) : Num.isFinite f = true -> is_nan f = false.
Proof. unfold Num.isFinite, is_finite. destruct (is_nan f); simpl; congruence. Qed.

Lemma pos_truthy (f : float) : (0 <? f) = true -> JS.truthy (PNum f) = true.
Proof.
  simpl. unfold is_zero, is_nan.
  rewrite !FloatAxioms.eqb_spec, FloatAxioms.ltb_spec.
  change (Prim2SF 0) with (S754_zero false).
  change (Prim2SF zero) with (S754_zero false).
  unfold SFltb, SFeqb.
  destruct (Prim2SF f) as [s|s| |s m e]; try destruct s; simpl;
    try reflexivity; try discriminate.
  all: rewrite ?Z.compare_refl, ?Pos.compare_cont_refl; reflexivity.
Qed.

Lemma ltb_leb (a b : float) : (a <? b) = true -> (a <=? b) = true.
Proof.
  rewrite FloatAxioms.leb_spec, FloatAxioms.ltb_spec. unfold SFltb, SFleb.
  destruct (SFcompare _ _) as [[]|]; congruence.
Qed.

(** The constructor's test [!Number.isFinite(x) || x <= 0] rejects exactly
    what is not "finite, > 0". *)
Lemma positive_check (f : float) :
  negb (Num.isFinite f) || (f <=? 0) = negb (Spec.positiveNumber f).
Proof.
  unfold Spec.positiveNumber. destruct (Num.isFinite f) eqn:F; simpl; [|reflexivity].
  apply leb0_ltb0, finite_not_nan, F.
Qed.

Lemma nonNegative_check (f : float) :
  negb (Num.isFinite f) || (f <? 0) = negb (Spec.nonNegativeNumber f).
Proof.
  unfold Spec.nonNegativeNumber. destruct (Num.isFinite f) eqn:F; simpl; [|reflexivity].
  apply ltb0_leb0, finite_not_nan, F.
Qed.
End NumFacts.


Module IdFacts.
Import Str.

Lemma all_app (p : ascii -> bool) (a b : string) :
  all p (a ++ b) = all p a && all p b.
Proof. induction a as [|c a IH]; simpl; [reflexivity|]. now rewrite IH, andb_assoc. Qed.

Lemma length_app (a b : string) :
  String.length (a ++ b) = (String.length a + String.length b)%nat.
Proof. induction a as [|c a IH]; simpl; [reflexivity|]. now rewrite IH. Qed.

Lemma all_replicate (p : ascii -> bool) (n : nat) (c : ascii) :
  p c = true -> all p (replicate n c) = true.
Proof. intros H. induction n as [|n IH]; simpl; [reflexivity|]. now rewrite H, IH. Qed.

Lemma length_replicate (n : nat) (c : ascii) : String.length (replicate n c) = n.
Proof. induction n as [|n IH]; simpl; [reflexivity|]. now rewrite IH. Qed.

Lemma isDigit_digit (d : N) : (d < 10)%N -> isDigit (ascii_of_N (48 + d)) = true.
Proof.
  intros H. unfold isDigit, code.
  rewrite N_ascii_embedding by lia.
  apply andb_true_iff. split; apply N.leb_le; lia.
Qed.

Lemma digitsOf_all (fuel : nat) (n : N) (acc : string) :
  all isDigit acc = true -> all isDigit (digitsOf fuel n acc) = true.
Proof.
  revert n acc. induction fuel as [|fuel IH]; intros n acc H; simpl; [exact H|].
  assert (H' : all isDigit (String (ascii_of_N (48 + n mod 10)) acc) = true).
  { simpl. rewrite H, isDigit_digit; [reflexivity|]. apply N.mod_lt. lia. }
  destruct (n / 10 =? 0)%N; [exact H' | now apply IH].
Qed.

Lemma digitsOf_length (k fuel : nat) (n : N) (acc : string) :
  (n < 10 ^ N.of_nat (S k))%N ->
  (String.length (digitsOf fuel n acc) <= String.length acc + S k)%nat.
Proof.
  revert fuel n acc. induction k as [|k IH]; intros fuel n acc Hn;
    destruct fuel as [|fuel]; simpl; try lia.
  - assert (E : (n / 10 = 0)%N) by (apply N.div_small; simpl in Hn; lia).
    rewrite E. simpl. lia.
  - destruct (n / 10 =? 0)%N eqn:E; simpl; [lia|].
    specialize (IH fuel (n / 10)%N (String (ascii_of_N (48 + n mod 10)) acc)).
    simpl in IH. rewrite Nat.add_succ_r. apply IH.
    apply N.Div0.div_lt_upper_bound.
    replace (N.of_nat (S (S k))) with (N.succ (N.of_nat (S k))) in Hn by lia.
    now rewrite N.pow_succ_r' in Hn.
Qed.

(** [String(n).padStart(5, "0")] is five digits when [n] has at most five. *)
Lemma padded_id (n : N) :
  (n < 100000)%N ->
  String.length (padStart0 5 (ofN n)) = 5%nat
  /\ all isDigit (padStart0 5 (ofN n)) = true.
Proof.
  intros Hn. unfold padStart0, ofN.
  set (fuel := S (N.to_nat (N.log2 n))).
  pose proof (digitsOf_length 4 fuel n "" Hn) as L.
  pose proof (digitsOf_all fuel n "" eq_refl) as A.
  change (String.length "") with 0%nat in L.
  split.
  - rewrite length_app, length_replicate. lia.
  - now rewrite all_app, A, all_replicate.
Qed.

Lemma testId_padded (p : ascii) (ds : string) :
  String.length ds = 5%nat -> all isDigit ds = true ->
  Re.testId p (String p (String "-" ds)) = true.
Proof.
  intros L A. unfold Re.testId, Re.matchId.
  now rewrite Ascii.eqb_refl, L, A.
Qed.

Lemma Recipe_formatId_ok (n : N) :
  (n < 100000)%N -> Re.testId "R" (Recipe.formatId n) = true.
Proof. intros Hn. destruct (padded_id n Hn). now apply testId_padded. Qed.

Lemma Inventory_formatId_ok (n : N) :
  (n < 100000)%N -> Re.testId "I" (InventoryItem.formatId n) = true.
Proof. intros Hn. destruct (padded_id n Hn). now apply testId_padded. Qed.

(** [reduce((a, b) => Math.max(a, b), 0)] is the maximum of the list. *)
Lemma fold_left_max (l : list N) (a : N) :
  fold_left N.max l a = N.max a (Spec.maxOf l).
Proof.
  revert a. induction l as [|x l IH]; intros a; simpl.
  - now rewrite N.max_0_r.
  - rewrite IH. now rewrite N.max_assoc.
Qed.

Lemma Recipe_nextNum (rs : list Recipe.t) :
  Recipe.nextNum rs = (Spec.maxRecipeSuffix rs + 1)%N.
Proof. unfold Recipe.nextNum. now rewrite fold_left_max, N.max_0_l. Qed.

Lemma Inventory_nextNum (items : list InventoryItem.t) :
  InventoryItem.nextNum items = (Spec.maxInventorySuffix items + 1)%N.
Proof. unfold InventoryItem.nextNum. now rewrite fold_left_max, N.max_0_l. Qed.

End IdFacts.

Module HeapFacts.

Lemma alloc_fresh (xs : list prim) (h : heap) : h !! fst (Heap.alloc xs h) = None.
Proof. unfold Heap.alloc; simpl. apply not_elem_of_dom, is_fresh. Qed.

Lemma alloc_subseteq (xs : list prim) (h : heap) : h ⊆ snd (Heap.alloc xs h).
Proof. unfold Heap.alloc; simpl. apply insert_subseteq, not_elem_of_dom, is_fresh. Qed.

Lemma read_alloc (xs : list prim) (h : heap) :
  Heap.read (snd (Heap.alloc xs h)) (fst (Heap.alloc xs h)) = xs.
Proof. unfold Heap.alloc, Heap.read; simpl. now rewrite lookup_insert_eq. Qed.

Lemma read_subseteq (h h' : heap) (l : loc) :
  h ⊆ h' -> is_Some (h !! l) -> Heap.read h' l = Heap.read h l.
Proof.
  intros Hsub [xs Hl]. unfold Heap.read.
  now rewrite (lookup_weaken _ _ _ _ Hl Hsub), Hl.
Qed.

End HeapFacts.

Module RecipeFacts.
Import Recipe.

(** The constructor on an object whose two lists are arrays. *)
Lemma Recipe_new_arrays (today : string) (a : args) (s : store) (li lt : loc) :
  a_ingredients a = VArr li -> a_instructions a = VArr lt ->
  new today a s =
  match validate a (VArr li) (VArr lt) (defaultPrim (a_createdDate a) (PStr today)) with
  | Some msg => (Throw msg, s)
  | None =>
      let '(l1, h1) := Heap.alloc (Heap.read (arrays s) li) (arrays s) in
      let '(l2, h2) := Heap.alloc (Heap.read h1 lt) h1 in
      (Ok {| recipeId := JS.ToString (a_recipeId a);
             title := Str.trim (JS.ToString (a_title a));
             chef := Str.trim (JS.ToString (a_chef a));
             ingredients := l1;
             instructions := l2;
             mealType := Str.trim (JS.ToString (JS.or (a_mealType a) (PStr "")));
             cuisineType := Str.trim (JS.ToString (JS.or (a_cuisineType a) (PStr "")));
             prepTime := JS.ToNumber (a_prepTime a);
             difficulty := JS.ToString (a_difficulty a);
             servings := JS.ToNumber (a_servings a);
             createdDate := JS.ToString (defaultPrim (a_createdDate a) (PStr today)) |},
       mkStore h2 (recipes s))
  end.
Proof.
  intros Hi Ht. unfold new. rewrite Hi, Ht. cbn [defaultArray].
  unfold bind at 1. unfold ret at 1. unfold bind at 1. unfold ret at 1.
  destruct (validate _ _ _ _); [reflexivity|].
  unfold slice, readArray, newArray, bind, gets, ret. cbn [arrays recipes].
  reflexivity.
Qed.

(** [add], step by step. *)
Lemma Recipe_add_eq (today : string) (p : payload) (s : store) :
  add today (Some p) s =
  if Str.isEmpty (Str.trim (JS.ToString (JS.or (p_title p) (PStr ""))))
  then (Throw "title is required", s)
  else if Str.isEmpty (Str.trim (JS.ToString (JS.or (p_chef p) (PStr ""))))
  then (Throw "chef is required", s)
  else
    let '(l1, l2, h2) := Checks.parsed p s in
    match new today (newRecipe today (nextNum (recipes s)) p l1 l2)
            (mkStore h2 (recipes s)) with
    | (Ok r, s') => (Ok r, mkStore (arrays s') (recipes s' ++ [r]))
    | (Throw msg, s') => (Throw msg, s')
    end.
Proof.
  unfold add. change (default emptyPayload (Some p)) with p. cbv zeta.
  destruct (Str.isEmpty _); [reflexivity|].
  destruct (Str.isEmpty _); [reflexivity|].
  unfold Checks.parsed, parseList, newArray, Heap.alloc, bind, gets, push, modify, ret.
  cbn [arrays recipes].
  destruct (new _ _ _) as [[r|msg] s']; reflexivity.
Qed.

End RecipeFacts.

Module RecipeFacts2.
Import Recipe RecipeFacts.

Lemma Recipe_validate_None (a : args) (i j : value) (c : prim) :
  validate a i j c = None <-> Checks.recipe a i j c = true.
Proof.
  unfold validate, Checks.recipe. rewrite !NumFacts.positive_check.
  repeat match goal with
         | |- context [if negb ?b then _ else _] => destruct b; simpl
         | |- context [if ?b then _ else _] => destruct b; simpl
         end; split; congruence.
Qed.

Lemma Recipe_validate_Some (a : args) (i j : value) (c : prim) :
  Checks.recipe a i j c = false -> exists msg, validate a i j c = Some msg.
Proof.
  intros H. destruct (validate a i j c) as [msg|] eqn:E; [now exists msg|].
  apply Recipe_validate_None in E. congruence.
Qed.

Lemma checks_newRecipe (today : string) (n : N) (p : payload) (l1 l2 : loc) :
  Checks.recipe (newRecipe today n p l1 l2) (VArr l1) (VArr l2) (PStr today)
  = Re.testId "R" (formatId n) && Spec.validRecipePayload p && Re.isYmd today.
Proof.
  unfold Checks.recipe, Spec.validRecipePayload, Spec.nonBlank, newRecipe.
  cbn [a_recipeId a_title a_chef a_prepTime a_difficulty a_servings isArray
       JS.ToString JS.ToNumber].
  rewrite !JSFacts.or_str_empty, !StrFacts.trim_idem.
  rewrite !andb_true_r, !andb_assoc. reflexivity.
Qed.

(** Successful [add]: the record and the store, explicitly. *)
Lemma Recipe_add_ok (today : string) (p : payload) (s : store) :
  Spec.validRecipePayload p = true -> Re.isYmd today = true ->
  (nextNum (recipes s) < 100000)%N ->
  exists r h,
    add today (Some p) s = (Ok r, mkStore h (recipes s ++ [r]))
    /\ arrays s ⊆ h
    /\ recipeId r = formatId (nextNum (recipes s))
    /\ createdDate r = today
    /\ title r = Str.trim (JS.ToString (JS.or (p_title p) (PStr "")))
    /\ servings r = JS.ToNumber (p_servings p).
Proof.
  intros Hv Hd Hn.
  pose proof Hv as Hv'. unfold Spec.validRecipePayload, Spec.nonBlank in Hv'.
  rewrite !andb_true_iff, !negb_true_iff in Hv'.
  destruct Hv' as [[[[Ht Hc] _] _] _].
  rewrite Recipe_add_eq, Ht, Hc. unfold Checks.parsed.
  destruct (Heap.alloc _ (arrays s)) as [l1 h1] eqn:E1.
  destruct (Heap.alloc _ h1) as [l2 h2] eqn:E2.
  rewrite (Recipe_new_arrays today _ _ l1 l2) by reflexivity.
  cbn [a_createdDate newRecipe defaultPrim].
  assert (V : validate (newRecipe today (nextNum (recipes s)) p l1 l2)
                (VArr l1) (VArr l2) (PStr today) = None).
  { apply Recipe_validate_None. rewrite checks_newRecipe, Hv, Hd.
    now rewrite IdFacts.Recipe_formatId_ok. }
  unfold newRecipe in V |- *. rewrite V. cbn [arrays recipes].
  destruct (Heap.alloc _ h2) as [l3 h3] eqn:E3.
  destruct (Heap.alloc _ h3) as [l4 h4] eqn:E4.
  eexists. exists h4. split; [reflexivity|].
  cbn [recipeId createdDate title servings a_recipeId a_title a_servings JS.ToString JS.ToNumber].
  repeat split.
  - pose proof (HeapFacts.alloc_subseteq (map PStr (parseItems (p_ingredients p))) (arrays s)) as S1.
    rewrite E1 in S1.
    pose proof (HeapFacts.alloc_subseteq (map PStr (parseItems (p_instructions p))) h1) as S2.
    rewrite E2 in S2.
    pose proof (HeapFacts.alloc_subseteq (Heap.read h2 l1) h2) as S3. rewrite E3 in S3.
    pose proof (HeapFacts.alloc_subseteq (Heap.read h3 l2) h3) as S4. rewrite E4 in S4.
    simpl in *. etrans; [exact S1|]. etrans; [exact S2|]. etrans; [exact S3|]. exact S4.
  - apply StrFacts.trim_idem.
Qed.

(** Whatever the payload, [add] either throws and leaves the collection as
    it was, or appends the one record it returns. *)
Lemma Recipe_add_outcome (today : string) (p : payload) (s : store) :
  match add today (Some p) s with
  | (Throw _, s') => recipes s' = recipes s /\ arrays s ⊆ arrays s'
  | (Ok r, s') =>
      recipes s' = (recipes s ++ [r])%list /\ arrays s ⊆ arrays s'
      /\ Spec.validRecipePayload p = true
      /\ recipeId r = formatId (nextNum (recipes s))
      /\ createdDate r = today
  end.
Proof.
  rewrite Recipe_add_eq.
  destruct (Str.isEmpty _); [now split|].
  destruct (Str.isEmpty _); [now split|].
  unfold Checks.parsed.
  pose proof (HeapFacts.alloc_subseteq (map PStr (parseItems (p_ingredients p))) (arrays s)) as S1.
  destruct (Heap.alloc _ (arrays s)) as [l1 h1].
  pose proof (HeapFacts.alloc_subseteq (map PStr (parseItems (p_instructions p))) h1) as S2.
  destruct (Heap.alloc _ h1) as [l2 h2].
  simpl in S1, S2.
  rewrite (Recipe_new_arrays today _ _ l1 l2) by reflexivity.
  cbn [a_createdDate newRecipe defaultPrim].
  destruct (validate _ _ _ _) as [msg|] eqn:V.
  - cbn [arrays recipes]. split; [reflexivity|]. etrans; eassumption.
  - apply Recipe_validate_None in V. fold (newRecipe today (nextNum (recipes s)) p l1 l2) in V.
    rewrite checks_newRecipe, !andb_true_iff in V. destruct V as [[_ Hv] _].
    cbn [arrays recipes].
    pose proof (HeapFacts.alloc_subseteq (Heap.read h2 l1) h2) as S3.
    destruct (Heap.alloc _ h2) as [l3 h3].
    pose proof (HeapFacts.alloc_subseteq (Heap.read h3 l2) h3) as S4.
    destruct (Heap.alloc _ h3) as [l4 h4].
    simpl in S3, S4. cbn [arrays recipes recipeId createdDate JS.ToString].
    repeat split; try assumption.
    etrans; [exact S1|]. etrans; [exact S2|]. etrans; [exact S3|]. exact S4.
Qed.

Lemma Recipe_add_invalid (today : string) (p : payload) (s : store) :
  Spec.validRecipePayload p = false ->
  exists msg s', add today (Some p) s = (Throw msg, s').
Proof.
  intros Hv. pose proof (Recipe_add_outcome today p s) as H.
  destruct (add today (Some p) s) as [[r|msg] s'].
  - destruct H as (_ & _ & Hv' & _). congruence.
  - now exists msg, s'.
Qed.

Lemma Recipe_add_missing (today : string) (s : store) :
  add today None s = (Throw "title is required", s).
Proof. reflexivity. Qed.

(** The arrays of a constructed record are new, and hold what the arrays
    given to the constructor held. *)
Lemma Recipe_new_copies (today : string) (a : args) (s s' : store) (r : t) (li lt : loc) :
  a_ingredients a = VArr li -> a_instructions a = VArr lt ->
  is_Some (arrays s !! lt) ->
  new today a s = (Ok r, s') ->
  arrays s !! ingredients r = None
  /\ arrays s !! instructions r = None
  /\ ingredients r <> instructions r
  /\ arrays s' !! ingredients r = Some (Heap.read (arrays s) li)
  /\ arrays s' !! instructions r = Some (Heap.read (arrays s) lt)
  /\ arrays s ⊆ arrays s'.
Proof.
  intros Hi Ht [xt Hlt]. rewrite (Recipe_new_arrays today a s li lt Hi Ht).
  destruct (validate _ _ _ _); [discriminate|].
  unfold Heap.alloc. cbv zeta.
  set (l1 := fresh (dom (arrays s))).
  set (h1 := <[l1 := Heap.read (arrays s) li]> (arrays s)).
  set (l2 := fresh (dom h1)).
  intros E. injection E as <- <-. cbn [ingredients instructions arrays].
  assert (F1 : arrays s !! l1 = None) by apply not_elem_of_dom, is_fresh.
  assert (F2 : h1 !! l2 = None) by apply not_elem_of_dom, is_fresh.
  assert (N12 : l1 <> l2).
  { intros E. rewrite <- E in F2. unfold h1 in F2. now rewrite lookup_insert_eq in F2. }
  assert (S1 : arrays s ⊆ h1) by now apply insert_subseteq.
  repeat split.
  - exact F1.
  - destruct (arrays s !! l2) as [x|] eqn:E; [|reflexivity].
    apply (lookup_weaken _ _ _ _ E) in S1. congruence.
  - exact N12.
  - rewrite lookup_insert_ne by congruence. unfold h1. now rewrite lookup_insert_eq.
  - rewrite lookup_insert_eq. f_equal. unfold Heap.read, h1.
    rewrite lookup_insert_ne; [reflexivity|]. intros ->. congruence.
  - etrans; [exact S1|]. now apply insert_subseteq.
Qed.
End RecipeFacts2.

Module InventoryFacts.
Import InventoryItem.

Lemma blank_trimmed (v : prim) :
  blank (PStr (Str.trim (JS.ToString (JS.or v (PStr ""))))) = negb (Spec.nonBlank v).
Proof.
  unfold blank, Spec.nonBlank.
  now rewrite JSFacts.or_str_empty, StrFacts.trim_idem, negb_involutive.
Qed.

Lemma or_unknown (v : prim) :
  JS.or (JS.or v (PStr "Unknown")) (PStr "") = JS.or v (PStr "Unknown").
Proof. unfold JS.or. destruct (JS.truthy v) eqn:E; [now rewrite E | reflexivity]. Qed.

Lemma truthy_str (s : string) : JS.truthy (PStr s) = negb (Str.isEmpty s).
Proof. reflexivity. Qed.

Lemma Inventory_validate_None (a : args) (c d : prim) :
  validate a c d = None <-> Checks.inventory a c d = true.
Proof.
  unfold validate, Checks.inventory, Spec.ymdIfPresent, Spec.notBefore, isYmd.
  rewrite !NumFacts.nonNegative_check.
  destruct (Re.testId _ _); simpl; [|split; congruence].
  destruct (blank (a_userId a)); simpl; [split; congruence|].
  destruct (blank (a_ingredientName a)); simpl; [split; congruence|].
  destruct (blank (a_unit a)); simpl; [split; congruence|].
  destruct (blank (a_category a)); simpl; [split; congruence|].
  destruct (blank (a_location a)); simpl; [split; congruence|].
  destruct (Spec.nonNegativeNumber (JS.ToNumber (a_quantity a))); simpl; [|split; congruence].
  destruct (Spec.nonNegativeNumber (JS.ToNumber c)); simpl; [|split; congruence].
  destruct (JS.truthy (a_purchaseDate a)), (JS.truthy (a_expirationDate a)),
    (Re.isYmd (JS.ToString (a_purchaseDate a))),
    (Re.isYmd (JS.ToString (a_expirationDate a))),
    (Re.isYmd (JS.ToString d)),
    (JS.gt (a_purchaseDate a) (a_expirationDate a)); simpl; split; congruence.
Qed.

Lemma checks_newItemRaw (today : string) (n : N) (p : payload) :
  Checks.inventory (newItemRaw today n p)
    (defaultPrim (a_cost (newItemRaw today n p)) (PNum zero))
    (defaultPrim (a_createdDate (newItemRaw today n p)) (PStr today))
  = Re.testId "I" (formatId n) && Spec.validInventoryPayload today p.
Proof.
  unfold Checks.inventory, Spec.validInventoryPayload, newItemRaw.
  cbn [a_inventoryId a_userId a_ingredientName a_unit a_category a_location
       a_quantity a_cost a_purchaseDate a_expirationDate a_createdDate
       defaultPrim JS.ToString JS.ToNumber isYmd].
  rewrite !blank_trimmed, !negb_involutive.
  unfold Spec.ingredientNameOf, Spec.costOf, Spec.expirationOf, Spec.locationOf,
    Spec.purchaseOf, Spec.createdOf.
  replace (blank (PStr (Str.trim (JS.ToString (JS.or (p_location p) (PStr "Unknown"))))))
    with (negb (Spec.nonBlank (JS.or (p_location p) (PStr "Unknown")))).
  2:{ rewrite <- blank_trimmed. now rewrite or_unknown. }
  rewrite negb_involutive.
  destruct (Re.testId _ _), (Spec.nonBlank (p_userId p)),
    (Spec.nonBlank (JS.or (p_ingredientName p) (p_name p))),
    (Spec.nonBlank (p_unit p)), (Spec.nonBlank (p_category p)),
    (Spec.nonBlank (JS.or (p_location p) (PStr "Unknown"))),
    (Spec.nonNegativeNumber (JS.ToNumber (p_quantity p)));
    simpl; reflexivity.
Qed.

(** [add], step by step. *)
Lemma Inventory_add_eq (today : string) (p : payload) (items : Datatypes.list t) :
  add today (Some p) items =
  if Str.isEmpty (Str.trim (JS.ToString
       (JS.or (JS.or (p_ingredientName p) (p_name p)) (PStr ""))))
  then (Throw "ingredientName (or name) is required", items)
  else if Str.isEmpty (Str.trim (JS.ToString (JS.or (p_userId p) (PStr ""))))
  then (Throw "userId is required", items)
  else
    let a := newItemRaw today (nextNum items) p in
    match validate a (defaultPrim (a_cost a) (PNum zero))
            (defaultPrim (a_createdDate a) (PStr today)) with
    | Some msg => (Throw msg, items)
    | None =>
        let i :=
          {| inventoryId := JS.ToString (a_inventoryId a);
             userId := Str.trim (JS.ToString (a_userId a));
             ingredientName := Str.trim (JS.ToString (a_ingredientName a));
             quantity := JS.ToNumber (a_quantity a);
             unit := Str.trim (JS.ToString (a_unit a));
             category := Str.trim (JS.ToString (a_category a));
             purchaseDate := JS.or (a_purchaseDate a) (PStr "");
             expirationDate := JS.or (a_expirationDate a) (PStr "");
             location := Str.trim (JS.ToString (a_location a));
             cost := JS.ToNumber (defaultPrim (a_cost a) (PNum zero));
             createdDate := JS.ToString (defaultPrim (a_createdDate a) (PStr today)) |} in
        (Ok i, (items ++ [i])%list)
    end.
Proof.
  unfold add. change (default emptyPayload (Some p)) with p. cbv zeta.
  destruct (Str.isEmpty _); [reflexivity|].
  destruct (Str.isEmpty _); [reflexivity|].
  unfold bind at 1. unfold gets at 1. unfold bind at 1. unfold new.
  cbv zeta. destruct (validate _ _ _); reflexivity.
Qed.

Lemma Inventory_add_outcome (today : string) (p : payload) (items : Datatypes.list t) :
  match add today (Some p) items with
  | (Throw _, items') => items' = items
  | (Ok i, items') =>
      items' = (items ++ [i])%list
      /\ Spec.validInventoryPayload today p = true
      /\ inventoryId i = formatId (nextNum items)
      /\ userId i = Str.trim (JS.ToString (JS.or (p_userId p) (PStr "")))
      /\ createdDate i = JS.ToString (JS.or (p_createdDate p) (PStr today))
  end.
Proof.
  rewrite Inventory_add_eq.
  destruct (Str.isEmpty _); [reflexivity|].
  destruct (Str.isEmpty _); [reflexivity|].
  cbv zeta. destruct (validate _ _ _) as [msg|] eqn:V; [reflexivity|].
  apply Inventory_validate_None in V. rewrite checks_newItemRaw, andb_true_iff in V.
  destruct V as [_ Hv].
  cbn [inventoryId userId createdDate newItemRaw a_inventoryId a_userId
       a_createdDate defaultPrim JS.ToString].
  repeat split; try assumption. apply StrFacts.trim_idem.
Qed.

Lemma Inventory_add_ok (today : string) (p : payload) (items : Datatypes.list t) :
  Spec.validInventoryPayload today p = true ->
  (nextNum items < 100000)%N ->
  exists i, add today (Some p) items = (Ok i, (items ++ [i])%list)
            /\ inventoryId i = formatId (nextNum items)
            /\ userId i = Str.trim (JS.ToString (JS.or (p_userId p) (PStr "")))
            /\ createdDate i = JS.ToString (JS.or (p_createdDate p) (PStr today)).
Proof.
  intros Hv Hn.
  pose proof Hv as Hv'. unfold Spec.validInventoryPayload, Spec.nonBlank in Hv'.
  rewrite !andb_true_iff, !negb_true_iff in Hv'.
  destruct Hv' as [[[[[[[[[[Hu Hi] _] _] _] _] _] _] _] _] _].
  unfold Spec.ingredientNameOf in Hi.
  rewrite Inventory_add_eq, Hi, Hu. cbv zeta.
  assert (V : validate (newItemRaw today (nextNum items) p)
                (defaultPrim (a_cost (newItemRaw today (nextNum items) p)) (PNum zero))
                (defaultPrim (a_createdDate (newItemRaw today (nextNum items) p)) (PStr today))
              = None).
  { apply Inventory_validate_None. rewrite checks_newItemRaw, Hv.
    now rewrite IdFacts.Inventory_formatId_ok. }
  rewrite V. eexists. split; [reflexivity|].
  cbn [inventoryId userId createdDate newItemRaw a_inventoryId a_userId
       a_createdDate defaultPrim JS.ToString].
  repeat split. apply StrFacts.trim_idem.
Qed.

Lemma Inventory_add_invalid (today : string) (p : payload) (items : Datatypes.list t) :
  Spec.validInventoryPayload today p = false ->
  exists msg, add today (Some p) items = (Throw msg, items).
Proof.
  intros Hv. pose proof (Inventory_add_outcome today p items) as H.
  destruct (add today (Some p) items) as [[i|msg] items'].
  - destruct H as (_ & Hv' & _). congruence.
  - subst. now exists msg.
Qed.

End InventoryFacts.

Module AppFacts.
Import App.

Lemma textIncludes_str (x : prim) (q : string) :
  textIncludes x (PStr q) = true <-> Spec.ciSubstring q (Spec.entryText x).
Proof.
  unfold textIncludes, Spec.ciSubstring, Spec.entryText.
  rewrite JSFacts.or_str_empty. apply StrFacts.includes_iff.
Qed.

Lemma textIncludes_field (s q : string) :
  textIncludes (PStr s) (PStr q) = true <-> Spec.ciSubstring q s.
Proof.
  rewrite textIncludes_str. unfold Spec.entryText. now rewrite JSFacts.or_str_empty.
Qed.

Lemma ciSubstring_empty (s : string) : Spec.ciSubstring "" s.
Proof. exists "", (Str.toLowerCase s). reflexivity. Qed.

Lemma existsb_textIncludes (xs : list prim) (q : string) :
  existsb (fun x => textIncludes x (PStr q)) xs = true
  <-> exists x, In x xs /\ Spec.ciSubstring q (Spec.entryText x).
Proof.
  rewrite existsb_exists. split; intros [x [Hin H]]; exists x; split; auto;
    now apply textIncludes_str.
Qed.

(** The filter predicate of the search decides the text match. *)
Lemma matches_spec (h : heap) (q : string) (r : Recipe.t) :
  matches h q r = true <-> Spec.textMatch h q r.
Proof.
  unfold matches, Spec.textMatch.
  destruct q as [|c q].
  - simpl. split; [intros _; left; apply ciSubstring_empty | reflexivity].
  - cbn [JS.truthy Str.isEmpty negb].
    rewrite !orb_true_iff, !textIncludes_field, !existsb_textIncludes. tauto.
Qed.

Lemma searchRecipe_eq (qQuery qScale : option string) (s : Recipe.store) :
  searchRecipe qQuery qScale s =
  (Ok (let hasSearched := JS.defined (param qQuery) || JS.defined (param qScale) in
       let query := Str.trim (JS.ToString (JS.or (param qQuery) (PStr ""))) in
       let scale := sanitizeScale (param qScale) in
       let results :=
         if hasSearched
         then map (scaleRecipe (Recipe.arrays s) scale)
                (List.filter (fun r => matches (Recipe.arrays s) query r) (Recipe.recipes s))
         else [] in
       mkView results (length results) query scale hasSearched), s).
Proof. reflexivity. Qed.

Lemma map_recipe_scale (h : heap) (sc : float) (rs : list Recipe.t) :
  map recipe (map (scaleRecipe h sc) rs) = rs.
Proof. induction rs as [|r rs IH]; simpl; [reflexivity|]. now rewrite IH. Qed.

Lemma defined_param (p : option string) : JS.defined (param p) = true <-> p <> None.
Proof. destruct p; simpl; split; congruence. Qed.

Lemma query_of_param (p : option string) :
  Str.trim (JS.ToString (JS.or (param p) (PStr ""))) = Str.trim (default "" p).
Proof. destruct p as [q|]; simpl; [now rewrite JSFacts.or_str_empty | reflexivity]. Qed.

End AppFacts.

Module LineFacts.
Import App.

Lemma digit_not_space (c : ascii) : Str.isDigit c = true -> Str.isSpace c = false.
Proof. destruct c as [[] [] [] [] [] [] [] []]; try reflexivity; discriminate. Qed.

Lemma spanDigits_none (s : string) :
  Str.startsWithDigit s = false -> Num.spanDigits s = ("", s).
Proof. destruct s as [|c s]; simpl; [reflexivity|]. now intros ->. Qed.

Lemma spanDigits_app (ds after : string) :
  Str.all Str.isDigit ds = true -> Str.startsWithDigit after = false ->
  Num.spanDigits (ds ++ after) = (ds, after).
Proof.
  intros Hd Ha. induction ds as [|c ds IH]; simpl.
  - now apply spanDigits_none.
  - simpl in Hd. apply andb_true_iff in Hd. destruct Hd as [Hc Hd].
    now rewrite Hc, (IH Hd).
Qed.

Lemma trimStart_spaces (ws s : string) :
  Str.all Str.isSpace ws = true -> Str.headOk s = true ->
  Str.trimStart (ws ++ s) = s.
Proof.
  intros Hw Hs. rewrite StrFacts.trimStart_app, Hw. now apply StrFacts.trimStart_id.
Qed.

Lemma headOk_digits (ds s : string) :
  Spec.isDigits ds = true -> Str.headOk (ds ++ s) = true.
Proof.
  unfold Spec.isDigits. destruct ds as [|c ds]; simpl; [discriminate|].
  intros H. apply andb_true_iff in H. destruct H as [H _].
  now rewrite (digit_not_space c H).
Qed.

Lemma tokenEnds_nodigit (frac after : string) :
  Spec.tokenEnds frac after = true -> Str.startsWithDigit after = false.
Proof.
  destruct after as [|c t]; simpl; [reflexivity|].
  intros H. apply andb_true_iff in H. destruct H as [H _]. now apply negb_true_iff.
Qed.

Lemma optFraction_none (ip after : string) :
  Spec.tokenEnds "" after = true -> optFraction ip after = (ip, after).
Proof.
  unfold optFraction. destruct after as [|d t]; [reflexivity|].
  simpl. intros He. apply andb_true_iff in He. destruct He as [_ He].
  destruct (Ascii.eqb d ".") eqn:Ed.
  - apply Ascii.eqb_eq in Ed. subst d. simpl in He. apply negb_true_iff in He.
    rewrite spanDigits_none by (destruct t; [reflexivity | exact He]).
    reflexivity.
  - destruct d as [[] [] [] [] [] [] [] []]; try reflexivity; discriminate.
Qed.

Lemma optFraction_some (ip fp after : string) :
  Spec.isDigits fp = true -> Str.startsWithDigit after = false ->
  optFraction ip ("." ++ fp ++ after) = (ip ++ "." ++ fp, after).
Proof.
  unfold Spec.isDigits. intros H Ha. apply andb_true_iff in H. destruct H as [Hne Hall].
  apply negb_true_iff in Hne. unfold optFraction. simpl "++" at 1.
  cbv iota beta. rewrite spanDigits_app by assumption. now rewrite Hne.
Qed.

(** A line made of white space, a number, white space and a rest is matched
    with the number and the rest as its groups. *)
Lemma matchLine_token (ws1 ip frac ws2 rest : string) :
  Str.all Str.isSpace ws1 = true ->
  Spec.isDigits ip = true -> Spec.isFraction frac = true ->
  Spec.tokenEnds frac (ws2 ++ rest) = true ->
  Str.all Str.isSpace ws2 = true ->
  Str.headOk rest = true ->
  Str.any Str.isLineTerminator rest = false ->
  matchLine (ws1 ++ ip ++ frac ++ ws2 ++ rest) = Some (ip ++ frac, rest).
Proof.
  intros H1 Hip Hf He H2 Hr Hl. unfold matchLine.
  rewrite trimStart_spaces by (auto using headOk_digits).
  pose proof Hip as Hip'. unfold Spec.isDigits in Hip'.
  apply andb_true_iff in Hip'. destruct Hip' as [Hne Hall].
  apply negb_true_iff in Hne.
  destruct frac as [|c fp].
  - simpl "++" at 2.
    rewrite spanDigits_app; [|exact Hall | eapply tokenEnds_nodigit; exact He].
    rewrite Hne, StrFacts.app_nil_r, optFraction_none by exact He.
    now rewrite trimStart_spaces, Hl.
  - simpl in Hf. apply andb_true_iff in Hf. destruct Hf as [Hc Hfp].
    apply Ascii.eqb_eq in Hc. subst c.
    rewrite spanDigits_app; [|exact Hall | reflexivity].
    rewrite Hne.
    change (String "." fp ++ ws2 ++ rest) with ("." ++ fp ++ ws2 ++ rest).
    rewrite optFraction_some; [|exact Hfp | eapply tokenEnds_nodigit; exact He].
    now rewrite trimStart_spaces, Hl.
Qed.

Lemma matchLine_none (s : string) :
  Spec.hasLeadingNumber s = false -> matchLine s = None.
Proof.
  unfold Spec.hasLeadingNumber, matchLine. intros H.
  rewrite spanDigits_none; [reflexivity|].
  destruct (Str.trimStart s); [reflexivity | exact H].
Qed.

End LineFacts.

Module ScaleFacts.
Import App.
Local Open Scope float_scope.

Lemma SFcompare_antisym (x y : spec_float) :
  SFcompare y x = option_map CompOpp (SFcompare x y).
Proof.
  destruct x as [[]|[]| |[] m1 e1], y as [[]|[]| |[] m2 e2]; simpl; try reflexivity;
    rewrite (Z.compare_antisym e1 e2); destruct (e1 ?= e2)%Z; simpl; try reflexivity;
    rewrite (Pos.compare_cont_antisym m1 m2 Eq); simpl;
    destruct (Pos.compare_cont Eq m1 m2); reflexivity.
Qed.

Lemma ltb_antisym (a b : float) : (a <? b) = true -> (b <? a) = false.
Proof.
  rewrite !FloatAxioms.ltb_spec. unfold SFltb.
  rewrite (SFcompare_antisym (Prim2SF a) (Prim2SF b)).
  destruct (SFcompare (Prim2SF a) (Prim2SF b)) as [[]|]; simpl; congruence.
Qed.

(** A finite Number is a zero or has a mantissa and an exponent. *)
Lemma finite_cases (f : float) :
  Num.isFinite f = true ->
  (exists s, Prim2SF f = S754_zero s) \/ (exists s m e, Prim2SF f = S754_finite s m e).
Proof.
  unfold Num.isFinite, is_finite, is_nan, is_infinity.
  rewrite !FloatAxioms.eqb_spec, FloatAxioms.abs_spec.
  change (Prim2SF infinity) with (S754_infinity false).
  destruct (Prim2SF f) as [s|[]| |s m e]; unfold SFeqb; simpl;
    try discriminate; eauto.
Qed.

Lemma Prim2SF_inj (a b : float) : Prim2SF a = Prim2SF b -> a = b.
Proof.
  intros H. rewrite <- (FloatAxioms.SF2Prim_Prim2SF a), <- (FloatAxioms.SF2Prim_Prim2SF b).
  now rewrite H.
Qed.

(** Neither below nor above a positive constant: equal to it. *)
Lemma between_eq (f c : float) (m : positive) (e : Z) :
  Prim2SF c = S754_finite false m e ->
  Num.isFinite f = true -> (f <? c) = false -> (c <? f) = false -> f = c.
Proof.
  intros Hc Hf. rewrite !FloatAxioms.ltb_spec. unfold SFltb.
  rewrite (SFcompare_antisym (Prim2SF f) (Prim2SF c)), Hc.
  destruct (finite_cases f Hf) as [[s E]|[s [m' [e' E]]]]; rewrite E.
  - destruct s; discriminate.
  - simpl. destruct s; [discriminate|].
    destruct (Z.compare_spec e' e) as [He|He|He]; simpl; try discriminate.
    destruct (Pos.compare_cont Eq m' m) eqn:Cm; simpl; try discriminate.
    intros _ _. apply Prim2SF_inj. rewrite E, Hc.
    apply Pos.compare_eq in Cm. congruence.
Qed.

(** The clamp of a finite raw scale. *)
Lemma clamp_finite (raw : float) :
  Num.isFinite raw = true ->
  Num.min 5 (Num.max 0.25 raw)
  = if raw <? 0.25 then 0.25 else if 5 <? raw then 5 else raw.
Proof.
  intros Hf. pose proof (NumFacts.finite_not_nan raw Hf) as Hn.
  unfold Num.max, Num.isNaN. rewrite Hn.
  change (is_nan 0.25) with false. change (Num.isNegZero 0.25) with false.
  cbn [orb andb]. rewrite orb_false_r.
  destruct (0.25 <? raw) eqn:A.
  - unfold Num.min, Num.isNaN. rewrite Hn. change (is_nan 5) with false.
    change (Num.isPosZero 5) with false. cbn [orb andb]. rewrite orb_false_r.
    rewrite (ltb_antisym _ _ A).
    destruct (raw <? 5) eqn:B.
    + now rewrite (ltb_antisym _ _ B).
    + destruct (5 <? raw) eqn:C; [reflexivity|].
      symmetry. now apply (between_eq raw 5 5629499534213120 (-50)).
  - change (Num.min 5 0.25) with 0.25.
    destruct (raw <? 0.25) eqn:B; [reflexivity|].
    assert (E : raw = 0.25) by now apply (between_eq raw 0.25 4503599627370496 (-54)).
    rewrite E. reflexivity.
Qed.

Lemma sanitize_bounds (v : prim) :
  (0.25 <=? sanitizeScale v) = true /\ (sanitizeScale v <=? 5) = true.
Proof.
  unfold sanitizeScale. destruct (Num.isFinite (parseFloat v)) eqn:Hf.
  2:{ split; reflexivity. }
  rewrite (clamp_finite _ Hf).
  pose proof (NumFacts.finite_not_nan _ Hf) as Hn.
  destruct (parseFloat v <? 0.25) eqn:A; [split; reflexivity|].
  destruct (5 <? parseFloat v) eqn:B; [split; reflexivity|].
  split.
  - revert A. unfold is_nan in Hn. revert Hn.
    rewrite FloatAxioms.eqb_spec, FloatAxioms.ltb_spec, FloatAxioms.leb_spec.
    unfold SFltb, SFleb, SFeqb.
    rewrite (SFcompare_antisym (Prim2SF (parseFloat v)) (Prim2SF 0.25)).
    destruct (SFcompare (Prim2SF (parseFloat v)) (Prim2SF 0.25)) as [[]|] eqn:C;
      simpl; try congruence.
    destruct (Prim2SF (parseFloat v)); simpl in *; try discriminate;
      destruct (SFcompare _ _) as [[]|]; simpl; congruence.
  - revert B. unfold is_nan in Hn. revert Hn.
    rewrite FloatAxioms.eqb_spec, FloatAxioms.ltb_spec, FloatAxioms.leb_spec.
    unfold SFltb, SFleb, SFeqb.
    rewrite (SFcompare_antisym (Prim2SF (parseFloat v)) (Prim2SF 5)).
    destruct (SFcompare (Prim2SF (parseFloat v)) (Prim2SF 5)) as [[]|] eqn:C;
      simpl; try congruence.
    destruct (Prim2SF (parseFloat v)); simpl in *; try discriminate;
      destruct (SFcompare _ _) as [[]|]; simpl; congruence.
Qed.

Lemma servings_or (f : float) :
  Spec.positiveNumber f = true -> JS.ToNumber (JS.or (PNum f) (PNum 1)) = f.
Proof.
  unfold Spec.positiveNumber. intros H. apply andb_true_iff in H. destruct H as [_ H].
  unfold JS.or. now rewrite (NumFacts.pos_truthy f H).
Qed.

End ScaleFacts.

(** *** Rounding: [Number] of an integer, [Math.round], [Math.max] and the
    product behind the scaled servings *)

Module RoundFacts.
Local Open Scope Z_scope.

(** *** Binary digits *)

Lemma digits_bounds (p : positive) :
  2 ^ (Zpos (digits2_pos p) - 1) <= Zpos p < 2 ^ Zpos (digits2_pos p).
Proof.
  induction p as [p IH|p IH|]; cbn [digits2_pos].
  - rewrite Pos2Z.inj_succ. replace (Z.succ (Zpos (digits2_pos p)) - 1)
      with (Z.succ (Zpos (digits2_pos p) - 1)) by lia.
    rewrite !Z.pow_succ_r by lia. lia.
  - rewrite Pos2Z.inj_succ. replace (Z.succ (Zpos (digits2_pos p)) - 1)
      with (Z.succ (Zpos (digits2_pos p) - 1)) by lia.
    rewrite !Z.pow_succ_r by lia. lia.
  - cbn. lia.
Qed.

Lemma digits_le (p : positive) (n : Z) :
  0 <= n -> Zpos p < 2 ^ n -> Zpos (digits2_pos p) <= n.
Proof.
  intros Hn Hp. destruct (digits_bounds p) as [L _].
  destruct (Z_le_gt_dec (Zpos (digits2_pos p)) n) as [|G]; [assumption|].
  assert (2 ^ n <= 2 ^ (Zpos (digits2_pos p) - 1)) by (apply Z.pow_le_mono_r; lia).
  lia.
Qed.

Lemma iter_xO_value (p n : positive) : Zpos (Pos.iter xO p n) = Zpos p * 2 ^ Zpos n.
Proof.
  induction n as [|n IH] using Pos.peano_ind.
  - cbn. lia.
  - rewrite Pos.iter_succ, Pos2Z.inj_succ, Z.pow_succ_r by lia.
    rewrite Pos2Z.inj_xO, IH. lia.
Qed.

Lemma iter_xO_digits (p n : positive) :
  digits2_pos (Pos.iter xO p n) = (digits2_pos p + n)%positive.
Proof.
  induction n as [|n IH] using Pos.peano_ind.
  - cbn. lia.
  - rewrite Pos.iter_succ. cbn [digits2_pos]. rewrite IH. lia.
Qed.

(** *** Numbers in canonical form *)

(** What [Prim2SF] promises of a finite Number. *)
Lemma canonical (x : float) (s : bool) (m : positive) (e : Z) :
  Prim2SF x = S754_finite s m e ->
  -1074 <= e <= 971
  /\ Zpos (digits2_pos m) <= 53
  /\ (-1074 < e -> Zpos (digits2_pos m) = 53).
Proof.
  intros E. pose proof (FloatAxioms.Prim2SF_valid x) as V. rewrite E in V.
  unfold valid_binary, bounded, canonical_mantissa, fexp, emin, prec, emax in V.
  apply andb_true_iff in V. destruct V as [C B].
  apply Z.eqb_eq in C. apply Z.leb_le in B. lia.
Qed.

(** A mantissa of 53 digits is left as it is by the rounding. *)
Lemma round_aux_canonical (s : bool) (m : positive) (e : Z) :
  Zpos (digits2_pos m) = 53 -> -1074 <= e <= 971 ->
  binary_round_aux prec emax s (Zpos m) e loc_Exact = S754_finite s m e.
Proof.
  intros D He.
  assert (F : shr_fexp prec emax (Zpos m) e loc_Exact
              = ({| shr_m := Zpos m; shr_r := false; shr_s := false |}, e)).
  { unfold shr_fexp, fexp, emin, prec, emax. cbn [Zdigits2]. rewrite D.
    replace (Z.max (53 + e - 53) (3 - 1024 - 53) - e) with 0 by lia. reflexivity. }
  unfold binary_round_aux. rewrite F.
  cbn [shr_m loc_of_shr_record round_nearest_even]. rewrite F.
  cbn [shr_m]. unfold prec, emax.
  destruct (Z.leb_spec e (1024 - 53)); [reflexivity|lia].
Qed.

(** [ofZ] is exact on the integers of at most 53 binary digits. *)
Lemma binary_round_exact (s : bool) (p : positive) :
  Zpos (digits2_pos p) <= 53 ->
  exists m e,
    binary_round prec emax s p 0 = S754_finite s m e
    /\ -52 <= e <= 0
    /\ Zpos (digits2_pos m) = 53
    /\ Zpos m = Zpos p * 2 ^ (- e).
Proof.
  intros D. unfold binary_round, shl_align.
  assert (F : fexp prec emax (Zpos (digits2_pos p) + 0) = Zpos (digits2_pos p) - 53).
  { unfold fexp, emin, prec, emax. lia. }
  rewrite F.
  destruct (Zpos (digits2_pos p) - 53 - 0) as [|d|d] eqn:E; try lia.
  - exists p, 0. rewrite round_aux_canonical by lia.
    repeat split; try lia.
  - exists (Pos.iter xO p d), (Zpos (digits2_pos p) - 53).
    assert (Dd : Zpos (digits2_pos (Pos.iter xO p d)) = 53).
    { rewrite iter_xO_digits. lia. }
    rewrite round_aux_canonical by lia.
    repeat split; try lia.
    rewrite iter_xO_value. f_equal. f_equal. lia.
Qed.

Lemma ofZ_exact (z : Z) :
  z <> 0 -> Z.abs z < 2 ^ 53 ->
  exists m e,
    Prim2SF (Num.ofZ z) = S754_finite (z <? 0) m e
    /\ -52 <= e <= 0
    /\ Zpos (digits2_pos m) = 53
    /\ Zpos m = Z.abs z * 2 ^ (- e).
Proof.
  intros Hz Hb. unfold Num.ofZ.
  destruct z as [|p|p]; [congruence| |]; cbn [binary_normalize Z.abs] in *.
  - destruct (binary_round_exact false p) as (m & e & E & He & D & V).
    { apply digits_le; lia. }
    exists m, e. rewrite E. rewrite FloatAxioms.Prim2SF_SF2Prim.
    + repeat split; try assumption; lia.
    + unfold valid_binary, bounded, canonical_mantissa, fexp, emin, prec, emax.
      rewrite D. apply andb_true_iff. split; [apply Z.eqb_eq|apply Z.leb_le]; lia.
  - destruct (binary_round_exact true p) as (m & e & E & He & D & V).
    { apply digits_le; lia. }
    exists m, e. rewrite E. rewrite FloatAxioms.Prim2SF_SF2Prim.
    + repeat split; try assumption; lia.
    + unfold valid_binary, bounded, canonical_mantissa, fexp, emin, prec, emax.
      rewrite D. apply andb_true_iff. split; [apply Z.eqb_eq|apply Z.leb_le]; lia.
Qed.

(** The Number [ofZ z] is the integer [z]. *)
Lemma ofZ_integer (z : Z) : Z.abs z < 2 ^ 53 -> Spec.isInteger (Num.ofZ z) z.
Proof.
  intros Hb. unfold Spec.isInteger, Spec.fraction.
  destruct (Z.eq_dec z 0) as [->|Hz].
  { exists 0, 1. split; reflexivity. }
  destruct (ofZ_exact z Hz Hb) as (m & e & E & He & D & V). rewrite E.
  unfold Num.fracOf.
  destruct (Z.leb_spec 0 e) as [H0|H0].
  - assert (e = 0) by lia. subst e. cbn [Z.opp] in V. rewrite Z.pow_0_r in *.
    eexists _, _. split; [reflexivity|].
    destruct (Z.ltb_spec z 0); lia.
  - eexists _, _. split; [reflexivity|].
    destruct (Z.ltb_spec z 0); rewrite V.
    + rewrite Z.abs_neq by lia. lia.
    + rewrite Z.abs_eq by lia. lia.
Qed.


(** *** [Math.round] *)

Lemma fraction_finite (x : float) :
  Num.isFinite x = true -> exists num den, Spec.fraction x = Some (num, den) /\ 0 < den.
Proof.
  intros F. unfold Spec.fraction.
  destruct (ScaleFacts.finite_cases x F) as [[s E]|(s & m & e & E)]; rewrite E.
  - exists 0, 1. split; [reflexivity|lia].
  - unfold Num.fracOf. destruct (Z.leb_spec 0 e).
    + eexists _, _. split; [reflexivity|lia].
    + eexists _, _. split; [reflexivity|]. apply Z.pow_pos_nonneg; lia.
Qed.

(** [Math.round] of a finite Number is the nearest integer, the larger one
    on a tie. *)
Lemma round_nearest (x : float) :
  Num.isFinite x = true ->
  exists r, Spec.nearestInteger x r /\ Spec.isInteger (Num.round x) r.
Proof.
  intros F. unfold Spec.nearestInteger, Spec.isInteger, Num.round.
  destruct (ScaleFacts.finite_cases x F) as [[s E]|(s & m & e & E)].
  { exists 0. rewrite E. unfold Spec.fraction. rewrite E.
    split; exists 0, 1; split; try reflexivity; lia. }
  destruct (canonical x s m e E) as (He & D & _).
  rewrite E. destruct (Z.leb_spec 0 e) as [H0|H0].
  - (* an integer already *)
    exists (if s then - (Zpos m * 2 ^ e) else Zpos m * 2 ^ e).
    unfold Spec.fraction, Num.fracOf. rewrite E.
    destruct (Z.leb_spec 0 e); [|lia].
    split; eexists _, _; (split; [reflexivity|]); destruct s; lia.
  - set (den := 2 ^ (- e)). set (num := if s then Zneg m else Zpos m).
    assert (Hden : 2 <= den).
    { unfold den. replace (- e) with (Z.succ (- e - 1)) by lia.
      rewrite Z.pow_succ_r by lia.
      assert (0 < 2 ^ (- e - 1)) by (apply Z.pow_pos_nonneg; lia). lia. }
    set (r := (2 * num + den) / (2 * den)).
    assert (Hr : (2 * r - 1) * den <= 2 * num < (2 * r + 1) * den).
    { pose proof (Z.div_mod (2 * num + den) (2 * den) ltac:(lia)) as DM.
      pose proof (Z.mod_pos_bound (2 * num + den) (2 * den) ltac:(lia)) as MB.
      fold r in DM. lia. }
    exists r. split.
    + exists num, den. split; [|exact Hr].
      unfold Spec.fraction, Num.fracOf. rewrite E.
      destruct (Z.leb_spec 0 e); [lia|]. unfold num. destruct s; reflexivity.
    + destruct (Z.eqb_spec r 0) as [R0|R0].
      * exists 0, 1. rewrite R0. split; [|reflexivity]. destruct s; reflexivity.
      * apply ofZ_integer.
        assert (Hm : Zpos m < 2 ^ 53).
        { destruct (digits_bounds m) as [_ U].
          eapply Z.lt_le_trans; [exact U|]. apply Z.pow_le_mono_r; lia. }
        assert (Hn : Z.abs num < 2 ^ 53) by (unfold num; destruct s; cbn [Z.abs]; lia).
        change (2 ^ 53) with 9007199254740992 in *.
        clearbody r num den. apply Z.abs_lt. split.
        -- assert (Z.abs num = num \/ Z.abs num = - num) by lia. nia.
        -- assert (Z.abs num = num \/ Z.abs num = - num) by lia. nia.
Qed.

(** [Math.round] leaves the other Numbers as they are. *)
Lemma round_not_finite (x : float) : Num.isFinite x = false -> Num.round x = x.
Proof.
  unfold Num.isFinite, is_finite, is_nan, is_infinity, Num.round.
  rewrite !FloatAxioms.eqb_spec, FloatAxioms.abs_spec.
  change (Prim2SF infinity) with (S754_infinity false).
  destruct (Prim2SF x) as [s|[]| |s m e]; unfold SFeqb; cbn; try reflexivity;
    try discriminate.
  destruct s; rewrite Z.compare_refl, Pos.compare_cont_refl; discriminate.
Qed.


(** [Math.round] at work: a half goes up, below zero too; what rounds to
    zero keeps its sign; integers, NaN and the infinities are left alone. *)
Lemma round_examples :
  Num.round 2.5 = 3%float
  /\ Num.round (-2.5) = (-2)%float
  /\ Num.round 0.5 = 1%float
  /\ Num.round (-0.5) = neg_zero
  /\ Num.round (Num.ofString "0.49999999999999994") = 0%float
  /\ Num.round (Num.ofString "2.4999999999999996") = 2%float
  /\ Num.round (Num.ofString "-0.2") = neg_zero
  /\ Num.round (Num.ofString "5.2") = 5%float
  /\ Num.round (Num.ofString "2.6") = 3%float
  /\ Num.round (-7.5) = (-7)%float
  /\ Num.round 4503599627370495.5 = 4503599627370496%float
  /\ Num.round 4503599627370497 = 4503599627370497%float
  /\ Num.round 1e21 = 1e21%float
  /\ Num.round (Num.ofString "5e-324") = 0%float
  /\ Num.round neg_zero = neg_zero
  /\ Num.round nan = nan
  /\ Num.round infinity = infinity
  /\ Num.round neg_infinity = neg_infinity.
Proof. repeat split; vm_compute; reflexivity. Qed.

(** [Number] of an integer, and [Math.max] with 1. *)
Lemma ofZ_max_examples :
  Num.ofZ 3 = 3%float
  /\ Num.ofZ (-2) = (-2)%float
  /\ Num.ofZ 1753401600000 = 1753401600000%float
  /\ Num.ofZ 9007199254740993 = 9007199254740992%float
  /\ Num.max 1 0 = 1%float
  /\ Num.max 1 20 = 20%float
  /\ Num.max 1 (-3) = 1%float
  /\ Num.max 1 nan = nan
  /\ Spec.fraction 2.5 = Some (5629499534213120, 2251799813685248)
  /\ Spec.fraction (-0.5) = Some (-4503599627370496, 9007199254740992)
  /\ Spec.fraction 20 = Some (5629499534213120, 281474976710656)
  /\ Spec.fraction 1e21 = Some (1000000000000000000000, 1)
  /\ Spec.fraction infinity = None.
Proof. repeat split; vm_compute; reflexivity. Qed.


(** *** [Math.max(1, n)] on an integer *)

Lemma SF_finite (x : float) :
  (exists s, Prim2SF x = S754_zero s) \/ (exists s m e, Prim2SF x = S754_finite s m e) ->
  Num.isFinite x = true.
Proof.
  unfold Num.isFinite, is_finite, is_nan, is_infinity.
  rewrite !FloatAxioms.eqb_spec, FloatAxioms.abs_spec.
  change (Prim2SF infinity) with (S754_infinity false).
  intros [[s E]|(s & m & e & E)]; rewrite E; unfold SFeqb; cbn; [reflexivity|].
  destruct s; rewrite Z.compare_refl, Pos.compare_cont_refl; reflexivity.
Qed.

Lemma fraction_cases (x : float) (num den : Z) :
  Spec.fraction x = Some (num, den) ->
  (exists s, Prim2SF x = S754_zero s) \/ (exists s m e, Prim2SF x = S754_finite s m e).
Proof.
  unfold Spec.fraction. destruct (Prim2SF x) as [s|s| |s m e]; try discriminate; eauto.
Qed.

Lemma max_one (b : float) :
  Num.isFinite b = true -> Num.max 1 b = if PrimFloat.ltb 1 b then b else 1%float.
Proof.
  intros F. unfold Num.max, Num.isNaN. rewrite (NumFacts.finite_not_nan b F).
  change (is_nan 1) with false. change (Num.isNegZero 1) with false.
  cbn [orb andb]. now rewrite orb_false_r.
Qed.

Lemma one_integer : Spec.isInteger 1 1.
Proof. exists 4503599627370496, 4503599627370496. split; reflexivity. Qed.

(** [Math.max(1, b)] of the integer [r] is the integer [max 1 r]. *)
Lemma max_one_integer (b : float) (r : Z) :
  Spec.isInteger b r -> Spec.isInteger (Num.max 1 b) (Z.max 1 r).
Proof.
  intros (num & den & Fr & V).
  pose proof (SF_finite b (fraction_cases b num den Fr)) as F.
  rewrite (max_one b F), FloatAxioms.ltb_spec.
  change (Prim2SF 1) with (S754_finite false 4503599627370496 (-52)).
  unfold Spec.fraction in Fr.
  destruct (Prim2SF b) as [s|s| |s m e] eqn:E; try discriminate.
  - (* a zero *)
    injection Fr as <- <-. assert (r = 0) by lia. subst r.
    cbn. apply one_integer.
  - destruct (canonical b s m e E) as (He & D & _).
    assert (Hm : Zpos m < 2 ^ 53).
    { destruct (digits_bounds m) as [_ U].
      eapply Z.lt_le_trans; [exact U|]. apply Z.pow_le_mono_r; lia. }
    unfold Num.fracOf in Fr. unfold SFltb, SFcompare.
    destruct s.
    + (* negative *)
      replace (Z.max 1 r) with 1; [apply one_integer|].
      destruct (Z.leb_spec 0 e); injection Fr as <- <-.
      * assert (0 < 2 ^ e) by (apply Z.pow_pos_nonneg; lia). nia.
      * assert (0 < 2 ^ (- e)) by (apply Z.pow_pos_nonneg; lia). nia.
    + destruct (Z.compare_spec (-52) e) as [He2|He2|He2].
      * (* the exponent of 1 *)
        subst e. vm_compute in Fr. injection Fr as <- <-.
        change (Pos.compare_cont Eq 4503599627370496 m)
          with (4503599627370496 ?= m)%positive.
        destruct (Pos.compare_spec 4503599627370496 m) as [C|C|C].
        -- subst m. replace (Z.max 1 r) with 1 by lia. apply one_integer.
        -- replace (Z.max 1 r) with r by lia.
           exists (Zpos m), 4503599627370496. split; [|exact V].
           unfold Spec.fraction. now rewrite E.
        -- replace (Z.max 1 r) with 1; [apply one_integer|].
           destruct (Z_lt_le_dec r 1) as [L|G]; [clear - L; lia|exfalso].
           assert (M : 1 * 4503599627370496 <= r * 4503599627370496)
             by (apply Z.mul_le_mono_nonneg_r; clear - G; lia).
           apply Pos2Z.pos_lt_pos in C. clear - M C V. lia.
      * (* a larger exponent *)
        replace (Z.max 1 r) with r.
        -- exists num, den. split; [|exact V].
           unfold Spec.fraction, Num.fracOf. now rewrite E, Fr.
        -- destruct (Z.leb_spec 0 e); injection Fr as <- <-.
           ++ assert (0 < 2 ^ e) by (apply Z.pow_pos_nonneg; lia). nia.
           ++ assert (0 < 2 ^ (- e)) by (apply Z.pow_pos_nonneg; lia). nia.
      * (* a smaller one: below 1 *)
        replace (Z.max 1 r) with 1; [apply one_integer|].
        destruct (Z.leb_spec 0 e); [lia|]. injection Fr as <- <-.
        assert (2 ^ 53 <= 2 ^ (- e)) by (apply Z.pow_le_mono_r; lia).
        change (2 ^ 53) with 9007199254740992 in *. nia.
Qed.


(** *** The product of two positive Numbers *)

Lemma iter_pos_inv {A : Type} (P : A -> Prop) (f : A -> A) :
  (forall x, P x -> P (f x)) -> forall n x, P x -> P (SpecFloat.iter_pos f n x).
Proof.
  intros Hf. induction n as [n IH|n IH|]; intros x Hx; cbn [SpecFloat.iter_pos]; auto.
Qed.

Lemma shr_1_nonneg (mrs : shr_record) : 0 <= shr_m mrs -> 0 <= shr_m (shr_1 mrs).
Proof.
  destruct mrs as [m r s]. cbn [shr_m]. intros H.
  destruct m as [|[p|p|]|p]; cbn; lia.
Qed.

Lemma shr_fexp_nonneg (m e : Z) (l : location) :
  0 <= m -> 0 <= shr_m (fst (shr_fexp prec emax m e l)).
Proof.
  intros H. unfold shr_fexp, shr.
  assert (R : 0 <= shr_m (shr_record_of_loc m l)) by (destruct l as [|[]]; exact H).
  destruct (fexp prec emax (Zdigits2 m + e) - e); cbn [fst]; try exact R.
  now apply (iter_pos_inv (fun x => 0 <= shr_m x) shr_1 shr_1_nonneg).
Qed.

Lemma round_nearest_even_nonneg (m : Z) (l : location) :
  0 <= m -> 0 <= round_nearest_even m l.
Proof.
  intros H. destruct l as [|[]]; cbn [round_nearest_even]; try lia.
  destruct (Z.even m); lia.
Qed.

(** Rounding a positive magnitude gives a zero, a finite Number or an
    infinity, of the sign asked for. *)
Lemma round_aux_sign (s : bool) (m : positive) (e : Z) :
  binary_round_aux prec emax s (Zpos m) e loc_Exact = S754_zero s
  \/ (exists m' e', binary_round_aux prec emax s (Zpos m) e loc_Exact = S754_finite s m' e')
  \/ binary_round_aux prec emax s (Zpos m) e loc_Exact = S754_infinity s.
Proof.
  unfold binary_round_aux.
  pose proof (shr_fexp_nonneg (Zpos m) e loc_Exact ltac:(lia)) as H1.
  destruct (shr_fexp prec emax (Zpos m) e loc_Exact) as [mrs1 e1]. cbn [fst] in H1.
  pose proof (shr_fexp_nonneg _ e1 loc_Exact
                (round_nearest_even_nonneg _ (loc_of_shr_record mrs1) H1)) as H2.
  destruct (shr_fexp prec emax _ e1 loc_Exact) as [mrs2 e2]. cbn [fst] in H2.
  destruct (shr_m mrs2) as [|p|p]; [now left| |lia].
  destruct (e2 <=? emax - prec); right; [left; eauto|now right].
Qed.

(** A Number that is "finite, > 0" has a mantissa and no sign. *)
Lemma positive_cases (f : float) :
  Spec.positiveNumber f = true -> exists m e, Prim2SF f = S754_finite false m e.
Proof.
  unfold Spec.positiveNumber. intros H. apply andb_true_iff in H. destruct H as [F P].
  revert P. rewrite FloatAxioms.ltb_spec. change (Prim2SF 0) with (S754_zero false).
  destruct (ScaleFacts.finite_cases f F) as [[s E]|(s & m & e & E)]; rewrite E.
  - discriminate.
  - destruct s; [discriminate|eauto].
Qed.

(** So has a Number between 0.25 and 5. *)
Lemma clamped_cases (f : float) :
  PrimFloat.leb 0.25 f = true -> PrimFloat.leb f 5 = true ->
  exists m e, Prim2SF f = S754_finite false m e.
Proof.
  rewrite !FloatAxioms.leb_spec.
  change (Prim2SF 0.25) with (S754_finite false 4503599627370496 (-54)).
  change (Prim2SF 5) with (S754_finite false 5629499534213120 (-50)).
  destruct (Prim2SF f) as [s|s| |s m e]; try destruct s; try discriminate; eauto.
Qed.

(** The product of two positive finite Numbers is +0, positive and finite,
    or +Infinity. *)
Lemma mul_positive (a b : float) (ma mb : positive) (ea eb : Z) :
  Prim2SF a = S754_finite false ma ea -> Prim2SF b = S754_finite false mb eb ->
  Prim2SF (a * b) = S754_zero false
  \/ (exists m e, Prim2SF (a * b) = S754_finite false m e)
  \/ Prim2SF (a * b) = S754_infinity false.
Proof.
  intros Ea Eb. rewrite FloatAxioms.mul_spec, Ea, Eb.
  apply (round_aux_sign false).
Qed.


(** *** [Math.max(1, Math.round(servings * scale))] *)

Lemma max_one_ge (b : float) :
  Num.isFinite b = true -> PrimFloat.leb 1 (Num.max 1 b) = true.
Proof.
  intros F. rewrite (max_one b F). destruct (PrimFloat.ltb 1 b) eqn:L.
  - now apply NumFacts.ltb_leb.
  - reflexivity.
Qed.

Lemma isInteger_finite (x : float) (r : Z) : Spec.isInteger x r -> Num.isFinite x = true.
Proof. intros (num & den & Fr & _). exact (SF_finite x (fraction_cases x num den Fr)). Qed.

(** The servings shown for positive base servings and a scale between
    0.25 and 5: at least 1; when the product is finite, the integer nearest
    to it (the larger one on a tie), or 1 if that is less; +Infinity when
    the product overflows. *)
Lemma servings_scaled (servings scale : float) :
  Spec.positiveNumber servings = true ->
  PrimFloat.leb 0.25 scale = true -> PrimFloat.leb scale 5 = true ->
  PrimFloat.leb 1 (Num.max 1 (Num.round (servings * scale))) = true
  /\ (Num.isFinite (servings * scale) = true ->
      exists r, Spec.nearestInteger (servings * scale) r
                /\ Spec.isInteger (Num.max 1 (Num.round (servings * scale))) (Z.max 1 r))
  /\ (Num.isFinite (servings * scale) = false ->
      Num.max 1 (Num.round (servings * scale)) = infinity).
Proof.
  intros Hs Hlo Hhi.
  destruct (positive_cases servings Hs) as (ma & ea & Ea).
  destruct (clamped_cases scale Hlo Hhi) as (mb & eb & Eb).
  set (y := (servings * scale)%float).
  destruct (mul_positive servings scale ma mb ea eb Ea Eb) as [E|[(m & e & E)|E]];
    fold y in E.
  - assert (F : Num.isFinite y = true) by (apply SF_finite; eauto).
    destruct (round_nearest y F) as (r & N & I).
    split; [apply max_one_ge, (isInteger_finite _ r I)|].
    split; [|congruence]. intros _. exists r. split; [exact N|].
    now apply max_one_integer.
  - assert (F : Num.isFinite y = true) by (apply SF_finite; eauto 6).
    destruct (round_nearest y F) as (r & N & I).
    split; [apply max_one_ge, (isInteger_finite _ r I)|].
    split; [|congruence]. intros _. exists r. split; [exact N|].
    now apply max_one_integer.
  - assert (Y : y = infinity) by (apply ScaleFacts.Prim2SF_inj; rewrite E; reflexivity).
    rewrite Y. split; [reflexivity|]. split; [discriminate|reflexivity].
Qed.

End RoundFacts.
(** * The claims *)

Local Open Scope float_scope.

(** C1 (as stated, refuted): the collection whose record has id R-99999 and a
    valid payload: the next id would need six digits, and [add] throws. *)
Lemma C1_counterexample :
  Spec.validRecipePayload Examples.soup = true
  /\ Re.isYmd Examples.today = true
  /\ Spec.maxRecipeSuffix (Recipe.recipes Examples.fullStore) = 99999%N
  /\ fst (Recipe.add Examples.today (Some Examples.soup) Examples.fullStore)
     = Throw "recipeId must be in 'R-00001' format".
Proof. repeat split; vm_compute; reflexivity. Qed.

(** C1 (amended): for every collection whose maximum numeric suffix [m] is
    below 99999 and every valid Recipe payload, [add] returns a record whose
    recipeId is [formatId (m + 1)] and appends it; the first [add] into an
    empty collection yields "R-00001". *)
Theorem C1_add_assigns_next_id (today : string) (p : Recipe.payload) (s : Recipe.store) :
  Spec.validRecipePayload p = true ->
  Re.isYmd today = true ->
  (Spec.maxRecipeSuffix (Recipe.recipes s) < 99999)%N ->
  exists r s',
    Recipe.add today (Some p) s = (Ok r, s')
    /\ Recipe.recipeId r = Recipe.formatId (Spec.maxRecipeSuffix (Recipe.recipes s) + 1)
    /\ Recipe.recipes s' = (Recipe.recipes s ++ [r])%list
    /\ (Recipe.recipes s = [] -> Recipe.recipeId r = "R-00001").
Proof.
  intros Hv Hd Hm.
  destruct (RecipeFacts2.Recipe_add_ok today p s Hv Hd) as (r & h & Ha & _ & Hid & _).
  { rewrite IdFacts.Recipe_nextNum. lia. }
  exists r, (Recipe.mkStore h (Recipe.recipes s ++ [r])).
  rewrite IdFacts.Recipe_nextNum in Hid.
  repeat split; try assumption.
  intros He. rewrite Hid, He. reflexivity.
Qed.

Lemma C1_witness :
  exists r s',
    Recipe.add Examples.today (Some Examples.soup) SampleData.recipes = (Ok r, s')
    /\ Recipe.recipeId r
       = Recipe.formatId (Spec.maxRecipeSuffix (Recipe.recipes SampleData.recipes) + 1)
    /\ Recipe.recipes s' = (Recipe.recipes SampleData.recipes ++ [r])%list
    /\ (Recipe.recipes SampleData.recipes = [] -> Recipe.recipeId r = "R-00001").
Proof.
  apply (C1_add_assigns_next_id Examples.today Examples.soup SampleData.recipes).
  - vm_compute. reflexivity.
  - vm_compute. reflexivity.
  - vm_compute. reflexivity.
Defined.

(** C2: for every payload that violates a constraint of the data model,
    [add] of either repository throws and leaves the collection as it was:
    the same records, and every array they refer to unchanged. *)
Theorem C2_invalid_add_changes_nothing (today : string) :
  (forall (p : option Recipe.payload) (s : Recipe.store),
     Spec.validRecipePayload (default Recipe.emptyPayload p) = false ->
     exists msg s',
       Recipe.add today p s = (Throw msg, s')
       /\ Recipe.recipes s' = Recipe.recipes s
       /\ Recipe.arrays s ⊆ Recipe.arrays s')
  /\ (forall (p : option InventoryItem.payload) (items : list InventoryItem.t),
     Spec.validInventoryPayload today (default InventoryItem.emptyPayload p) = false ->
     exists msg, InventoryItem.add today p items = (Throw msg, items)).
Proof.
  split.
  - intros [p|] s Hv.
    + simpl in Hv. pose proof (RecipeFacts2.Recipe_add_outcome today p s) as H.
      destruct (Recipe.add today (Some p) s) as [[r|msg] s'].
      * destruct H as (_ & _ & Hv' & _). congruence.
      * exists msg, s'. now destruct H.
    + exists "title is required", s. now rewrite RecipeFacts2.Recipe_add_missing.
  - intros [p|] items Hv.
    + now apply InventoryFacts.Inventory_add_invalid.
    + now exists "ingredientName (or name) is required".
Qed.

Lemma C2_witness :
  (exists msg s',
     Recipe.add Examples.today (Some Examples.untitled) SampleData.recipes = (Throw msg, s')
     /\ Recipe.recipes s' = Recipe.recipes SampleData.recipes
     /\ Recipe.arrays SampleData.recipes ⊆ Recipe.arrays s')
  /\ (exists msg,
        InventoryItem.add Examples.today (Some Examples.badMilk) SampleData.inventory
        = (Throw msg, SampleData.inventory)).
Proof.
  split.
  - apply (proj1 (C2_invalid_add_changes_nothing Examples.today)
             (Some Examples.untitled) SampleData.recipes).
    vm_compute. reflexivity.
  - apply (proj2 (C2_invalid_add_changes_nothing Examples.today)
             (Some Examples.badMilk) SampleData.inventory).
    vm_compute. reflexivity.
Defined.

(** C3 (as stated, refuted): [scaleLine("200g flour", 0.5)] is
    "100 g flour", with a space after the number, not "100g flour". *)
Lemma C3_counterexample :
  App.scaleLine (PStr "200g flour") 0.5 = PStr "100 g flour"
  /\ PStr "100 g flour" <> PStr "100g flour".
Proof. split; [vm_compute; reflexivity | discriminate]. Qed.

(** C3 (amended): a line made of white space, a numeric token (digits and
    an optional fraction) of finite value, white space and a remainder
    without line terminator is rewritten as the token times the scale rounded
    to 2 decimals, one space, and the remainder, the whole trimmed; so
    [scaleLine("200g flour", 0.5)] is "100 g flour"; and a line with no leading
    numeric token, such as "Black pepper", is returned unchanged for every
    scale. *)
Theorem C3_scaleLine :
  (forall (scale : float) (ws1 ip frac ws2 rest : string),
     Str.all Str.isSpace ws1 = true ->
     Spec.isDigits ip = true ->
     Spec.isFraction frac = true ->
     Spec.tokenEnds frac (ws2 ++ rest) = true ->
     Str.all Str.isSpace ws2 = true ->
     Str.headOk rest = true ->
     Str.any Str.isLineTerminator rest = false ->
     Num.isFinite (Num.parseFloat (ip ++ frac)) = true ->
     App.scaleLine (PStr (ws1 ++ ip ++ frac ++ ws2 ++ rest)) scale
     = PStr (Str.trim
               (Num.toString
                  (Num.ofString (Num.toFixed 2 (Num.parseFloat (ip ++ frac) * scale)))
                ++ " " ++ rest)))
  /\ App.scaleLine (PStr "200g flour") 0.5 = PStr "100 g flour"
  /\ (forall (scale : float) (line : prim),
        Spec.hasLeadingNumber (JS.ToString line) = false ->
        App.scaleLine line scale = line)
  /\ (forall scale : float,
        App.scaleLine (PStr "Black pepper") scale = PStr "Black pepper").
Proof.
  split; [|split; [|split]].
  - intros scale ws1 ip frac ws2 rest H1 H2 H3 H4 H5 H6 H7 H8.
    unfold App.scaleLine. cbn [JS.ToString].
    rewrite (LineFacts.matchLine_token ws1 ip frac ws2 rest) by assumption.
    rewrite H8. reflexivity.
  - vm_compute. reflexivity.
  - intros scale line H. unfold App.scaleLine.
    now rewrite (LineFacts.matchLine_none _ H).
  - intros scale. reflexivity.
Qed.

Lemma C3_witness :
  App.scaleLine (PStr ("  " ++ "1" ++ ".5" ++ " " ++ "cups milk")) 3
  = PStr (Str.trim
            (Num.toString (Num.ofString (Num.toFixed 2 (Num.parseFloat ("1" ++ ".5") * 3)))
             ++ " " ++ "cups milk"))
  /\ App.scaleLine (PStr "Olive oil") 3 = PStr "Olive oil".
Proof.
  split.
  - apply (proj1 C3_scaleLine 3 "  " "1" ".5" " " "cups milk"); vm_compute; reflexivity.
  - apply (proj1 (proj2 (proj2 C3_scaleLine)) 3 (PStr "Olive oil")).
    vm_compute. reflexivity.
Defined.

(** C4 (as stated, refuted): the Inventory repository's [add] keeps a
    createdDate the caller supplies. *)
Lemma C4_counterexample :
  exists i items',
    InventoryItem.add Examples.today (Some Examples.milkOfAiko) SampleData.inventory
    = (Ok i, items')
    /\ InventoryItem.createdDate i = "2000-01-01"
    /\ InventoryItem.createdDate i <> Examples.today.
Proof.
  eexists. eexists. split; [vm_compute; reflexivity|].
  split; [reflexivity | discriminate].
Qed.

(** C4 (amended): the Recipe repository's [add] stores the current date as
    createdDate and ignores a createdDate of the caller; the Inventory
    repository's [add] stores the caller's createdDate when one is supplied,
    and the current date otherwise. *)
Theorem C4_createdDate (today : string) :
  (forall (p : Recipe.payload) (s : Recipe.store),
     Spec.validRecipePayload p = true -> Re.isYmd today = true ->
     (Spec.maxRecipeSuffix (Recipe.recipes s) < 99999)%N ->
     exists r s', Recipe.add today (Some p) s = (Ok r, s')
                  /\ Recipe.createdDate r = today)
  /\ (forall (p : option Recipe.payload) (s s' : Recipe.store) (r : Recipe.t),
        Recipe.add today p s = (Ok r, s') -> Recipe.createdDate r = today)
  /\ (forall (p : Recipe.payload) (v : prim) (s : Recipe.store),
        Recipe.add today (Some (Spec.withCreatedDate v p)) s = Recipe.add today (Some p) s)
  /\ (forall (p : option InventoryItem.payload) (items items' : list InventoryItem.t)
             (i : InventoryItem.t),
        InventoryItem.add today p items = (Ok i, items') ->
        InventoryItem.createdDate i
        = let supplied := InventoryItem.p_createdDate (default InventoryItem.emptyPayload p) in
          if JS.truthy supplied then JS.ToString supplied else today).
Proof.
  split; [|split; [|split]].
  - intros p s Hv Hd Hm.
    destruct (RecipeFacts2.Recipe_add_ok today p s Hv Hd) as (r & h & Ha & _ & _ & Hc & _).
    { rewrite IdFacts.Recipe_nextNum. lia. }
    eauto.
  - intros [p|] s s' r Ha.
    + pose proof (RecipeFacts2.Recipe_add_outcome today p s) as H. rewrite Ha in H.
      now destruct H as (_ & _ & _ & _ & H).
    + rewrite RecipeFacts2.Recipe_add_missing in Ha. discriminate.
  - intros p v s. destruct p. reflexivity.
  - intros [p|] items items' i Ha.
    + pose proof (InventoryFacts.Inventory_add_outcome today p items) as H. rewrite Ha in H.
      destruct H as (_ & _ & _ & _ & H). rewrite H. cbn [default from_option id].
      unfold JS.or. now destruct (JS.truthy _).
    + discriminate.
Qed.

Lemma C4_witness :
  exists r s',
    Recipe.add Examples.today (Some Examples.soup) SampleData.recipes = (Ok r, s')
    /\ Recipe.createdDate r = Examples.today.
Proof.
  apply (proj1 (C4_createdDate Examples.today) Examples.soup SampleData.recipes);
    vm_compute; reflexivity.
Defined.

(** C5 (as stated, refuted): with no userId in the payload, the Inventory
    repository's [add] throws "userId is required". *)
Lemma C5_counterexample :
  JS.truthy (InventoryItem.p_userId Examples.milk) = false
  /\ InventoryItem.add Examples.today (Some Examples.milk) SampleData.inventory
     = (Throw "userId is required", SampleData.inventory).
Proof. split; vm_compute; reflexivity. Qed.

(** C5 (amended): for every inventory payload in which userId is absent, the
    Inventory repository's [add] throws; it is the handler of
    POST /inventory-00000001 that puts the fixed constant
    "TakumiWatanabe-00000001" in the body before it calls [add], so that a
    body that passes the middleware and is otherwise valid is stored under
    that userId. *)
Theorem C5_default_userId (today : string) (body : InventoryItem.payload)
    (items : list InventoryItem.t) :
  JS.truthy (InventoryItem.p_userId body) = false ->
  (exists msg, InventoryItem.add today (Some body) items = (Throw msg, items))
  /\ (Validators.validateInventoryBody body = Validators.Next ->
      Spec.validInventoryPayload today (App.setUserId (PStr App.defaultUserId) body) = true ->
      (Spec.maxInventorySuffix items < 99999)%N ->
      exists i,
        App.postInventory today body items
        = (Ok (App.Redirect 303 "/inventoryItem-00000001"), (items ++ [i])%list)
        /\ InventoryItem.userId i = "TakumiWatanabe-00000001").
Proof.
  intros Hu. split.
  - apply InventoryFacts.Inventory_add_invalid.
    unfold Spec.validInventoryPayload, Spec.nonBlank, JS.or. rewrite Hu. reflexivity.
  - intros Hn Hv Hm. unfold App.postInventory. rewrite Hn, Hu. cbn [negb].
    destruct (InventoryFacts.Inventory_add_ok today _ items Hv) as (i & Ha & _ & Hi & _).
    { rewrite IdFacts.Inventory_nextNum. lia. }
    exists i. unfold tryCatch, bind. rewrite Ha. split; [reflexivity|].
    rewrite Hi. destruct body. reflexivity.
Qed.

Lemma C5_witness :
  (exists msg,
     InventoryItem.add Examples.today (Some Examples.milk) SampleData.inventory
     = (Throw msg, SampleData.inventory))
  /\ (exists i,
        App.postInventory Examples.today Examples.milk SampleData.inventory
        = (Ok (App.Redirect 303 "/inventoryItem-00000001"),
           (SampleData.inventory ++ [i])%list)
        /\ InventoryItem.userId i = "TakumiWatanabe-00000001").
Proof.
  destruct (C5_default_userId Examples.today Examples.milk SampleData.inventory)
    as [A B].
  - vm_compute. reflexivity.
  - split; [exact A|]. apply B; vm_compute; reflexivity.
Defined.

(** C6 (as stated, refuted): the query "carbonara " (with a space at its
    end) is no substring of any field of the carbonara recipe, and the
    search returns that recipe. *)
Lemma C6_counterexample :
  exists v,
    App.searchRecipe (Some "carbonara ") None SampleData.recipes
    = (Ok v, SampleData.recipes)
    /\ map App.recipe (App.results v) = [SampleData.carbonara]
    /\ ~ Spec.textMatch SampleData.arrays "carbonara " SampleData.carbonara.
Proof.
  eexists. split; [reflexivity|]. split; [vm_compute; reflexivity|].
  intros H. apply AppFacts.matches_spec in H. vm_compute in H. discriminate.
Qed.

(** C6 (amended): for every query string [q], the search returns, in their
    order, exactly the recipes where [q] with the white space around it
    trimmed is a case-insensitive substring of title, chef, mealType or
    cuisineType, or of some single ingredients entry, or of some single
    instructions entry; a query that is empty once trimmed matches every
    record; and the "has a search been performed" flag is true exactly when
    the query or the scale parameter is supplied, no result being given
    otherwise.  The search changes nothing in the store. *)
Theorem C6_search (qQuery qScale : option string) (s : Recipe.store) :
  exists v,
    App.searchRecipe qQuery qScale s = (Ok v, s)
    /\ (App.hasSearched v = true <-> (qQuery <> None \/ qScale <> None))
    /\ (App.hasSearched v = false -> App.results v = [])
    /\ (App.hasSearched v = true ->
        let q := Str.trim (default "" qQuery) in
        (exists keep, map App.recipe (App.results v) = List.filter keep (Recipe.recipes s))
        /\ (forall r, In r (map App.recipe (App.results v))
                      <-> In r (Recipe.recipes s) /\ Spec.textMatch (Recipe.arrays s) q r)
        /\ (q = "" -> map App.recipe (App.results v) = Recipe.recipes s)).
Proof.
  eexists. split; [apply AppFacts.searchRecipe_eq|].
  cbv zeta. cbn [App.hasSearched App.results].
  rewrite AppFacts.query_of_param.
  split; [|split].
  - rewrite orb_true_iff, !AppFacts.defined_param. reflexivity.
  - now intros ->.
  - intros ->. rewrite AppFacts.map_recipe_scale. split; [|split].
    + eexists. reflexivity.
    + intros r. rewrite filter_In, AppFacts.matches_spec. reflexivity.
    + intros ->. induction (Recipe.recipes s) as [|r rs IH]; [reflexivity|].
      simpl. now rewrite IH.
Qed.

(** C7 (the code at a failing input): on a host ten hours east of UTC, at
    09:00 on 2025-07-25, the seed item that expires on 2025-07-25 gets
    daysLeft = 1, not 0 (its lineValue is 51.2, and the collection is
    unchanged), whatever the engine makes of the strings that are not of
    the form YYYY-MM-DD. *)
Theorem C7_daysLeft_east_of_utc (otherForms : string -> Date.t) :
  InventoryItem.withDerived otherForms Examples.tzaEast Examples.morningEast
    [SampleData.tomatoes]
  = (Ok [{| InventoryItem.item := SampleData.tomatoes;
            InventoryItem.daysLeft := Some 1;
            InventoryItem.lineValue := Num.ofString "51.2" |}],
     [SampleData.tomatoes]).
Proof. vm_compute. reflexivity. Qed.

(** In a host on UTC the same computation gives what the specification
    expects: 0 on the day of expiry, -1 the day after, and 51.2 for 8 x 6.4. *)
Lemma withDerived_on_utc (otherForms : string -> Date.t) :
  InventoryItem.withDerived otherForms 0 Examples.july25 [SampleData.tomatoes]
  = (Ok [{| InventoryItem.item := SampleData.tomatoes;
            InventoryItem.daysLeft := Some 0;
            InventoryItem.lineValue := Num.ofString "51.2" |}],
     [SampleData.tomatoes])
  /\ InventoryItem.withDerived otherForms 0 Examples.july26 [SampleData.tomatoes]
     = (Ok [{| InventoryItem.item := SampleData.tomatoes;
               InventoryItem.daysLeft := Some (-1);
               InventoryItem.lineValue := Num.ofString "51.2" |}],
        [SampleData.tomatoes]).
Proof. split; vm_compute; reflexivity. Qed.

(** C8: for every search request the scale is the raw parameter clamped to
    [0.25, 5] (10 becomes 5, 0 becomes 0.25), or 1 when the parameter is
    absent or not a finite number, and for every result whose recipe has
    valid servings, servingsScaled is max(1, round(servings * scale)): it is
    at least 1; when the product is finite it is the integer nearest to the
    product, the larger one when the product is half way between two, or 1
    if that integer is less than 1; when the product overflows it is
    +Infinity.  On the seed recipes, of 4 and 2 servings, the scale 1.3 gives
    5 and 3 servings, 0.625 gives 3 and 1, 0.3 gives 1 and 1, 2.7 gives 11
    and 5, 10 gives 20 and 10, 0 gives 1 and 1, and "abc" gives 4 and 2. *)
Theorem C8_scale_and_servings :
  (forall (qQuery qScale : option string) (s : Recipe.store),
     exists v,
       App.searchRecipe qQuery qScale s = (Ok v, s)
       /\ ((0.25 <=? App.scale v) = true /\ (App.scale v <=? 5) = true)
       /\ (let raw := App.parseFloat (App.param qScale) in
           App.scale v
           = if Num.isFinite raw
             then (if raw <? 0.25 then 0.25 else if 5 <? raw then 5 else raw)
             else 1)
       /\ (qScale = None -> App.scale v = 1)
       /\ (qScale = Some "10" -> App.scale v = 5)
       /\ (qScale = Some "0" -> App.scale v = 0.25)
       /\ (forall x, In x (App.results v) ->
             Spec.positiveNumber (Recipe.servings (App.recipe x)) = true ->
             let product := Recipe.servings (App.recipe x) * App.scale v in
             App.servingsScaled x = Num.max 1 (Num.round product)
             /\ (1 <=? App.servingsScaled x) = true
             /\ (Num.isFinite product = true ->
                 exists r : Z,
                   Spec.nearestInteger product r
                   /\ Spec.isInteger (App.servingsScaled x) (Z.max 1 r))
             /\ (Num.isFinite product = false -> App.servingsScaled x = infinity)))
  /\ (forall (scale : string) (servings : list float),
        In (scale, servings)
           [("1.3", [5; 3]); ("0.625", [3; 1]); ("0.3", [1; 1]); ("2.7", [11; 5]);
            ("10", [20; 10]); ("0", [1; 1]); ("abc", [4; 2])] ->
        exists w,
          App.searchRecipe None (Some scale) SampleData.recipes
          = (Ok w, SampleData.recipes)
          /\ map App.servingsScaled (App.results w) = servings).
Proof.
  split.
  - intros qQuery qScale s.
    eexists. split; [apply AppFacts.searchRecipe_eq|].
    cbv zeta. cbn [App.scale App.results].
    split; [apply ScaleFacts.sanitize_bounds|].
    split.
    { unfold App.sanitizeScale.
      destruct (Num.isFinite (App.parseFloat (App.param qScale))) eqn:F; [|reflexivity].
      now apply ScaleFacts.clamp_finite. }
    split; [intros ->; reflexivity|].
    split; [intros ->; vm_compute; reflexivity|].
    split; [intros ->; vm_compute; reflexivity|].
    intros x Hx Hs.
    destruct (JS.defined (App.param qQuery) || JS.defined (App.param qScale));
      [|destruct Hx].
    apply in_map_iff in Hx. destruct Hx as [r [<- _]].
    cbn [App.servingsScaled App.scaleRecipe App.recipe] in *.
    rewrite ScaleFacts.servings_or by assumption.
    split; [reflexivity|].
    destruct (ScaleFacts.sanitize_bounds (App.param qScale)) as [Lo Hi].
    exact (RoundFacts.servings_scaled _ _ Hs Lo Hi).
  - intros scale servings H. cbn [In] in H.
    repeat (destruct H as [H|H]; [injection H as <- <-; eexists; split;
                                    vm_compute; reflexivity|]).
    destruct H.
Qed.

Lemma C8_witness :
  exists v x,
    App.searchRecipe None (Some "1.3") SampleData.recipes = (Ok v, SampleData.recipes)
    /\ In x (App.results v)
    /\ Spec.positiveNumber (Recipe.servings (App.recipe x)) = true
    /\ Recipe.servings (App.recipe x) = 4
    /\ App.scale v = Num.ofString "1.3"
    /\ App.servingsScaled x = 5
    /\ (1 <=? App.servingsScaled x) = true
    /\ (exists r : Z,
          Spec.nearestInteger (Recipe.servings (App.recipe x) * App.scale v) r
          /\ Spec.isInteger (App.servingsScaled x) (Z.max 1 r))
    /\ (exists w,
          App.searchRecipe None (Some "0.625") SampleData.recipes
          = (Ok w, SampleData.recipes)
          /\ map App.servingsScaled (App.results w) = [3; 1]).
Proof.
  destruct (proj1 C8_scale_and_servings None (Some "1.3") SampleData.recipes)
    as (v & E & _ & _ & _ & _ & _ & H).
  vm_compute in E. injection E as <-.
  eexists _, _. split; [vm_compute; reflexivity|].
  split; [left; reflexivity|].
  split; [vm_compute; reflexivity|].
  split; [vm_compute; reflexivity|].
  split; [vm_compute; reflexivity|].
  split; [vm_compute; reflexivity|].
  match goal with
  | |- (1 <=? App.servingsScaled ?x) = true /\ _ =>
      destruct (H x (or_introl eq_refl) eq_refl) as (_ & G & I & _)
  end.
  split; [exact G|]. split; [exact (I eq_refl)|].
  apply (proj2 C8_scale_and_servings "0.625" [3; 1]).
  right. left. reflexivity.
Defined.

(** C9: the arrays of a constructed Recipe are copies: whatever is done
    afterwards to the arrays that existed before the construction, the
    caller's two arrays among them, the record's ingredients and
    instructions hold what the caller's arrays held when the constructor
    ran. *)
Theorem C9_constructor_copies_arrays (today : string) (a : Recipe.args)
    (s s' : Recipe.store) (r : Recipe.t) (li lt : loc) :
  Recipe.a_ingredients a = VArr li ->
  Recipe.a_instructions a = VArr lt ->
  is_Some (Recipe.arrays s !! li) ->
  is_Some (Recipe.arrays s !! lt) ->
  Recipe.new today a s = (Ok r, s') ->
  forall later : heap,
    (forall l, Recipe.arrays s !! l = None -> later !! l = Recipe.arrays s' !! l) ->
    Heap.read later (Recipe.ingredients r) = Heap.read (Recipe.arrays s) li
    /\ Heap.read later (Recipe.instructions r) = Heap.read (Recipe.arrays s) lt.
Proof.
  intros Hi Ht _ Hlt Hnew later Hlater.
  destruct (RecipeFacts2.Recipe_new_copies today a s s' r li lt Hi Ht Hlt Hnew)
    as (F1 & F2 & _ & C1 & C2 & _).
  unfold Heap.read at 1 3.
  now rewrite (Hlater _ F1), (Hlater _ F2), C1, C2.
Qed.

Lemma C9_witness :
  exists r s',
    Recipe.new Examples.today Examples.carbonaraArgs Examples.emptyStore = (Ok r, s')
    /\ Heap.read (<[1%positive := [PStr "changed"]]> (Recipe.arrays s')) (Recipe.ingredients r)
       = Heap.read (Recipe.arrays Examples.emptyStore) 1%positive
    /\ Heap.read (<[1%positive := [PStr "changed"]]> (Recipe.arrays s')) (Recipe.instructions r)
       = Heap.read (Recipe.arrays Examples.emptyStore) 2%positive.
Proof.
  eexists. eexists. split; [vm_compute; reflexivity|].
  eapply (C9_constructor_copies_arrays Examples.today Examples.carbonaraArgs
            Examples.emptyStore _ _ 1%positive 2%positive).
  - reflexivity.
  - reflexivity.
  - eexists. vm_compute. reflexivity.
  - eexists. vm_compute. reflexivity.
  - vm_compute. reflexivity.
  - intros l Hl. apply lookup_insert_ne. intros <-. vm_compute in Hl. discriminate.
Defined.

(** C10: a stored id outside the R-ddddd (I-ddddd) format counts as suffix 0
    in the next-id computation; so on a collection whose ids are all
    malformed, [add] with a valid payload succeeds and assigns "R-00001"
    ("I-00001"). *)
Theorem C10_malformed_ids (today : string) :
  (forall id, Re.testId "R" id = false -> Recipe.idNumber id = 0%N)
  /\ (forall id, Re.testId "I" id = false -> InventoryItem.idNumber id = 0%N)
  /\ (forall (p : Recipe.payload) (s : Recipe.store),
        Spec.validRecipePayload p = true -> Re.isYmd today = true ->
        Forall (fun r => Re.testId "R" (Recipe.recipeId r) = false) (Recipe.recipes s) ->
        exists r s', Recipe.add today (Some p) s = (Ok r, s')
                     /\ Recipe.recipeId r = "R-00001")
  /\ (forall (p : InventoryItem.payload) (items : list InventoryItem.t),
        Spec.validInventoryPayload today p = true ->
        Forall (fun i => Re.testId "I" (InventoryItem.inventoryId i) = false) items ->
        exists i, InventoryItem.add today (Some p) items = (Ok i, (items ++ [i])%list)
                  /\ InventoryItem.inventoryId i = "I-00001").
Proof.
  assert (HR : forall id, Re.testId "R" id = false -> Recipe.idNumber id = 0%N).
  { intros id H. unfold Recipe.idNumber. rewrite JSFacts.or_str_empty.
    unfold Re.testId in H. now destruct (Re.matchId "R" id). }
  assert (HI : forall id, Re.testId "I" id = false -> InventoryItem.idNumber id = 0%N).
  { intros id H. unfold InventoryItem.idNumber. rewrite JSFacts.or_str_empty.
    unfold Re.testId in H. now destruct (Re.matchId "I" id). }
  split; [exact HR|]. split; [exact HI|]. split.
  - intros p s Hv Hd Hall.
    assert (Hm : Spec.maxRecipeSuffix (Recipe.recipes s) = 0%N).
    { unfold Spec.maxRecipeSuffix. induction Hall as [|r rs Hr _ IH]; [reflexivity|].
      simpl. now rewrite (HR _ Hr), IH. }
    destruct (RecipeFacts2.Recipe_add_ok today p s Hv Hd) as (r & h & Ha & _ & Hid & _).
    { rewrite IdFacts.Recipe_nextNum, Hm. reflexivity. }
    exists r. eexists. split; [exact Ha|].
    now rewrite Hid, IdFacts.Recipe_nextNum, Hm.
  - intros p items Hv Hall.
    assert (Hm : Spec.maxInventorySuffix items = 0%N).
    { unfold Spec.maxInventorySuffix. induction Hall as [|i rs Hr _ IH]; [reflexivity|].
      simpl. now rewrite (HI _ Hr), IH. }
    destruct (InventoryFacts.Inventory_add_ok today p items Hv) as (i & Ha & Hid & _).
    { rewrite IdFacts.Inventory_nextNum, Hm. reflexivity. }
    exists i. split; [exact Ha|].
    now rewrite Hid, IdFacts.Inventory_nextNum, Hm.
Qed.

Lemma C10_witness :
  (exists r s',
     Recipe.add Examples.today (Some Examples.soup) Examples.oddStore = (Ok r, s')
     /\ Recipe.recipeId r = "R-00001")
  /\ (exists i,
        InventoryItem.add Examples.today (Some Examples.milkOfAiko) [Examples.oddItem]
        = (Ok i, ([Examples.oddItem] ++ [i])%list)
        /\ InventoryItem.inventoryId i = "I-00001").
Proof.
  split.
  - apply (proj1 (proj2 (proj2 (C10_malformed_ids Examples.today)))
             Examples.soup Examples.oddStore).
    + vm_compute. reflexivity.
    + vm_compute. reflexivity.
    + repeat constructor.
  - apply (proj2 (proj2 (proj2 (C10_malformed_ids Examples.today)))
             Examples.milkOfAiko [Examples.oddItem]).
    + vm_compute. reflexivity.
    + repeat constructor.
Defined.

(** * More facts: identifiers *)

Local Close Scope float_scope.

Module IdRoundTrip.
Import Str.

Lemma digitsValue_app (a : Z) (s1 s2 : string) :
  digitsValue a (s1 ++ s2) = digitsValue (digitsValue a s1) s2.
Proof. revert a. induction s1 as [|c s1 IH]; intros a; simpl; [reflexivity|]. apply IH. Qed.

Lemma digitVal_digit (d : N) : (d < 10)%N -> digitVal (ascii_of_N (48 + d)) = Z.of_N d.
Proof. intros H. unfold digitVal, code. rewrite N_ascii_embedding by lia. lia. Qed.

Lemma digitVal_range (c : ascii) : isDigit c = true -> (0 <= digitVal c <= 9)%Z.
Proof.
  unfold isDigit, digitVal. rewrite andb_true_iff, !N.leb_le. lia.
Qed.

(** The digits [digitsOf] puts before [acc] denote [n]. *)
Lemma digitsOf_value (fuel : nat) (n : N) (acc : string) :
  (n < 10 ^ N.of_nat fuel)%N ->
  exists D, digitsOf fuel n acc = D ++ acc
            /\ forall a, digitsValue a D
                         = (a * 10 ^ Z.of_nat (String.length D) + Z.of_N n)%Z.
Proof.
  revert n acc. induction fuel as [|fuel IH]; intros n acc Hn.
  - exists "". split; [reflexivity|]. intros a. simpl in *. lia.
  - simpl digitsOf.
    assert (Hd : (n mod 10 < 10)%N) by (apply N.mod_lt; lia).
    destruct (n / 10 =? 0)%N eqn:E.
    + apply N.eqb_eq in E.
      exists (String (ascii_of_N (48 + n mod 10)) ""). split; [reflexivity|].
      intros a. simpl. rewrite digitVal_digit by exact Hd.
      pose proof (N.div_mod n 10 ltac:(lia)) as DM. rewrite E in DM. lia.
    + destruct (IH (n / 10)%N (String (ascii_of_N (48 + n mod 10)) acc))
        as (D & HD & HV).
      { apply N.Div0.div_lt_upper_bound.
        replace (N.of_nat (S fuel)) with (N.succ (N.of_nat fuel)) in Hn by lia.
        now rewrite N.pow_succ_r' in Hn. }
      exists (D ++ String (ascii_of_N (48 + n mod 10)) ""). split.
      * rewrite HD, StrFacts.app_assoc. reflexivity.
      * intros a. rewrite digitsValue_app, HV. simpl.
        rewrite digitVal_digit by exact Hd.
        rewrite IdFacts.length_app. simpl String.length.
        replace (Z.of_nat (String.length D + 1)) with (Z.succ (Z.of_nat (String.length D))) by lia.
        rewrite Z.pow_succ_r by lia.
        pose proof (N.div_mod n 10 ltac:(lia)) as DM.
        set (q := (n / 10)%N) in *. set (r := (n mod 10)%N) in *.
        set (P := (10 ^ Z.of_nat (String.length D))%Z).
        rewrite DM. lia.
Qed.

Lemma ofN_fuel (n : N) : (n < 10 ^ N.of_nat (S (N.to_nat (N.log2 n))))%N.
Proof.
  replace (N.of_nat (S (N.to_nat (N.log2 n)))) with (N.succ (N.log2 n)) by lia.
  destruct (N.eq_dec n 0%N) as [->|Hn]; [reflexivity|].
  pose proof (N.log2_spec n ltac:(lia)) as [_ H].
  eapply N.lt_le_trans; [exact H|].
  apply N.pow_le_mono_l. lia.
Qed.

(** [String(n)] denotes [n]. *)
Lemma ofN_value (n : N) : digitsValue 0 (ofN n) = Z.of_N n.
Proof.
  unfold ofN. destruct (digitsOf_value _ n "" (ofN_fuel n)) as (D & HD & HV).
  rewrite HD, StrFacts.app_nil_r, HV. lia.
Qed.

Lemma ofN_digits (n : N) : all isDigit (ofN n) = true.
Proof. now apply IdFacts.digitsOf_all. Qed.

(** A string of [k] digits denotes a number below [10^k]. *)
Lemma digitsValue_bound (s : string) (a : Z) :
  all isDigit s = true -> (0 <= a)%Z ->
  (a * 10 ^ Z.of_nat (String.length s) <= digitsValue a s
   < (a + 1) * 10 ^ Z.of_nat (String.length s))%Z.
Proof.
  revert a. induction s as [|c s IH]; intros a Hs Ha.
  - simpl. lia.
  - cbn [all digitsValue String.length] in *.
    apply andb_true_iff in Hs as [Hc Hs].
    pose proof (digitVal_range c Hc) as R.
    specialize (IH (10 * a + digitVal c)%Z Hs ltac:(lia)).
    rewrite Nat2Z.inj_succ, Z.pow_succ_r by lia.
    set (P := (10 ^ Z.of_nat (String.length s))%Z) in *.
    assert (0 < P)%Z by (apply Z.pow_pos_nonneg; lia).
    nia.
Qed.

Lemma ofN_long (n : N) : (100000 <= n)%N -> (6 <= String.length (ofN n))%nat.
Proof.
  intros Hn.
  pose proof (digitsValue_bound (ofN n) 0 (ofN_digits n) ltac:(lia)) as [_ B].
  rewrite ofN_value in B.
  destruct (le_lt_dec 6 (String.length (ofN n))) as [|L]; [assumption|exfalso].
  assert (10 ^ Z.of_nat (String.length (ofN n)) <= 10 ^ 5)%Z
    by (apply Z.pow_le_mono_r; lia).
  change (10 ^ 5)%Z with 100000%Z in *. lia.
Qed.

Lemma zeros_value (k : nat) (s : string) :
  digitsValue 0 (replicate k "0" ++ s) = digitsValue 0 s.
Proof. induction k as [|k IH]; simpl; [reflexivity|exact IH]. Qed.

Lemma padded_value (n : N) : digitsValue 0 (padStart0 5 (ofN n)) = Z.of_N n.
Proof. unfold padStart0. now rewrite zeros_value, ofN_value. Qed.

Lemma matchId_padded (p : ascii) (n : N) :
  Re.matchId p (String p (String "-" (padStart0 5 (ofN n))))
  = if (n <? 100000)%N then Some (padStart0 5 (ofN n)) else None.
Proof.
  unfold Re.matchId. rewrite Ascii.eqb_refl.
  destruct (n <? 100000)%N eqn:E.
  - apply N.ltb_lt in E. destruct (IdFacts.padded_id n E) as [L A].
    now rewrite L, A.
  - apply N.ltb_ge in E. pose proof (ofN_long n E) as L.
    unfold padStart0.
    replace (5 - String.length (ofN n))%nat with 0%nat by lia. simpl replicate.
    change ("" ++ ofN n) with (ofN n).
    destruct (Nat.eqb_spec (String.length (ofN n)) 5); [lia|reflexivity].
Qed.

(** Reading back the number of a formatted id; an id of more than five
    digits is outside the format and counts as 0. *)
Lemma Recipe_idNumber_formatId (n : N) :
  Recipe.idNumber (Recipe.formatId n) = if (n <? 100000)%N then n else 0%N.
Proof.
  unfold Recipe.idNumber, Recipe.formatId. rewrite JSFacts.or_str_empty.
  change ("R-" ++ padStart0 5 (ofN n)) with (String "R" (String "-" (padStart0 5 (ofN n)))).
  rewrite matchId_padded. destruct (n <? 100000)%N; [|reflexivity].
  rewrite padded_value. lia.
Qed.

Lemma Inventory_idNumber_formatId (n : N) :
  InventoryItem.idNumber (InventoryItem.formatId n)
  = if (n <? 100000)%N then n else 0%N.
Proof.
  unfold InventoryItem.idNumber, InventoryItem.formatId. rewrite JSFacts.or_str_empty.
  change ("I-" ++ padStart0 5 (ofN n)) with (String "I" (String "-" (padStart0 5 (ofN n)))).
  rewrite matchId_padded. destruct (n <? 100000)%N; [|reflexivity].
  rewrite padded_value. lia.
Qed.

Lemma Recipe_testId_formatId (n : N) :
  Re.testId "R" (Recipe.formatId n) = (n <? 100000)%N.
Proof.
  unfold Re.testId, Recipe.formatId.
  change ("R-" ++ padStart0 5 (ofN n)) with (String "R" (String "-" (padStart0 5 (ofN n)))).
  rewrite matchId_padded. now destruct (n <? 100000)%N.
Qed.

Lemma Inventory_testId_formatId (n : N) :
  Re.testId "I" (InventoryItem.formatId n) = (n <? 100000)%N.
Proof.
  unfold Re.testId, InventoryItem.formatId.
  change ("I-" ++ padStart0 5 (ofN n)) with (String "I" (String "-" (padStart0 5 (ofN n)))).
  rewrite matchId_padded. now destruct (n <? 100000)%N.
Qed.

Lemma maxOf_ge (l : list N) (x : N) : In x l -> (x <= Spec.maxOf l)%N.
Proof.
  induction l as [|y l IH]; simpl; [tauto|]. intros [->|H]; [lia|].
  specialize (IH H). lia.
Qed.

End IdRoundTrip.

(** * More facts: what the constructors guarantee *)

Module InvariantFacts.

Lemma nonEmptyTrimmed_trim (s : string) :
  Str.isEmpty (Str.trim s) = false -> Invariants.nonEmptyTrimmed (Str.trim s) = true.
Proof.
  intros H. unfold Invariants.nonEmptyTrimmed.
  now rewrite H, StrFacts.trim_idem, String.eqb_refl.
Qed.

Lemma trimmed_trim (s : string) : Invariants.trimmed (Str.trim s) = true.
Proof. unfold Invariants.trimmed. now rewrite StrFacts.trim_idem, String.eqb_refl. Qed.

(** Where [String(v || "").trim()] is not empty, [v] is truthy, and
    [String(v)] is the same string. *)
Lemma or_empty_nonblank (v : prim) :
  Str.isEmpty (Str.trim (JS.ToString (JS.or v (PStr "")))) = false ->
  JS.or v (PStr "") = v.
Proof. unfold JS.or. destruct (JS.truthy v); [reflexivity|discriminate]. Qed.

Lemma or_empty_ymd (v : prim) :
  Spec.ymdIfPresent (JS.or v (PStr "")) = Spec.ymdIfPresent v.
Proof.
  unfold Spec.ymdIfPresent, JS.or. destruct (JS.truthy v) eqn:E; [now rewrite E|reflexivity].
Qed.

Lemma or_empty_notBefore (e p : prim) :
  Spec.notBefore (JS.or e (PStr "")) (JS.or p (PStr "")) = Spec.notBefore e p.
Proof.
  unfold Spec.notBefore, JS.or.
  destruct (JS.truthy e) eqn:E, (JS.truthy p) eqn:P; rewrite ?E, ?P; reflexivity.
Qed.

(** A record the [Recipe] constructor returns is well formed. *)
Lemma Recipe_new_ok (today : string) (a : Recipe.args) (s s' : Recipe.store) (r : Recipe.t) :
  Recipe.new today a s = (Ok r, s') -> Invariants.recipeOk r = true.
Proof.
  unfold Recipe.new, bind.
  destruct (Recipe.defaultArray (Recipe.a_ingredients a) s) as [[ing|m1] s1]; [|discriminate].
  destruct (Recipe.defaultArray (Recipe.a_instructions a) s1) as [[ins|m2] s2]; [|discriminate].
  destruct (Recipe.validate a ing ins _) as [msg|] eqn:V; [discriminate|].
  apply RecipeFacts2.Recipe_validate_None in V. unfold Checks.recipe in V.
  rewrite !andb_true_iff, !negb_true_iff in V.
  destruct V as [[[[[[[[V1 V2] V3] V4] V5] V6] _] _] V9].
  destruct (Recipe.slice ing s2) as [[l1|m3] s3]; [|discriminate].
  destruct (Recipe.slice ins s3) as [[l2|m4] s4]; [|discriminate].
  unfold ret. intros E. injection E as <- _.
  unfold Invariants.recipeOk.
  cbn [Recipe.recipeId Recipe.title Recipe.chef Recipe.mealType Recipe.cuisineType
       Recipe.prepTime Recipe.difficulty Recipe.servings Recipe.createdDate].
  rewrite V1, V4, V5, V6, V9, !trimmed_trim.
  rewrite <- (or_empty_nonblank _ V2), <- (or_empty_nonblank _ V3).
  now rewrite !nonEmptyTrimmed_trim.
Qed.

(** A record the [InventoryItem] constructor returns is well formed. *)
Lemma Inventory_new_ok (today : string) (a : InventoryItem.args)
    (s s' : list InventoryItem.t) (i : InventoryItem.t) :
  InventoryItem.new today a s = (Ok i, s') -> Invariants.itemOk i = true.
Proof.
  unfold InventoryItem.new.
  destruct (InventoryItem.validate a _ _) as [msg|] eqn:V; [discriminate|].
  apply InventoryFacts.Inventory_validate_None in V. unfold Checks.inventory in V.
  rewrite !andb_true_iff, !negb_true_iff in V.
  destruct V as [[[[[[[[[[[V1 V2] V3] V4] V5] V6] V7] V8] V9] V10] V11] V12].
  unfold InventoryItem.blank in V2, V3, V4, V5, V6.
  unfold ret. intros E. injection E as <- _.
  unfold Invariants.itemOk.
  cbn [InventoryItem.inventoryId InventoryItem.userId InventoryItem.ingredientName
       InventoryItem.unit InventoryItem.category InventoryItem.location
       InventoryItem.quantity InventoryItem.cost InventoryItem.purchaseDate
       InventoryItem.expirationDate InventoryItem.createdDate].
  rewrite V1, V7, V8, or_empty_notBefore, !or_empty_ymd, V9, V10, V12.
  unfold InventoryItem.isYmd in V11. rewrite V11.
  rewrite <- (or_empty_nonblank _ V2), <- (or_empty_nonblank _ V3),
    <- (or_empty_nonblank _ V4), <- (or_empty_nonblank _ V5),
    <- (or_empty_nonblank _ V6).
  now rewrite !nonEmptyTrimmed_trim.
Qed.

End InvariantFacts.

(** * More facts: finding and deleting by id *)

Module RepoFacts.

(** The two [deleteById] remove the first record with the given id; the
    facts are proved once, for any function with the equations of
    [removeFirst]. *)
Section RemoveFirst.
Context {A : Type} (key : A -> string).
Variable rm : string -> list A -> option (A * list A).
Hypothesis rm_eq : forall k l,
  rm k l =
  match l with
  | [] => None
  | x :: l' =>
      if (key x =? k)%string then Some (x, l')
      else match rm k l' with
           | Some (y, rest) => Some (y, x :: rest)
           | None => None
           end
  end.

Lemma rm_nil (k : string) : rm k [] = None.
Proof. now rewrite rm_eq. Qed.

Lemma rm_cons (k : string) (x : A) (l : list A) :
  rm k (x :: l) =
  if (key x =? k)%string then Some (x, l)
  else match rm k l with
       | Some (y, rest) => Some (y, x :: rest)
       | None => None
       end.
Proof. now rewrite rm_eq at 1. Qed.

Lemma rm_absent (k : string) (l : list A) :
  Forall (fun x => key x <> k) l -> rm k l = None.
Proof.
  induction 1 as [|x l Hx _ IH]; [apply rm_nil|].
  rewrite rm_cons, IH. apply String.eqb_neq in Hx. now rewrite Hx.
Qed.

Lemma rm_first (k : string) (l1 l2 : list A) (x : A) :
  Forall (fun y => key y <> k) l1 -> key x = k ->
  rm k (l1 ++ x :: l2) = Some (x, (l1 ++ l2)%list).
Proof.
  intros H Hx. induction H as [|y l1 Hy _ IH]; simpl.
  - rewrite rm_cons. apply String.eqb_eq in Hx. now rewrite Hx.
  - rewrite rm_cons, IH. apply String.eqb_neq in Hy. now rewrite Hy.
Qed.

Lemma rm_none_inv (k : string) (l : list A) :
  rm k l = None -> Forall (fun x => key x <> k) l.
Proof.
  induction l as [|x l IH]; [constructor|].
  rewrite rm_cons. destruct (String.eqb_spec (key x) k) as [|Hx]; [discriminate|].
  destruct (rm k l) as [[y rest]|]; [discriminate|].
  intros _. constructor; [exact Hx | now apply IH].
Qed.

Lemma rm_some_inv (k : string) (l : list A) (x : A) (rest : list A) :
  rm k l = Some (x, rest) ->
  exists l1 l2, l = (l1 ++ x :: l2)%list /\ rest = (l1 ++ l2)%list
                /\ key x = k /\ Forall (fun y => key y <> k) l1.
Proof.
  revert rest. induction l as [|y l IH]; intros rest.
  - now rewrite rm_nil.
  - rewrite rm_cons. destruct (String.eqb_spec (key y) k) as [Hy|Hy].
    + intros E. injection E as <- <-. now exists [], l.
    + destruct (rm k l) as [[z rest']|]; [|discriminate].
      intros E. injection E as <- <-.
      destruct (IH rest' eq_refl) as (l1 & l2 & -> & -> & Hk & Hl1).
      exists (y :: l1), l2. repeat split; try assumption. now constructor.
Qed.

Lemma find_absent (k : string) (l : list A) :
  Forall (fun x => key x <> k) l ->
  find (fun x => (key x =? k)%string) l = None.
Proof.
  induction 1 as [|x l Hx _ IH]; [reflexivity|]. simpl.
  apply String.eqb_neq in Hx. now rewrite Hx.
Qed.

Lemma find_first (k : string) (l1 l2 : list A) (x : A) :
  Forall (fun y => key y <> k) l1 -> key x = k ->
  find (fun y => (key y =? k)%string) (l1 ++ x :: l2) = Some x.
Proof.
  intros H Hx. induction H as [|y l1 Hy _ IH]; simpl.
  - apply String.eqb_eq in Hx. now rewrite Hx.
  - apply String.eqb_neq in Hy. now rewrite Hy.
Qed.

Lemma find_none_inv (k : string) (l : list A) :
  find (fun x => (key x =? k)%string) l = None -> Forall (fun x => key x <> k) l.
Proof.
  induction l as [|x l IH]; [constructor|]. simpl.
  destruct (String.eqb_spec (key x) k) as [|Hx]; [discriminate|].
  intros H. constructor; [exact Hx | now apply IH].
Qed.

Lemma find_some_inv (k : string) (l : list A) (x : A) :
  find (fun y => (key y =? k)%string) l = Some x ->
  exists l1 l2, l = (l1 ++ x :: l2)%list /\ key x = k
                /\ Forall (fun y => key y <> k) l1.
Proof.
  induction l as [|y l IH]; [discriminate|]. simpl.
  destruct (String.eqb_spec (key y) k) as [Hy|Hy].
  - intros E. injection E as <-. now exists [], l.
  - intros E. destruct (IH E) as (l1 & l2 & -> & Hk & Hl1).
    exists (y :: l1), l2. repeat split; try assumption. now constructor.
Qed.

(** Looking up another id is not affected by a removal. *)
Lemma find_other (k k' : string) (l1 l2 : list A) (x : A) :
  key x = k -> k' <> k ->
  find (fun y => (key y =? k')%string) (l1 ++ l2)
  = find (fun y => (key y =? k')%string) (l1 ++ x :: l2).
Proof.
  intros Hx Hk. induction l1 as [|y l1 IH]; simpl.
  - destruct (String.eqb_spec (key x) k'); [congruence|reflexivity].
  - now rewrite IH.
Qed.

(** With distinct ids, the removed id is gone. *)
Lemma nodup_absent (k : string) (l1 l2 : list A) (x : A) :
  List.NoDup (map key (l1 ++ x :: l2)) -> key x = k ->
  Forall (fun y => key y <> k) (l1 ++ l2).
Proof.
  intros ND Hx. rewrite map_app in ND. simpl in ND.
  apply NoDup_remove_2 in ND. rewrite <- map_app in ND.
  apply List.Forall_forall. intros y Hy E. apply ND.
  rewrite Hx, <- E. now apply in_map.
Qed.

End RemoveFirst.

Lemma Recipe_rm_eq (k : string) (l : list Recipe.t) :
  Recipe.removeFirst k l =
  match l with
  | [] => None
  | x :: l' =>
      if (Recipe.recipeId x =? k)%string then Some (x, l')
      else match Recipe.removeFirst k l' with
           | Some (y, rest) => Some (y, x :: rest)
           | None => None
           end
  end.
Proof. destruct l; reflexivity. Qed.

Lemma Inventory_rm_eq (k : string) (l : list InventoryItem.t) :
  InventoryItem.removeFirst k l =
  match l with
  | [] => None
  | x :: l' =>
      if (InventoryItem.inventoryId x =? k)%string then Some (x, l')
      else match InventoryItem.removeFirst k l' with
           | Some (y, rest) => Some (y, x :: rest)
           | None => None
           end
  end.
Proof. destruct l; reflexivity. Qed.


(** What [add] returns was made by the constructor. *)
Lemma Recipe_add_wellformed (today : string) (po : option Recipe.payload)
    (s s' : Recipe.store) (r : Recipe.t) :
  Recipe.add today po s = (Ok r, s') -> Invariants.recipeOk r = true.
Proof.
  destruct po as [p|]; [|now rewrite RecipeFacts2.Recipe_add_missing].
  rewrite RecipeFacts.Recipe_add_eq.
  destruct (Str.isEmpty _); [discriminate|].
  destruct (Str.isEmpty _); [discriminate|].
  destruct (Checks.parsed p s) as [[l1 l2] h2].
  destruct (Recipe.new _ _ _) as [[r0|msg] s0] eqn:N; [|discriminate].
  intros E. injection E as <- _. eapply InvariantFacts.Recipe_new_ok, N.
Qed.

Lemma Inventory_add_missing (today : string) (items : list InventoryItem.t) :
  InventoryItem.add today None items
  = (Throw "ingredientName (or name) is required", items).
Proof. reflexivity. Qed.

Lemma Inventory_add_wellformed (today : string) (po : option InventoryItem.payload)
    (items items' : list InventoryItem.t) (i : InventoryItem.t) :
  InventoryItem.add today po items = (Ok i, items') -> Invariants.itemOk i = true.
Proof.
  destruct po as [p|]; [|now rewrite Inventory_add_missing].
  unfold InventoryItem.add. change (default InventoryItem.emptyPayload (Some p)) with p.
  cbv zeta.
  destruct (Str.isEmpty _); [discriminate|].
  destruct (Str.isEmpty _); [discriminate|].
  unfold bind at 1. unfold gets at 1. unfold bind at 1.
  destruct (InventoryItem.new _ _ _) as [[i0|msg] s0] eqn:N; [|discriminate].
  unfold bind, InventoryItem.push, modify, ret.
  intros E. injection E as <- _. eapply InvariantFacts.Inventory_new_ok, N.
Qed.

(** After a successful [add], the number of the new id is the old
    maximum plus one, and it fits five digits. *)
Lemma Recipe_add_id (today : string) (po : option Recipe.payload)
    (s s' : Recipe.store) (r : Recipe.t) :
  Recipe.add today po s = (Ok r, s') ->
  Recipe.recipes s' = (Recipe.recipes s ++ [r])%list
  /\ Recipe.recipeId r = Recipe.formatId (Spec.maxRecipeSuffix (Recipe.recipes s) + 1)
  /\ (Spec.maxRecipeSuffix (Recipe.recipes s) + 1 < 100000)%N.
Proof.
  intros H. pose proof (Recipe_add_wellformed _ _ _ _ _ H) as W.
  destruct po as [p|]; [|now rewrite RecipeFacts2.Recipe_add_missing in H].
  pose proof (RecipeFacts2.Recipe_add_outcome today p s) as O. rewrite H in O.
  destruct O as (O1 & _ & _ & O4 & _).
  rewrite IdFacts.Recipe_nextNum in O4.
  repeat split; try assumption.
  unfold Invariants.recipeOk in W. rewrite !andb_true_iff in W.
  destruct W as [[[[[[[[W _] _] _] _] _] _] _] _].
  rewrite O4, IdRoundTrip.Recipe_testId_formatId in W. now apply N.ltb_lt.
Qed.

Lemma Inventory_add_id (today : string) (po : option InventoryItem.payload)
    (items items' : list InventoryItem.t) (i : InventoryItem.t) :
  InventoryItem.add today po items = (Ok i, items') ->
  items' = (items ++ [i])%list
  /\ InventoryItem.inventoryId i
     = InventoryItem.formatId (Spec.maxInventorySuffix items + 1)
  /\ (Spec.maxInventorySuffix items + 1 < 100000)%N.
Proof.
  intros H. pose proof (Inventory_add_wellformed _ _ _ _ _ H) as W.
  destruct po as [p|]; [|now rewrite Inventory_add_missing in H].
  pose proof (InventoryFacts.Inventory_add_outcome today p items) as O. rewrite H in O.
  destruct O as (O1 & _ & O3 & _).
  rewrite IdFacts.Inventory_nextNum in O3.
  repeat split; try assumption.
  unfold Invariants.itemOk in W. rewrite !andb_true_iff in W.
  destruct W as [[[[[[[[[[[W _] _] _] _] _] _] _] _] _] _] _].
  rewrite O3, IdRoundTrip.Inventory_testId_formatId in W. now apply N.ltb_lt.
Qed.

(** No stored record has the id that [add] gives the new one. *)
Lemma Recipe_fresh (rs : list Recipe.t) :
  (Spec.maxRecipeSuffix rs + 1 < 100000)%N ->
  Forall (fun r0 => Recipe.recipeId r0
                    <> Recipe.formatId (Spec.maxRecipeSuffix rs + 1)) rs.
Proof.
  intros Hn. apply List.Forall_forall. intros r0 Hin E.
  assert (B : (Recipe.idNumber (Recipe.recipeId r0) <= Spec.maxRecipeSuffix rs)%N).
  { apply IdRoundTrip.maxOf_ge.
    now apply (in_map (fun r => Recipe.idNumber (Recipe.recipeId r))). }
  rewrite E, IdRoundTrip.Recipe_idNumber_formatId in B.
  apply N.ltb_lt in Hn. rewrite Hn in B. lia.
Qed.

Lemma Inventory_fresh (items : list InventoryItem.t) :
  (Spec.maxInventorySuffix items + 1 < 100000)%N ->
  Forall (fun i0 => InventoryItem.inventoryId i0
                    <> InventoryItem.formatId (Spec.maxInventorySuffix items + 1)) items.
Proof.
  intros Hn. apply List.Forall_forall. intros i0 Hin E.
  assert (B : (InventoryItem.idNumber (InventoryItem.inventoryId i0)
               <= Spec.maxInventorySuffix items)%N).
  { apply IdRoundTrip.maxOf_ge.
    now apply (in_map (fun i => InventoryItem.idNumber (InventoryItem.inventoryId i))). }
  rewrite E, IdRoundTrip.Inventory_idNumber_formatId in B.
  apply N.ltb_lt in Hn. rewrite Hn in B. lia.
Qed.

Lemma nodup_snoc {A : Type} (key : A -> string) (l : list A) (x : A) :
  Forall (fun y => key y <> key x) l -> List.NoDup (map key l) ->
  List.NoDup (map key (l ++ [x])).
Proof.
  intros F ND. induction l as [|y l IH]; simpl.
  - constructor; [intros []|constructor].
  - inversion F as [|? ? Hy F']; inversion ND as [|? ? Hn ND']; subst.
    constructor; [|now apply IH].
    rewrite List.map_app, in_app_iff. simpl. intros [H|[H|[]]]; [contradiction|congruence].
Qed.

Lemma alloc_lookup (xs : list prim) (h : heap) :
  snd (Heap.alloc xs h) !! fst (Heap.alloc xs h) = Some xs.
Proof. unfold Heap.alloc; simpl. apply lookup_insert_eq. Qed.

Lemma lookup_none_weaken (h h' : heap) (l : loc) :
  h ⊆ h' -> h' !! l = None -> h !! l = None.
Proof.
  intros S N. destruct (h !! l) as [x|] eqn:E; [|reflexivity].
  apply (lookup_weaken _ _ _ _ E) in S. congruence.
Qed.

(** The two arrays of the record [Recipe.add] returns are new, and hold
    the entries [parseList] read from the payload. *)
Lemma Recipe_add_lists (today : string) (p : Recipe.payload)
    (s s' : Recipe.store) (r : Recipe.t) :
  Recipe.add today (Some p) s = (Ok r, s') ->
  Recipe.arrays s' !! Recipe.ingredients r
  = Some (map PStr (Recipe.parseItems (Recipe.p_ingredients p)))
  /\ Recipe.arrays s' !! Recipe.instructions r
     = Some (map PStr (Recipe.parseItems (Recipe.p_instructions p)))
  /\ Recipe.arrays s !! Recipe.ingredients r = None
  /\ Recipe.arrays s !! Recipe.instructions r = None
  /\ Recipe.ingredients r <> Recipe.instructions r.
Proof.
  rewrite RecipeFacts.Recipe_add_eq.
  destruct (Str.isEmpty _); [discriminate|].
  destruct (Str.isEmpty _); [discriminate|].
  unfold Checks.parsed.
  pose proof (HeapFacts.alloc_subseteq
                (map PStr (Recipe.parseItems (Recipe.p_ingredients p))) (Recipe.arrays s)) as S1.
  pose proof (alloc_lookup
                (map PStr (Recipe.parseItems (Recipe.p_ingredients p))) (Recipe.arrays s)) as R1.
  destruct (Heap.alloc _ (Recipe.arrays s)) as [l1 h1]. cbn [fst snd] in S1, R1.
  pose proof (HeapFacts.alloc_subseteq
                (map PStr (Recipe.parseItems (Recipe.p_instructions p))) h1) as S2.
  pose proof (alloc_lookup
                (map PStr (Recipe.parseItems (Recipe.p_instructions p))) h1) as R2.
  destruct (Heap.alloc _ h1) as [l2 h2]. cbn [fst snd] in S2, R2.
  destruct (Recipe.new _ _ _) as [[r0|msg] s0] eqn:N; [|discriminate].
  intros E. injection E as <- <-.
  assert (I2 : is_Some (Recipe.arrays (Recipe.mkStore h2 (Recipe.recipes s)) !! l2))
    by (cbn [Recipe.arrays]; eauto).
  destruct (RecipeFacts2.Recipe_new_copies today
              (Recipe.newRecipe today (Recipe.nextNum (Recipe.recipes s)) p l1 l2)
              _ _ _ l1 l2 eq_refl eq_refl I2 N)
    as (C1 & C2 & C3 & C4 & C5 & _).
  cbn [Recipe.arrays] in *.
  pose proof (lookup_weaken _ _ _ _ R1 S2) as R1'.
  unfold Heap.read in C4, C5. rewrite R1' in C4. rewrite R2 in C5. simpl in C4, C5.
  repeat split; try assumption.
  - eapply lookup_none_weaken; [|exact C1]. etrans; eassumption.
  - eapply lookup_none_weaken; [|exact C2]. etrans; eassumption.
Qed.

Lemma or_or_empty (v : prim) (t : string) :
  JS.or (JS.or v (PStr t)) (PStr "") = JS.or v (PStr t).
Proof.
  unfold JS.or. destruct (JS.truthy v) eqn:E; [now rewrite E|].
  now destruct t.
Qed.

(** The fields of the record a successful [Recipe.add] returns. *)
Lemma Recipe_add_fields (today : string) (p : Recipe.payload)
    (s s' : Recipe.store) (r : Recipe.t) :
  Recipe.add today (Some p) s = (Ok r, s') ->
  Recipe.title r = Str.trim (JS.ToString (Recipe.p_title p))
  /\ Recipe.chef r = Str.trim (JS.ToString (Recipe.p_chef p))
  /\ Recipe.mealType r = Str.trim (JS.ToString (JS.or (Recipe.p_mealType p) (PStr "")))
  /\ Recipe.cuisineType r
     = Str.trim (JS.ToString (JS.or (Recipe.p_cuisineType p) (PStr "")))
  /\ Recipe.prepTime r = JS.ToNumber (Recipe.p_prepTime p)
  /\ Recipe.difficulty r = Str.trim (JS.ToString (Recipe.p_difficulty p))
  /\ Recipe.servings r = JS.ToNumber (Recipe.p_servings p)
  /\ Recipe.createdDate r = today.
Proof.
  rewrite RecipeFacts.Recipe_add_eq.
  destruct (Str.isEmpty _) eqn:T; [discriminate|].
  destruct (Str.isEmpty (Str.trim (JS.ToString (JS.or (Recipe.p_chef p) _)))) eqn:C;
    [discriminate|].
  destruct (Checks.parsed p s) as [[l1 l2] h2].
  rewrite (RecipeFacts.Recipe_new_arrays today _ _ l1 l2) by reflexivity.
  destruct (Recipe.validate _ _ _ _) eqn:V; [discriminate|].
  apply RecipeFacts2.Recipe_validate_None in V.
  cbn [Recipe.newRecipe Recipe.a_createdDate Recipe.defaultPrim] in V.
  fold (Recipe.newRecipe today (Recipe.nextNum (Recipe.recipes s)) p l1 l2) in V.
  rewrite RecipeFacts2.checks_newRecipe, !andb_true_iff in V.
  destruct V as [[_ V] _]. unfold Spec.validRecipePayload in V.
  rewrite !andb_true_iff in V. destruct V as [[[_ _] D] _].
  cbn [Recipe.arrays Recipe.recipes].
  destruct (Heap.alloc _ h2) as [l3 h3]. destruct (Heap.alloc _ h3) as [l4 h4].
  intros E. injection E as <- _.
  cbn [Recipe.title Recipe.chef Recipe.mealType Recipe.cuisineType Recipe.prepTime
       Recipe.difficulty Recipe.servings Recipe.createdDate Recipe.newRecipe
       Recipe.a_title Recipe.a_chef Recipe.a_mealType Recipe.a_cuisineType
       Recipe.a_prepTime Recipe.a_difficulty Recipe.a_servings Recipe.a_createdDate
       Recipe.defaultPrim JS.ToString JS.ToNumber].
  rewrite !JSFacts.or_str_empty, !StrFacts.trim_idem.
  rewrite (InvariantFacts.or_empty_nonblank _ T), (InvariantFacts.or_empty_nonblank _ C).
  assert (Dn : Str.isEmpty (Str.trim (JS.ToString (JS.or (Recipe.p_difficulty p) (PStr ""))))
               = false).
  { destruct (Str.trim (JS.ToString (JS.or (Recipe.p_difficulty p) (PStr ""))));
      [discriminate D|reflexivity]. }
  rewrite (InvariantFacts.or_empty_nonblank _ Dn). now repeat split.
Qed.

(** The fields of the item a successful [InventoryItem.add] returns. *)
Lemma Inventory_add_fields (today : string) (p : InventoryItem.payload)
    (items items' : list InventoryItem.t) (i : InventoryItem.t) :
  InventoryItem.add today (Some p) items = (Ok i, items') ->
  InventoryItem.userId i = Str.trim (JS.ToString (InventoryItem.p_userId p))
  /\ InventoryItem.ingredientName i
     = Str.trim (JS.ToString (JS.or (InventoryItem.p_ingredientName p)
                                (InventoryItem.p_name p)))
  /\ InventoryItem.quantity i = JS.ToNumber (InventoryItem.p_quantity p)
  /\ InventoryItem.unit i = Str.trim (JS.ToString (InventoryItem.p_unit p))
  /\ InventoryItem.category i = Str.trim (JS.ToString (InventoryItem.p_category p))
  /\ InventoryItem.location i
     = Str.trim (JS.ToString (JS.or (InventoryItem.p_location p) (PStr "Unknown")))
  /\ InventoryItem.cost i
     = JS.ToNumber (JS.coalesce (JS.coalesce (InventoryItem.p_cost p)
                                   (InventoryItem.p_pricePerUnit p)) (PNum zero))
  /\ InventoryItem.purchaseDate i = JS.or (InventoryItem.p_purchaseDate p) (PStr today)
  /\ InventoryItem.expirationDate i
     = PStr (JS.ToString (JS.or (JS.or (InventoryItem.p_expirationDate p)
                                   (InventoryItem.p_expiry p)) (PStr "")))
  /\ InventoryItem.createdDate i
     = JS.ToString (JS.or (InventoryItem.p_createdDate p) (PStr today)).
Proof.
  rewrite InventoryFacts.Inventory_add_eq.
  destruct (Str.isEmpty _) eqn:N; [discriminate|].
  destruct (Str.isEmpty (Str.trim (JS.ToString (JS.or (InventoryItem.p_userId p) _))))
    eqn:U; [discriminate|].
  cbv zeta. destruct (InventoryItem.validate _ _ _) eqn:V; [discriminate|].
  apply InventoryFacts.Inventory_validate_None in V.
  rewrite InventoryFacts.checks_newItemRaw, andb_true_iff in V. destruct V as [_ V].
  unfold Spec.validInventoryPayload, Spec.nonBlank in V.
  rewrite !andb_true_iff, !negb_true_iff in V.
  destruct V as [[[[[[[[[[_ _] _] Vu] Vc] _] _] _] _] _] _].
  intros E. injection E as <- _.
  cbn [InventoryItem.userId InventoryItem.ingredientName InventoryItem.quantity
       InventoryItem.unit InventoryItem.category InventoryItem.location
       InventoryItem.cost InventoryItem.purchaseDate InventoryItem.expirationDate
       InventoryItem.createdDate InventoryItem.newItemRaw
       InventoryItem.a_userId InventoryItem.a_ingredientName InventoryItem.a_quantity
       InventoryItem.a_unit InventoryItem.a_category InventoryItem.a_location
       InventoryItem.a_cost InventoryItem.a_purchaseDate InventoryItem.a_expirationDate
       InventoryItem.a_createdDate InventoryItem.defaultPrim JS.ToString JS.ToNumber].
  rewrite !StrFacts.trim_idem, or_or_empty.
  rewrite (InvariantFacts.or_empty_nonblank _ U), (InvariantFacts.or_empty_nonblank _ Vu),
    (InvariantFacts.or_empty_nonblank _ Vc).
  assert (E1 : JS.ToString (JS.or (JS.or (InventoryItem.p_ingredientName p)
                                     (InventoryItem.p_name p)) (PStr ""))
               = JS.ToString (JS.or (InventoryItem.p_ingredientName p)
                                (InventoryItem.p_name p))).
  { now rewrite (InvariantFacts.or_empty_nonblank _ N). }
  assert (O : forall x, JS.or (PStr x) (PStr "") = PStr x) by (intros []; reflexivity).
  rewrite E1, O. now repeat split.
Qed.

End RepoFacts.

(** * More facts: [parseList] *)

Module ParseFacts.
Import Str.

Lemma any_app (p : ascii -> bool) (a b : string) :
  any p (a ++ b) = any p a || any p b.
Proof. induction a as [|c a IH]; simpl; [reflexivity|]. now rewrite IH, orb_assoc. Qed.

Lemma any_rev (p : ascii -> bool) (s : string) : any p (rev s) = any p s.
Proof.
  induction s as [|c s IH]; simpl; [reflexivity|].
  rewrite any_app, IH. simpl. rewrite orb_false_r. apply orb_comm.
Qed.

Lemma any_trimStart (p : ascii -> bool) (s : string) :
  any p s = false -> any p (trimStart s) = false.
Proof.
  induction s as [|c s IH]; simpl; [reflexivity|].
  intros H. apply orb_false_iff in H as [Hc Hs].
  destruct (isSpace c); [now apply IH|]. simpl. now rewrite Hc, Hs.
Qed.

Lemma any_trim (p : ascii -> bool) (s : string) :
  any p s = false -> any p (trim s) = false.
Proof.
  intros H. unfold trim, trimEnd. rewrite any_rev. apply any_trimStart.
  rewrite any_rev. now apply any_trimStart.
Qed.

(** The equations of [splitFrom]. *)
Lemma splitFrom_cons (cur : string) (c : ascii) (s : string) :
  Re.splitFrom cur (String c s) =
  if Invariants.isSeparator c then rev cur :: Re.splitFrom "" s
  else if (code c =? 13)%N
          && match s with String c' _ => (code c' =? 10)%N | EmptyString => false end
  then rev cur :: Re.splitFrom "" (Num.drop 1 s)
  else Re.splitFrom (String c cur) s.
Proof.
  unfold Invariants.isSeparator. simpl Re.splitFrom.
  destruct ((c =? ",")%char || (code c =? 10)%N); [reflexivity|].
  destruct s as [|c' s']; [now rewrite andb_false_r|reflexivity].
Qed.

(** No piece of a split holds a comma or a line feed. *)
Lemma splitFrom_clean (n : nat) (s cur : string) :
  (String.length s <= n)%nat -> any Invariants.isSeparator cur = false ->
  Forall (fun y => any Invariants.isSeparator y = false) (Re.splitFrom cur s).
Proof.
  revert s cur. induction n as [|n IH]; intros s cur L Hc.
  - destruct s; [|simpl in L; lia]. simpl. constructor; [now rewrite any_rev|constructor].
  - destruct s as [|c s]; [simpl; constructor; [now rewrite any_rev|constructor]|].
    simpl in L. rewrite splitFrom_cons.
    destruct (Invariants.isSeparator c) eqn:Ec.
    + constructor; [now rewrite any_rev|]. apply IH; [lia|reflexivity].
    + destruct (_ && _).
      * constructor; [now rewrite any_rev|]. apply IH; [|reflexivity].
        destruct s; simpl in *; lia.
      * apply IH; [lia|]. simpl. now rewrite Ec, Hc.
Qed.

(** Every entry [parseList] returns is clean. *)
Lemma parseItems_clean (str : prim) (x : string) :
  In x (Recipe.parseItems str) -> Invariants.cleanEntry x = true.
Proof.
  unfold Recipe.parseItems. rewrite filter_In, in_map_iff, negb_true_iff.
  intros [(y & <- & Hy) Hne].
  unfold Invariants.cleanEntry.
  rewrite (InvariantFacts.nonEmptyTrimmed_trim _ Hne). simpl.
  apply negb_true_iff, any_trim.
  pose proof (splitFrom_clean _ (JS.ToString (JS.or str (PStr ""))) ""
                (Nat.le_refl _) eq_refl) as F.
  rewrite List.Forall_forall in F. exact (F y Hy).
Qed.

Lemma parseItems_falsy (str : prim) :
  JS.truthy str = false -> Recipe.parseItems str = [].
Proof. intros H. unfold Recipe.parseItems, JS.or. now rewrite H. Qed.

Lemma isEmpty_app (a b : string) : isEmpty (a ++ b) = isEmpty a && isEmpty b.
Proof. now destruct a. Qed.

Lemma isEmpty_rev (s : string) : isEmpty (rev s) = isEmpty s.
Proof. destruct s as [|c s]; [reflexivity|]. simpl. rewrite isEmpty_app. simpl. apply andb_false_r. Qed.

Lemma headOk_app (a b : string) : isEmpty a = false -> headOk (a ++ b) = headOk a.
Proof. now destruct a. Qed.

(** What a clean entry is made of. *)
Lemma clean_parts (x : string) :
  Invariants.cleanEntry x = true ->
  isEmpty x = false /\ trim x = x /\ any Invariants.isSeparator x = false
  /\ headOk x = true /\ headOk (rev x) = true.
Proof.
  unfold Invariants.cleanEntry, Invariants.nonEmptyTrimmed.
  rewrite !andb_true_iff, !negb_true_iff, String.eqb_eq.
  intros [[H1 H2] H3]. repeat split; try assumption.
  - rewrite <- H2. apply StrFacts.trimEnd_headOk, StrFacts.trimStart_headOk.
  - rewrite <- H2. unfold trim, trimEnd. rewrite StrFacts.rev_involutive.
    apply StrFacts.trimStart_headOk.
Qed.

Lemma trim_padded (pre x : string) :
  all isSpace pre = true -> Invariants.cleanEntry x = true -> trim (pre ++ x) = x.
Proof.
  intros Hp Hx. destruct (clean_parts x Hx) as (_ & T & _ & H & _).
  unfold trim. rewrite (LineFacts.trimStart_spaces pre x Hp H).
  unfold trim in T. now rewrite (StrFacts.trimStart_id x H) in T.
Qed.

(** A piece that is followed by a separator. *)
Lemma splitFrom_piece (y cur d rest : string) :
  isEmpty y = false -> any Invariants.isSeparator y = false ->
  headOk (rev y) = true ->
  In d [","; String "010" ""; String "013" (String "010" "")] ->
  Re.splitFrom cur (y ++ d ++ rest) = (rev cur ++ y) :: Re.splitFrom "" rest.
Proof.
  intros Hne Hs He Hd. revert cur.
  induction y as [|c y IH]; [discriminate|]. intros cur.
  simpl in Hs. apply orb_false_iff in Hs as [Hc Hs].
  change (String c y ++ d ++ rest) with (String c (y ++ d ++ rest)).
  rewrite splitFrom_cons, Hc.
  destruct y as [|c2 y].
  - simpl in He. apply negb_true_iff in He.
    assert (N13 : (code c =? 13)%N = false).
    { destruct (code c =? 13)%N eqn:E; [|reflexivity].
      apply N.eqb_eq in E. unfold isSpace in He. rewrite E in He. discriminate. }
    rewrite N13. cbn [andb]. change ("" ++ d ++ rest) with (d ++ rest).
    change (rev cur ++ String c "") with (rev (String c cur)).
    destruct Hd as [<-|[<-|[<-|[]]]]; reflexivity.
  - assert (N10 : (code c2 =? 10)%N = false).
    { simpl in Hs. apply orb_false_iff in Hs as [Hs _].
      unfold Invariants.isSeparator in Hs. now apply orb_false_iff in Hs as [_ Hs]. }
    change (String c2 y ++ d ++ rest) with (String c2 (y ++ d ++ rest)).
    cbv iota. rewrite N10, andb_false_r.
    change (String c2 (y ++ d ++ rest)) with (String c2 y ++ d ++ rest).
    rewrite IH; [|reflexivity|exact Hs|].
    + simpl rev. now rewrite StrFacts.app_assoc.
    + change (rev (String c (String c2 y))) with (rev (String c2 y) ++ String c "") in He.
      rewrite headOk_app in He; [exact He|]. now rewrite isEmpty_rev.
Qed.

(** The last piece. *)
Lemma splitFrom_last (y cur : string) :
  any Invariants.isSeparator y = false -> Re.splitFrom cur y = [rev cur ++ y].
Proof.
  revert cur. induction y as [|c y IH]; intros cur Hs.
  - simpl. now rewrite StrFacts.app_nil_r.
  - simpl in Hs. apply orb_false_iff in Hs as [Hc Hs].
    rewrite splitFrom_cons, Hc.
    assert (E : (code c =? 13)%N
                && match y with String c' _ => (code c' =? 10)%N | EmptyString => false end
                = false).
    { destruct y as [|c2 y]; [apply andb_false_r|].
      simpl in Hs. apply orb_false_iff in Hs as [Hs _].
      unfold Invariants.isSeparator in Hs. apply orb_false_iff in Hs as [_ Hs].
      rewrite Hs. apply andb_false_r. }
    rewrite E, IH by exact Hs. simpl rev. now rewrite StrFacts.app_assoc.
Qed.

Lemma blank_parts (ws : string) :
  all (fun c => isSpace c && negb (Invariants.isSeparator c)) ws = true ->
  all isSpace ws = true /\ any Invariants.isSeparator ws = false.
Proof.
  induction ws as [|c ws IH]; simpl; [now split|].
  rewrite !andb_true_iff, negb_true_iff. intros [[H1 H2] H3].
  destruct (IH H3) as [A B]. now rewrite H1, H2, A, B.
Qed.

(** The pieces of a joined list, after trimming. *)
Lemma split_concat (d ws : string) (xs : list string) (x pre : string) :
  In d [","; String "010" ""; String "013" (String "010" "")] ->
  all (fun c => isSpace c && negb (Invariants.isSeparator c)) ws = true ->
  all (fun c => isSpace c && negb (Invariants.isSeparator c)) pre = true ->
  Forall (fun x => Invariants.cleanEntry x = true) (x :: xs) ->
  map trim (Re.splitFrom "" (pre ++ String.concat (d ++ ws) (x :: xs))) = x :: xs.
Proof.
  intros Hd Hws. revert x pre. induction xs as [|x2 xs IH]; intros x pre Hpre F.
  - inversion F as [|? ? Hx _]; subst. destruct (clean_parts x Hx) as (_ & _ & S & _).
    destruct (blank_parts pre Hpre) as [P1 P2].
    simpl String.concat. rewrite splitFrom_last by (now rewrite any_app, P2, S).
    simpl. now rewrite trim_padded.
  - inversion F as [|? ? Hx F']; subst.
    destruct (clean_parts x Hx) as (N & _ & S & _ & E).
    destruct (blank_parts pre Hpre) as [P1 P2].
    change (String.concat (d ++ ws) (x :: x2 :: xs))
      with (x ++ (d ++ ws) ++ String.concat (d ++ ws) (x2 :: xs)).
    replace (pre ++ x ++ (d ++ ws) ++ String.concat (d ++ ws) (x2 :: xs))
      with ((pre ++ x) ++ d ++ (ws ++ String.concat (d ++ ws) (x2 :: xs)))
      by now rewrite !StrFacts.app_assoc.
    rewrite splitFrom_piece; try assumption.
    + cbn [map]. rewrite IH by assumption. simpl rev. cbn [String.append].
      now rewrite trim_padded.
    + rewrite isEmpty_app, N. apply andb_false_r.
    + now rewrite any_app, P2, S.
    + rewrite StrFacts.rev_app, headOk_app; [exact E|]. now rewrite isEmpty_rev.
Qed.

Lemma filter_nonempty (xs : list string) :
  Forall (fun x => Invariants.cleanEntry x = true) xs ->
  List.filter (fun s => negb (isEmpty s)) xs = xs.
Proof.
  induction 1 as [|x xs Hx _ IH]; [reflexivity|]. simpl.
  destruct (clean_parts x Hx) as (N & _). now rewrite N, IH.
Qed.

(** [parseList] gives back the entries of a joined list. *)
Lemma parseItems_concat (d ws : string) (xs : list string) :
  In d [","; String "010" ""; String "013" (String "010" "")] ->
  all (fun c => isSpace c && negb (Invariants.isSeparator c)) ws = true ->
  Forall (fun x => Invariants.cleanEntry x = true) xs ->
  Recipe.parseItems (PStr (String.concat (d ++ ws) xs)) = xs.
Proof.
  intros Hd Hws F. unfold Recipe.parseItems. rewrite JSFacts.or_str_empty.
  destruct xs as [|x xs]; [reflexivity|].
  unfold Re.split.
  change (String.concat (d ++ ws) (x :: xs)) with ("" ++ String.concat (d ++ ws) (x :: xs)).
  rewrite (split_concat d ws xs x "" Hd Hws eq_refl F).
  now apply filter_nonempty.
Qed.

End ParseFacts.

(** * More facts: the store of the [Recipe] class *)

Module StoreFacts.

Lemma defaultArray_grows (v : value) (s : Recipe.store) :
  exists v' s',
    Recipe.defaultArray v s = (Ok v', s')
    /\ Recipe.arrays s ⊆ Recipe.arrays s'
    /\ Recipe.recipes s' = Recipe.recipes s.
Proof.
  destruct v as [[| | | |]|l]; simpl;
    try (eexists; eexists; split; [reflexivity|]; split; reflexivity).
  unfold bind, Recipe.newArray, ret.
  pose proof (HeapFacts.alloc_subseteq [] (Recipe.arrays s)) as S.
  destruct (Heap.alloc [] (Recipe.arrays s)) as [l h]. simpl in S.
  eexists; eexists; split; [reflexivity|]. now split.
Qed.

Lemma slice_allocates (v : value) (s s' : Recipe.store) (l : loc) :
  Recipe.slice v s = (Ok l, s') ->
  is_Some (Recipe.arrays s' !! l)
  /\ Recipe.arrays s ⊆ Recipe.arrays s'
  /\ Recipe.recipes s' = Recipe.recipes s.
Proof.
  destruct v as [p|l0]; [discriminate|].
  unfold Recipe.slice, bind, Recipe.readArray, gets, Recipe.newArray.
  pose proof (HeapFacts.alloc_subseteq (Heap.read (Recipe.arrays s) l0) (Recipe.arrays s)) as S.
  pose proof (RepoFacts.alloc_lookup (Heap.read (Recipe.arrays s) l0) (Recipe.arrays s)) as R.
  destruct (Heap.alloc _ (Recipe.arrays s)) as [l1 h1]. simpl in S, R.
  intros E. injection E as <- <-. cbn [Recipe.arrays Recipe.recipes]. eauto.
Qed.

(** The constructor allocates the two arrays of the record it returns,
    keeps the arrays there are, and does not touch the collection. *)
Lemma Recipe_new_store (today : string) (a : Recipe.args) (s s' : Recipe.store)
    (r : Recipe.t) :
  Recipe.new today a s = (Ok r, s') ->
  is_Some (Recipe.arrays s' !! Recipe.ingredients r)
  /\ is_Some (Recipe.arrays s' !! Recipe.instructions r)
  /\ Recipe.arrays s ⊆ Recipe.arrays s'
  /\ Recipe.recipes s' = Recipe.recipes s.
Proof.
  unfold Recipe.new. unfold bind at 1.
  destruct (defaultArray_grows (Recipe.a_ingredients a) s) as (v1 & s1 & -> & A1 & B1).
  unfold bind at 1.
  destruct (defaultArray_grows (Recipe.a_instructions a) s1) as (v2 & s2 & -> & A2 & B2).
  destruct (Recipe.validate _ _ _ _); [discriminate|].
  unfold bind at 1.
  destruct (Recipe.slice v1 s2) as [[l1|m] s3] eqn:E1; [|discriminate].
  unfold bind at 1.
  destruct (Recipe.slice v2 s3) as [[l2|m] s4] eqn:E2; [|discriminate].
  unfold ret. intros E. injection E as <- <-.
  cbn [Recipe.ingredients Recipe.instructions].
  destruct (slice_allocates _ _ _ _ E1) as ([x1 I1] & A3 & B3).
  destruct (slice_allocates _ _ _ _ E2) as (I2 & A4 & B4).
  repeat split.
  - exists x1. exact (lookup_weaken _ _ _ _ I1 A4).
  - exact I2.
  - etrans; [exact A1|]. etrans; [exact A2|]. etrans; [exact A3|]. exact A4.
  - congruence.
Qed.

Lemma stored_weaken (h h' : heap) (r : Recipe.t) :
  h ⊆ h' -> Invariants.recipeStored h r -> Invariants.recipeStored h' r.
Proof.
  intros S (A & [x B] & [y C]). repeat split; [exact A| |].
  - exists x. exact (lookup_weaken _ _ _ _ B S).
  - exists y. exact (lookup_weaken _ _ _ _ C S).
Qed.

Lemma Recipe_add_new (today : string) (p : Recipe.payload) (s s' : Recipe.store)
    (r : Recipe.t) :
  Recipe.add today (Some p) s = (Ok r, s') ->
  exists a s0 s1,
    Recipe.new today a s0 = (Ok r, s1)
    /\ Recipe.arrays s' = Recipe.arrays s1.
Proof.
  rewrite RecipeFacts.Recipe_add_eq.
  destruct (Str.isEmpty _); [discriminate|].
  destruct (Str.isEmpty _); [discriminate|].
  destruct (Checks.parsed p s) as [[l1 l2] h2].
  destruct (Recipe.new _ _ _) as [[r0|msg] s0] eqn:N; [|discriminate].
  intros E. injection E as <- <-. eauto.
Qed.

(** [add] keeps the collection well formed, whatever it is given. *)
Lemma Recipe_add_storeOk (today : string) (po : option Recipe.payload) (s : Recipe.store) :
  Invariants.storeOk s -> Invariants.storeOk (snd (Recipe.add today po s)).
Proof.
  intros Hs. destruct po as [p|]; [|exact Hs].
  pose proof (RecipeFacts2.Recipe_add_outcome today p s) as O.
  destruct (Recipe.add today (Some p) s) as [[r|msg] s'] eqn:E; cbn [snd].
  - destruct O as (O1 & O2 & _). unfold Invariants.storeOk. rewrite O1.
    apply Forall_app. split.
    + eapply List.Forall_impl; [|exact Hs]. intros r0. now apply stored_weaken.
    + constructor; [|constructor].
      destruct (Recipe_add_new _ _ _ _ _ E) as (a & s0 & s1 & N & EA).
      destruct (Recipe_new_store _ _ _ _ _ N) as (I1 & I2 & _).
      rewrite EA. repeat split; try assumption.
      eapply InvariantFacts.Recipe_new_ok, N.
  - destruct O as (O1 & O2). unfold Invariants.storeOk. rewrite O1.
    eapply List.Forall_impl; [|exact Hs]. intros r0. now apply stored_weaken.
Qed.

(** [deleteById] keeps the collection well formed. *)
Lemma Recipe_delete_storeOk (id : prim) (s : Recipe.store) :
  Invariants.storeOk s -> Invariants.storeOk (snd (Recipe.deleteById id s)).
Proof.
  intros Hs. unfold Recipe.deleteById.
  destruct (Recipe.removeFirst _ _) as [[x rest]|] eqn:E; cbn [snd]; [|exact Hs].
  destruct (RepoFacts.rm_some_inv Recipe.recipeId _ RepoFacts.Recipe_rm_eq _ _ _ _ E)
    as (l1 & l2 & E1 & -> & _).
  unfold Invariants.storeOk in *. cbn [Recipe.arrays Recipe.recipes].
  rewrite E1 in Hs. apply Forall_app in Hs as [H1 H2].
  apply Forall_app. split; [exact H1|]. now inversion H2.
Qed.

End StoreFacts.

(** * More facts: [encodeURIComponent] and the redirects *)

Module UriFacts.

Lemma encodeChar_safe (c : ascii) :
  Str.all (fun x => Uri.isUnreserved x || (x =? "%")%char) (Uri.encodeChar c) = true.
Proof. destruct c as [[] [] [] [] [] [] [] []]; reflexivity. Qed.

(** The result holds unreserved characters and [%] only: no [&], [=],
    [?], [#], [/], no blank. *)
Lemma encode_safe (s : string) :
  Str.all (fun x => Uri.isUnreserved x || (x =? "%")%char) (Uri.encodeURIComponent s)
  = true.
Proof.
  induction s as [|c s IH]; [reflexivity|]. simpl.
  now rewrite IdFacts.all_app, encodeChar_safe, IH.
Qed.

Lemma encode_app (a b : string) :
  Uri.encodeURIComponent (a ++ b)
  = Uri.encodeURIComponent a ++ Uri.encodeURIComponent b.
Proof.
  induction a as [|c a IH]; [reflexivity|]. simpl.
  now rewrite IH, StrFacts.app_assoc.
Qed.

(** The character an encoding starts with can be read back. *)
Lemma encodeChar_decodable :
  exists dec : string -> option (ascii * string),
    forall c s, dec (Uri.encodeChar c ++ s) = Some (c, s).
Proof.
  pose (hex := fun h : ascii =>
                 (if Str.code h <? 58 then Str.code h - 48 else Str.code h - 55)%N).
  exists (fun s =>
            match s with
            | String "%" (String h1 (String h2 rest)) =>
                let b := (16 * hex h1 + hex h2)%N in
                if (b <? 128)%N then Some (ascii_of_N b, rest)
                else
                  match rest with
                  | String "%" (String h3 (String h4 rest')) =>
                      Some (ascii_of_N ((b - 192) * 64 + (16 * hex h3 + hex h4 - 128)),
                            rest')
                  | _ => None
                  end
            | String c rest => Some (c, rest)
            | EmptyString => None
            end).
  intros c s. destruct c as [[] [] [] [] [] [] [] []]; reflexivity.
Qed.

Lemma encode_injective (a b : string) :
  Uri.encodeURIComponent a = Uri.encodeURIComponent b -> a = b.
Proof.
  destruct encodeChar_decodable as [dec Hdec].
  revert b. induction a as [|c a IH]; intros [|c' b]; simpl; intros E.
  - reflexivity.
  - destruct c' as [[] [] [] [] [] [] [] []]; discriminate E.
  - destruct c as [[] [] [] [] [] [] [] []]; discriminate E.
  - pose proof (Hdec c (Uri.encodeURIComponent a)) as D1.
    pose proof (Hdec c' (Uri.encodeURIComponent b)) as D2.
    rewrite E, D2 in D1. injection D1 as <- E'. f_equal. now apply IH.
Qed.

End UriFacts.

(** * More facts: the middleware and the POST routes *)

Module RouteFacts.

Lemma require_next (v : prim) (msg : string) (k : Validators.outcome) :
  Validators.require v msg k = Validators.Next ->
  Spec.nonBlank v = true /\ k = Validators.Next.
Proof.
  unfold Validators.require, Validators.blank, Spec.nonBlank.
  destruct v as [| | | |s]; try discriminate.
  rewrite JSFacts.or_str_empty.
  destruct (Str.isEmpty (Str.trim s)); [discriminate|]. now split.
Qed.

(** [String(x)] for a falsy Number. *)
Lemma toString_falsy (f : float) :
  JS.truthy (PNum f) = false -> Num.toString f = "0" \/ Num.toString f = "NaN".
Proof.
  simpl. unfold is_zero, is_nan, Num.toString.
  rewrite !FloatAxioms.eqb_spec.
  change (Prim2SF zero) with (S754_zero false).
  unfold SFeqb.
  destruct (Prim2SF f) as [s|s| |s m e]; auto.
  - destruct s; discriminate.
  - destruct s; simpl; rewrite ?Z.compare_refl, ?Pos.compare_cont_refl; discriminate.
Qed.

(** A difficulty the middleware accepts is one the model accepts. *)
Lemma difficulty_ok (d : prim) :
  existsb (String.eqb (JS.ToString d)) ["Easy"; "Medium"; "Hard"] = true ->
  Recipe.isDifficulty (Str.trim (JS.ToString (JS.or d (PStr "")))) = true.
Proof.
  assert (K : forall t, existsb (String.eqb t) ["Easy"; "Medium"; "Hard"] = true ->
                        Recipe.isDifficulty (Str.trim t) = true).
  { intros t. simpl. rewrite !orb_true_iff, !String.eqb_eq.
    intros [->|[->|[->|H]]]; try reflexivity; discriminate. }
  destruct d as [| |[]|f|s]; try discriminate.
  - unfold JS.or. destruct (JS.truthy (PNum f)) eqn:T; [apply K|].
    intros H. exfalso. simpl JS.ToString in H.
    destruct (toString_falsy f T) as [E|E]; rewrite E in H; discriminate.
  - rewrite JSFacts.or_str_empty. apply K.
Qed.

(** What the Recipe middleware lets through meets the constraints that
    [Recipe.add] and the constructor check. *)
Lemma validateRecipeBody_valid (b : Recipe.payload) :
  Validators.validateRecipeBody b = Validators.Next ->
  Spec.validRecipePayload b = true.
Proof.
  unfold Validators.validateRecipeBody. intros H.
  apply require_next in H as [H1 H]. apply require_next in H as [H2 H].
  apply require_next in H as [H3 H]. apply require_next in H as [H4 H].
  destruct (Validators.pos (Recipe.p_prepTime b)) eqn:P1; [|discriminate].
  destruct (existsb _ _) eqn:D; [|discriminate].
  destruct (Validators.pos (Recipe.p_servings b)) eqn:P2; [|discriminate].
  unfold Spec.validRecipePayload. rewrite H1, H2, (difficulty_ok _ D).
  unfold Validators.pos in P1, P2. unfold Spec.positiveNumber. now rewrite P1, P2.
Qed.

(** The Recipe middleware either goes on, or answers 400, or fails on a
    text field that is not a string. *)
Lemma postRecipe_eq (today : string) (b : Recipe.payload) (s : Recipe.store) :
  App.postRecipe today b s =
  match Validators.validateRecipeBody b with
  | Validators.Send400 msg => (Ok (App.send400 msg), s)
  | Validators.TypeError => (Ok App.Uncaught, s)
  | Validators.Next =>
      match Recipe.add today (Some b) s with
      | (Ok _, s') => (Ok (App.Redirect 303 "/recipe-00000001"), s')
      | (Throw msg, s') => (Ok (App.Send 400 msg), s')
      end
  end.
Proof.
  unfold App.postRecipe. destruct (Validators.validateRecipeBody b); try reflexivity.
  unfold tryCatch, bind, ret. now destruct (Recipe.add today (Some b) s) as [[r|m] s'].
Qed.

Lemma postInventory_eq (today : string) (b : InventoryItem.payload)
    (items : list InventoryItem.t) :
  App.postInventory today b items =
  match Validators.validateInventoryBody b with
  | Validators.Send400 msg => (Ok (App.send400 msg), items)
  | Validators.TypeError => (Ok App.Uncaught, items)
  | Validators.Next =>
      let b' := if negb (JS.truthy (InventoryItem.p_userId b))
                then App.setUserId (PStr App.defaultUserId) b else b in
      match InventoryItem.add today (Some b') items with
      | (Ok _, items') => (Ok (App.Redirect 303 "/inventoryItem-00000001"), items')
      | (Throw msg, items') => (Ok (App.Send 400 msg), items')
      end
  end.
Proof.
  unfold App.postInventory. destruct (Validators.validateInventoryBody b); try reflexivity.
  unfold tryCatch, bind, ret. cbv zeta.
  now destruct (InventoryItem.add today _ items) as [[r|m] s'].
Qed.

Lemma isOn_iff (x : prim) : App.isOn x = true <-> x = PStr "on".
Proof.
  destruct x as [| | | |s]; simpl; try (split; [discriminate|congruence]).
  rewrite String.eqb_eq. split; congruence.
Qed.

End RouteFacts.

(** * More facts: sets and sorting of strings, the read-only pages *)

Module PageFacts.

Lemma existsb_eqb_In (x : string) (l : list string) :
  existsb (String.eqb x) l = true <-> In x l.
Proof.
  rewrite existsb_exists. split.
  - intros (y & Hy & E). apply String.eqb_eq in E. now subst.
  - intros H. exists x. split; [exact H|apply String.eqb_refl].
Qed.

(** [uniqFrom seen xs]: the values of [xs] that are not in [seen], each
    once, in the order of their first occurrence. *)
Lemma uniqFrom_In (seen xs : list string) (x : string) :
  In x (Arr.uniqFrom seen xs) <-> In x xs /\ ~ In x seen.
Proof.
  revert seen. induction xs as [|y xs IH]; intros seen; simpl; [tauto|].
  destruct (existsb (String.eqb y) seen) eqn:E.
  - apply existsb_eqb_In in E. rewrite IH. split; [tauto|].
    intros [[->|H] N]; [contradiction|tauto].
  - assert (N : ~ In y seen).
    { intros H. apply existsb_eqb_In in H. congruence. }
    simpl. rewrite IH. simpl. split.
    + intros [<-|[H1 H2]]; [tauto|]. split; [tauto|]. intros H. apply H2. now right.
    + intros [[<-|H1] H2]; [now left|].
      destruct (String.eqb_spec y x) as [->|Hy]; [now left|]. right. split; [exact H1|].
      intros [H|H]; [contradiction|contradiction].
Qed.

Lemma uniqFrom_NoDup (seen xs : list string) : List.NoDup (Arr.uniqFrom seen xs).
Proof.
  revert seen. induction xs as [|y xs IH]; intros seen; simpl; [constructor|].
  destruct (existsb (String.eqb y) seen); [apply IH|].
  constructor; [|apply IH]. rewrite uniqFrom_In. intros [_ N]. apply N. now left.
Qed.

Lemma uniqFrom_length (seen xs : list string) :
  (length (Arr.uniqFrom seen xs) <= length xs)%nat.
Proof.
  revert seen. induction xs as [|y xs IH]; intros seen; simpl; [lia|].
  destruct (existsb (String.eqb y) seen); [specialize (IH seen)|specialize (IH (y :: seen))];
    simpl; lia.
Qed.

Lemma uniq_In (xs : list string) (x : string) : In x (Arr.uniq xs) <-> In x xs.
Proof. unfold Arr.uniq. rewrite uniqFrom_In. simpl. tauto. Qed.

(** Insertion keeps the elements, their distinctness and their order. *)
Lemma insert_In (x y : string) (l : list string) :
  In y (Arr.insert x l) <-> y = x \/ In y l.
Proof.
  induction l as [|z l IH]; simpl; [intuition congruence|].
  destruct (Str.gtb x z); simpl; [rewrite IH|]; intuition congruence.
Qed.

Lemma sort_In (l : list string) (y : string) : In y (Arr.sort l) <-> In y l.
Proof.
  induction l as [|x l IH]; simpl; [tauto|].
  rewrite insert_In, IH. intuition congruence.
Qed.

Lemma insert_NoDup (x : string) (l : list string) :
  ~ In x l -> List.NoDup l -> List.NoDup (Arr.insert x l).
Proof.
  induction l as [|z l IH]; intros N ND; simpl.
  - constructor; [intros []|constructor].
  - inversion ND as [|? ? Hz ND']; subst.
    destruct (Str.gtb x z).
    + constructor.
      * rewrite insert_In. intros [->|H]; [apply N; now left|contradiction].
      * apply IH; [|exact ND']. intros H. apply N. now right.
    + now constructor.
Qed.

Lemma sort_NoDup (l : list string) : List.NoDup l -> List.NoDup (Arr.sort l).
Proof.
  induction 1 as [|x l N ND IH]; simpl; [constructor|].
  apply insert_NoDup; [|exact IH]. now rewrite sort_In.
Qed.

Lemma gtb_flip (x z : string) : Str.gtb x z = true -> Str.gtb z x = false.
Proof.
  unfold Str.gtb. rewrite (String.compare_antisym z x).
  now destruct (String.compare x z).
Qed.

Lemma insert_Sorted (x : string) (l : list string) :
  Sorted (fun a b => Str.gtb a b = false) l ->
  Sorted (fun a b => Str.gtb a b = false) (Arr.insert x l).
Proof.
  induction l as [|z l IH]; intros S; simpl.
  - repeat constructor.
  - destruct (Str.gtb x z) eqn:G.
    + inversion S as [|? ? S' H]; subst. constructor; [now apply IH|].
      destruct l as [|w l]; simpl.
      * constructor. now apply gtb_flip.
      * destruct (Str.gtb x w); constructor; [now inversion H|now apply gtb_flip].
    + constructor; [exact S|]. now constructor.
Qed.

Lemma sort_Sorted (l : list string) :
  Sorted (fun a b => Str.gtb a b = false) (Arr.sort l).
Proof.
  induction l as [|x l IH]; simpl; [constructor|]. now apply insert_Sorted.
Qed.

(** The options of a filter: ascending, without repetition, and exactly
    the values that are not empty. *)
Lemma options_spec (xs : list string) :
  Sorted (fun a b => Str.gtb a b = false) (App.options xs)
  /\ List.NoDup (App.options xs)
  /\ forall x, In x (App.options xs) <-> In x xs /\ x <> "".
Proof.
  unfold App.options. split; [apply sort_Sorted|]. split.
  - apply sort_NoDup, List.NoDup_filter, uniqFrom_NoDup.
  - intros x. rewrite sort_In, filter_In, uniq_In. simpl.
    destruct x; simpl; intuition congruence.
Qed.

Lemma fold_left_map_acc {A B C : Type} (f : C -> B -> C) (g : A -> B)
    (l : list A) (c : C) :
  fold_left f (map g l) c = fold_left (fun acc x => f acc (g x)) l c.
Proof. revert c. induction l as [|x l IH]; intros c; simpl; [reflexivity|]. apply IH. Qed.

End PageFacts.

(** * More facts: dates *)

Module DateFacts.

Local Open Scope Z_scope.

(** Every instant of a local day has the midnight that starts the day as
    its start of day. *)
Lemma setHours0_midnight (tza m t : Z) :
  (m + tza) mod Date.msPerDay = 0 ->
  m <= t < m + Date.msPerDay ->
  Date.setHours0 tza (Some t) = Date.timeClip m.
Proof.
  unfold Date.setHours0, Date.msPerDay. intros Hm Ht. f_equal.
  pose proof (Z.div_mod (m + tza) 86400000 ltac:(lia)) as DM. rewrite Hm in DM.
  assert (E : (t + tza) / 86400000 = (m + tza) / 86400000).
  { symmetry. apply (Z.div_unique (t + tza) 86400000 _ (t - m)); lia. }
  rewrite E. lia.
Qed.

(** Strings of as many digits compare as the numbers they denote. *)
Lemma compare_digits (s t : string) (a : Z) :
  String.length s = String.length t ->
  Str.all Str.isDigit s = true -> Str.all Str.isDigit t = true -> 0 <= a ->
  String.compare s t = (Str.digitsValue a s ?= Str.digitsValue a t).
Proof.
  revert t a. induction s as [|c s IH]; intros [|c' t] a L Hs Ht Ha;
    try discriminate L.
  - simpl. now rewrite Z.compare_refl.
  - simpl in L, Hs, Ht. apply andb_true_iff in Hs as [Hc Hs].
    apply andb_true_iff in Ht as [Hc' Ht]. injection L as L.
    cbn [String.compare Str.digitsValue]. unfold Ascii.compare.
    pose proof (IdRoundTrip.digitVal_range c Hc) as R.
    pose proof (IdRoundTrip.digitVal_range c' Hc') as R'.
    pose proof (IdRoundTrip.digitsValue_bound s (10 * a + Str.digitVal c) Hs ltac:(lia)) as B.
    pose proof (IdRoundTrip.digitsValue_bound t (10 * a + Str.digitVal c') Ht ltac:(lia)) as B'.
    rewrite <- L in B'.
    set (P := 10 ^ Z.of_nat (String.length s)) in *.
    assert (0 < P) by (apply Z.pow_pos_nonneg; lia).
    unfold Str.digitVal, Str.code in *.
    destruct (N.compare_spec (N_of_ascii c) (N_of_ascii c')) as [E|E|E].
    + assert (c = c').
      { rewrite <- (ascii_N_embedding c), <- (ascii_N_embedding c'). now rewrite E. }
      subst c'. apply IH; try assumption. lia.
    + symmetry. apply Z.compare_lt_iff. nia.
    + symmetry. apply Z.compare_gt_iff. nia.
Qed.

(** The shape of a string in the YYYY-MM-DD form. *)
Lemma isYmd_inv (s : string) :
  Re.isYmd s = true ->
  exists y1 y2 y3 y4 m1 m2 d1 d2,
    s = String y1 (String y2 (String y3 (String y4 (String "-"
          (String m1 (String m2 (String "-" (String d1 (String d2 ""))))))))) 
    /\ Str.all Str.isDigit
         (String y1 (String y2 (String y3 (String y4
            (String m1 (String m2 (String d1 (String d2 ""))))))))
       = true.
Proof.
  intros H.
  destruct s as [|y1 s]; [discriminate|]. destruct s as [|y2 s]; [discriminate|].
  destruct s as [|y3 s]; [discriminate|]. destruct s as [|y4 s]; [discriminate|].
  destruct s as [|h1 s]; [discriminate|].
  destruct h1 as [[] [] [] [] [] [] [] []]; try discriminate H.
  destruct s as [|m1 s]; [discriminate|]. destruct s as [|m2 s]; [discriminate|].
  destruct s as [|h2 s]; [discriminate|].
  destruct h2 as [[] [] [] [] [] [] [] []]; try discriminate H.
  destruct s as [|d1 s]; [discriminate|]. destruct s as [|d2 s]; [discriminate|].
  destruct s as [|x s]; [|discriminate].
  exists y1, y2, y3, y4, m1, m2, d1, d2. split; [reflexivity|].
  unfold Re.isYmd in H. cbn [forallb] in H. cbn [Str.all].
  now rewrite andb_true_r in H |- *.
Qed.

(** Two date strings compare as their numbers yyyymmdd. *)
Lemma compare_ymd (a b : string) :
  Re.isYmd a = true -> Re.isYmd b = true ->
  String.compare a b = (Invariants.ymdNumber a ?= Invariants.ymdNumber b).
Proof.
  intros Ha Hb.
  destruct (isYmd_inv a Ha) as (y1 & y2 & y3 & y4 & m1 & m2 & d1 & d2 & -> & Da).
  destruct (isYmd_inv b Hb) as (z1 & z2 & z3 & z4 & n1 & n2 & e1 & e2 & -> & Db).
  pose proof (fun L => compare_digits _ _ 0 L Da Db ltac:(lia)) as C.
  specialize (C eq_refl).
  unfold Invariants.ymdNumber. cbn [Num.take Num.drop String.append].
  rewrite <- C.
  cbn [String.compare]. change (Ascii.compare "-" "-") with Eq. cbv iota. reflexivity.
Qed.

Lemma gt_ymd (a b : string) :
  Re.isYmd a = true -> Re.isYmd b = true ->
  JS.gt (PStr a) (PStr b) = (Invariants.ymdNumber b <? Invariants.ymdNumber a).
Proof.
  intros Ha Hb. cbn [JS.gt]. unfold Str.gtb. rewrite (compare_ymd a b Ha Hb).
  unfold Z.ltb. rewrite (Z.compare_antisym (Invariants.ymdNumber a)).
  now destruct (Invariants.ymdNumber a ?= Invariants.ymdNumber b).
Qed.

(** A string that is not of the form YYYY-MM-DD is read by the engine. *)
Lemma parse_other_form (otherForms : string -> Date.t) (s : string) :
  Re.isYmd s = false -> Date.parse otherForms s = otherForms s.
Proof. unfold Date.parse. now intros ->. Qed.

(** A day past the end of its month is a day of the next month. *)
Lemma makeDay_overflow (y m d : Z) :
  1 <= m < 12 ->
  Date.makeDay y m (Date.daysInMonth y m + d) = Date.makeDay y (m + 1) d.
Proof.
  intros Hm. unfold Date.makeDay.
  replace (Z.to_nat (m + 1)) with (S (Z.to_nat m)) by lia.
  destruct (Z.to_nat m) as [|k] eqn:K; [lia|].
  cbn [Date.daysBefore]. replace (Z.of_nat (S k)) with m by lia. lia.
Qed.

(** [Date.parse] on the date-only form: midnight UTC of the date; the
    thirtieth of February is the second of March; a month or a day out of
    01-12 and 01-31 is no date. *)
Lemma parse_examples (otherForms : string -> Date.t) :
  Date.parse otherForms "2025-07-25" = Some 1753401600000
  /\ Date.parse otherForms "1970-01-01" = Some 0
  /\ Date.parse otherForms "0001-01-01" = Some (-62135596800000)
  /\ Date.parse otherForms "2024-02-29" = Some 1709164800000
  /\ Date.parse otherForms "2025-02-29" = Date.parse otherForms "2025-03-01"
  /\ Date.parse otherForms "2026-02-30" = Some 1772409600000
  /\ Date.parse otherForms "2026-02-30" = Date.parse otherForms "2026-03-02"
  /\ Date.parse otherForms "2025-04-31" = Date.parse otherForms "2025-05-01"
  /\ Date.parse otherForms "2025-12-31" = Some 1767139200000
  /\ Date.parse otherForms "2025-13-01" = None
  /\ Date.parse otherForms "2025-00-10" = None
  /\ Date.parse otherForms "2025-01-32" = None
  /\ Date.parse otherForms "2025-01-00" = None
  /\ Date.parse otherForms "2025-07-25T09:00" = otherForms "2025-07-25T09:00"
  /\ Date.parse otherForms "25 July 2025" = otherForms "25 July 2025".
Proof. repeat split; vm_compute; reflexivity. Qed.

(** An expiration date [2026-02-30] gets through [add], and on the 27th of
    February the item has 3 days left: it expires on the second of
    March. *)
Lemma daysLeft_day_overflow (otherForms : string -> Date.t) :
  exists i items',
    InventoryItem.add "2026-02-27" (Some Examples.februaryThirty) SampleData.inventory
    = (Ok i, items')
    /\ InventoryItem.expirationDate i = PStr "2026-02-30"
    /\ InventoryItem.withDerived otherForms 0 Examples.february27 [i]
       = (Ok [{| InventoryItem.item := i;
                 InventoryItem.daysLeft := Some 3%float;
                 InventoryItem.lineValue := Num.ofString "3.6" |}], [i]).
Proof.
  eexists _, _. split; [vm_compute; reflexivity|].
  split; vm_compute; reflexivity.
Qed.

End DateFacts.

(** * More facts: refining a search *)

Module SearchFacts.

Lemma ciSubstring_trans (q1 q2 s : string) :
  Spec.ciSubstring q1 q2 -> Spec.ciSubstring q2 s -> Spec.ciSubstring q1 s.
Proof.
  intros (pre & post & E1) (a & b & E2).
  exists (a ++ pre), (post ++ b). rewrite E2, E1.
  now rewrite !StrFacts.app_assoc.
Qed.

Lemma textMatch_refine (h : heap) (q1 q2 : string) (r : Recipe.t) :
  Spec.ciSubstring q1 q2 -> Spec.textMatch h q2 r -> Spec.textMatch h q1 r.
Proof.
  intros H. unfold Spec.textMatch.
  pose proof (ciSubstring_trans q1 q2) as T.
  intros [M|[M|[M|[M|[(x & I & M)|(x & I & M)]]]]]; eauto 10.
Qed.

Lemma filter_length_mono {A : Type} (p q : A -> bool) (l : list A) :
  (forall x, p x = true -> q x = true) ->
  (length (List.filter p l) <= length (List.filter q l))%nat.
Proof.
  intros H. induction l as [|x l IH]; simpl; [lia|].
  destruct (p x) eqn:P; [rewrite (H x P); simpl; lia|].
  destruct (q x); simpl; lia.
Qed.

End SearchFacts.

(** *** [Number.prototype.toFixed] *)

Module FixedFacts.
Import Str.
Local Open Scope Z_scope.

Lemma take_drop (k : nat) (s : string) : (Num.take k s ++ Num.drop k s)%string = s.
Proof.
  revert s. induction k as [|k IH]; intros [|c s]; cbn; try reflexivity.
  now rewrite IH.
Qed.

Lemma drop_length (k : nat) (s : string) :
  String.length (Num.drop k s) = (String.length s - k)%nat.
Proof.
  revert s. induction k as [|k IH]; intros [|c s]; cbn; try reflexivity; try lia.
  apply IH.
Qed.

Lemma take_nonempty (k : nat) (s : string) :
  (0 < k)%nat -> (0 < String.length s)%nat -> Num.take k s <> ""%string.
Proof. destruct k, s; cbn; intros; try lia; discriminate. Qed.

Lemma replicate_length (k : nat) (c : ascii) : String.length (replicate k c) = k.
Proof. induction k as [|k IH]; cbn; [reflexivity|now rewrite IH]. Qed.

Lemma padStart0_length (w : nat) (s : string) :
  String.length (padStart0 w s) = Nat.max w (String.length s).
Proof.
  unfold padStart0. rewrite IdFacts.length_app, replicate_length. lia.
Qed.

Lemma padStart0_value (w : nat) (n : N) : digitsValue 0 (padStart0 w (ofN n)) = Z.of_N n.
Proof. unfold padStart0. now rewrite IdRoundTrip.zeros_value, IdRoundTrip.ofN_value. Qed.

(** The digits [toFixed] prints for the integer [n] and [fd > 0] places:
    an integer part, a point and exactly [fd] digits, that read without the
    point are [n]. *)
Lemma fixedDigits_point (fd : nat) (n : Z) :
  0 <= n -> (0 < fd)%nat ->
  exists ip fp,
    Num.fixedDigits fd n = (ip ++ "." ++ fp)%string
    /\ ip <> ""%string
    /\ String.length fp = fd
    /\ digitsValue 0 (ip ++ fp) = n.
Proof.
  intros Hn Hfd. unfold Num.fixedDigits. destruct fd as [|fd]; [lia|].
  set (m := padStart0 (S (S fd)) (ofN (Z.to_N n))).
  assert (L : (S (S fd) <= String.length m)%nat).
  { unfold m. rewrite padStart0_length. lia. }
  exists (Num.take (String.length m - S fd) m), (Num.drop (String.length m - S fd) m).
  split; [reflexivity|]. split; [apply take_nonempty; lia|].
  split; [rewrite drop_length; lia|].
  rewrite take_drop. unfold m. rewrite padStart0_value. lia.
Qed.

(** With no places it prints the integer. *)
Lemma fixedDigits_integer (n : Z) :
  0 <= n -> digitsValue 0 (Num.fixedDigits 0 n) = n.
Proof. intros Hn. unfold Num.fixedDigits. rewrite padStart0_value. lia. Qed.

(** [x.toFixed(fd)] of a finite Number below 10^21 prints the [n] for which
    [n / 10^fd] is nearest to the magnitude of [x], the larger one if two
    are as near, after the sign of [x]. *)
Lemma toFixed_nearest (fd : nat) (x : float) (num den : Z) :
  Spec.fraction x = Some (num, den) ->
  Z.abs num < 10 ^ 21 * den ->
  exists n,
    0 <= n
    /\ Spec.nearestDecimal fd x n
    /\ Num.toFixed fd x
       = ((if (num <? 0)%Z then "-" else "") ++ Num.fixedDigits fd n)%string.
Proof.
  unfold Spec.nearestDecimal, Spec.fraction, Num.toFixed.
  destruct (Prim2SF x) as [s|s| |s m e]; try discriminate.
  - intros [= <- <-] _. exists 0. split; [lia|]. split; [|reflexivity].
    exists 0, 1. split; [reflexivity|]. cbn [Z.abs]. lia.
  - destruct (Num.fracOf m e) as [a b] eqn:Fr. intros [= <- <-] Hb.
    assert (Hab : 0 < a /\ 0 < b).
    { unfold Num.fracOf in Fr. destruct (Z.leb_spec 0 e); injection Fr as <- <-.
      - assert (0 < 2 ^ e) by (apply Z.pow_pos_nonneg; lia). lia.
      - assert (0 < 2 ^ (- e)) by (apply Z.pow_pos_nonneg; lia). lia. }
    replace (Z.abs (if s then - a else a)) with a in * by (destruct s; lia).
    destruct (Z.leb_spec (10 ^ 21 * b) a) as [|_]; [lia|].
    set (t := 10 ^ Z.of_nat fd).
    assert (Ht : 0 < t) by (apply Z.pow_pos_nonneg; lia).
    set (n := (2 * a * t + b) / (2 * b)).
    pose proof (Z.div_mod (2 * a * t + b) (2 * b) ltac:(lia)) as DM.
    pose proof (Z.mod_pos_bound (2 * a * t + b) (2 * b) ltac:(lia)) as MB.
    fold n in DM.
    assert (N0 : 0 <= n) by (apply Z.div_pos; nia).
    exists n. split; [exact N0|]. split.
    + exists (if s then - a else a), b. split; [reflexivity|].
      replace (Z.abs (if s then - a else a)) with a by (destruct s; lia).
      fold t. lia.
    + destruct s.
      * destruct (Z.ltb_spec (- a) 0); [reflexivity|lia].
      * destruct (Z.ltb_spec a 0); [lia|reflexivity].
Qed.

(** [toFixed] at work: the binary value decides what looks like a tie
    (1.005 is below, 8.345 above), an exact tie goes away from zero, and
    from 10^21 on the Number is printed as [String] prints it. *)
Lemma toFixed_examples :
  Num.toFixed 2 (Num.ofString "1.005") = "1.00"%string
  /\ Num.toFixed 2 (Num.ofString "8.345") = "8.35"%string
  /\ Num.toFixed 2 (Num.ofString "2.675") = "2.67"%string
  /\ Num.toFixed 2 (Num.ofString "123.456") = "123.46"%string
  /\ Num.toFixed 2 0.125 = "0.13"%string
  /\ Num.toFixed 2 0.375 = "0.38"%string
  /\ Num.toFixed 2 (-0.125) = "-0.13"%string
  /\ Num.toFixed 2 (Num.ofString "-0.001") = "-0.00"%string
  /\ Num.toFixed 2 (Num.ofString "0.004") = "0.00"%string
  /\ Num.toFixed 2 (Num.ofString "0.005") = "0.01"%string
  /\ Num.toFixed 2 100 = "100.00"%string
  /\ Num.toFixed 2 0 = "0.00"%string
  /\ Num.toFixed 2 neg_zero = "0.00"%string
  /\ Num.toFixed 0 2.5 = "3"%string
  /\ Num.toFixed 0 (-1.5) = "-2"%string
  /\ Num.toFixed 1 (Num.ofString "1.45") = "1.4"%string
  /\ Num.toFixed 7 (Num.ofString "0.000001") = "0.0000010"%string
  /\ Num.toFixed 2 1e20 = "100000000000000000000.00"%string
  /\ Num.toFixed 2 1e21 = "1e+21"%string
  /\ Num.toFixed 2 nan = "NaN"%string
  /\ Num.toFixed 2 infinity = "Infinity"%string.
Proof. repeat split; vm_compute; reflexivity. Qed.

(** [scaleLine] where the rounding shows. *)
Lemma scaleLine_rounds :
  App.scaleLine (PStr "1 cup sugar") (Num.ofString "0.333") = PStr "0.33 cup sugar"
  /\ App.scaleLine (PStr "3 eggs") (Num.ofString "1.3") = PStr "3.9 eggs"
  /\ App.scaleLine (PStr "1.005 kg rice") 1 = PStr "1 kg rice"
  /\ App.scaleLine (PStr "8.345 l stock") 1 = PStr "8.35 l stock"
  /\ App.scaleLine (PStr "1 tsp salt") 0.125 = PStr "0.13 tsp salt"
  /\ App.scaleLine (PStr "1 pinch saffron") (Num.ofString "0.004") = PStr "0 pinch saffron"
  /\ App.scaleLine (PStr "250ml milk") 2.5 = PStr "625 ml milk".
Proof. repeat split; vm_compute; reflexivity. Qed.

End FixedFacts.

(** * Further properties of the code *)

(** X1: reading back the number of a formatted id gives the number, for both
    kinds of id and every number of at most five digits; a larger number
    formats to an id outside the five-digit pattern, which the constructors
    reject and which counts as 0 when the next id is computed. *)
Theorem X1_formatId_idNumber (n : N) :
  Recipe.idNumber (Recipe.formatId n) = (if (n <? 100000)%N then n else 0%N)
  /\ InventoryItem.idNumber (InventoryItem.formatId n)
     = (if (n <? 100000)%N then n else 0%N)
  /\ Re.testId "R" (Recipe.formatId n) = (n <? 100000)%N
  /\ Re.testId "I" (InventoryItem.formatId n) = (n <? 100000)%N.
Proof.
  repeat split.
  - apply IdRoundTrip.Recipe_idNumber_formatId.
  - apply IdRoundTrip.Inventory_idNumber_formatId.
  - apply IdRoundTrip.Recipe_testId_formatId.
  - apply IdRoundTrip.Inventory_testId_formatId.
Qed.

(** X2: the id [Recipe.add] gives a new record is the id of no record
    already in the collection, so a collection with pairwise distinct ids
    keeps pairwise distinct ids; and [Recipe.findById] with the new id finds
    the new record. *)
Theorem X2_Recipe_add_unique_ids (today : string) (po : option Recipe.payload)
    (s s' : Recipe.store) (r : Recipe.t) :
  Recipe.add today po s = (Ok r, s') ->
  Forall (fun r0 => Recipe.recipeId r0 <> Recipe.recipeId r) (Recipe.recipes s)
  /\ (List.NoDup (map Recipe.recipeId (Recipe.recipes s)) ->
      List.NoDup (map Recipe.recipeId (Recipe.recipes s')))
  /\ Recipe.findById (PStr (Recipe.recipeId r)) s' = (Ok (Some r), s').
Proof.
  intros H. destruct (RepoFacts.Recipe_add_id _ _ _ _ _ H) as (E1 & E2 & E3).
  pose proof (RepoFacts.Recipe_fresh _ E3) as F. rewrite <- E2 in F.
  split; [exact F|]. split.
  - intros ND. rewrite E1. now apply RepoFacts.nodup_snoc.
  - unfold Recipe.findById, gets. rewrite JSFacts.or_str_empty, E1.
    now rewrite (RepoFacts.find_first Recipe.recipeId (Recipe.recipeId r) _ [] r F).
Qed.

Lemma X2_witness :
  exists r s',
    Recipe.add Examples.today (Some Examples.soup) SampleData.recipes = (Ok r, s')
    /\ Forall (fun r0 => Recipe.recipeId r0 <> Recipe.recipeId r)
         (Recipe.recipes SampleData.recipes)
    /\ (List.NoDup (map Recipe.recipeId (Recipe.recipes SampleData.recipes)) ->
        List.NoDup (map Recipe.recipeId (Recipe.recipes s')))
    /\ Recipe.findById (PStr (Recipe.recipeId r)) s' = (Ok (Some r), s').
Proof.
  eexists. eexists. split; [vm_compute; reflexivity|].
  eapply (X2_Recipe_add_unique_ids Examples.today (Some Examples.soup) SampleData.recipes).
  vm_compute. reflexivity.
Defined.

(** X3: what a successful [Recipe.add] stores.  The text fields of the
    record are the strings of the payload's fields with the white space
    around them removed (an absent mealType or cuisineType gives the empty
    string), prepTime and servings are the Numbers of the payload's fields,
    and createdDate is the current date. *)
Theorem X3_Recipe_add_stored_fields (today : string) (p : Recipe.payload)
    (s s' : Recipe.store) (r : Recipe.t) :
  Recipe.add today (Some p) s = (Ok r, s') ->
  Recipe.title r = Str.trim (JS.ToString (Recipe.p_title p))
  /\ Recipe.chef r = Str.trim (JS.ToString (Recipe.p_chef p))
  /\ Recipe.mealType r = Str.trim (JS.ToString (JS.or (Recipe.p_mealType p) (PStr "")))
  /\ Recipe.cuisineType r
     = Str.trim (JS.ToString (JS.or (Recipe.p_cuisineType p) (PStr "")))
  /\ Recipe.prepTime r = JS.ToNumber (Recipe.p_prepTime p)
  /\ Recipe.difficulty r = Str.trim (JS.ToString (Recipe.p_difficulty p))
  /\ Recipe.servings r = JS.ToNumber (Recipe.p_servings p)
  /\ Recipe.createdDate r = today.
Proof.
  intros H. exact (RepoFacts.Recipe_add_fields _ _ _ _ _ H).
Qed.

Lemma X3_witness :
  exists r s',
    Recipe.add Examples.today (Some Examples.soup) SampleData.recipes = (Ok r, s')
    /\ Recipe.title r = Str.trim (JS.ToString (Recipe.p_title Examples.soup))
    /\ Recipe.chef r = Str.trim (JS.ToString (Recipe.p_chef Examples.soup))
    /\ Recipe.mealType r
       = Str.trim (JS.ToString (JS.or (Recipe.p_mealType Examples.soup) (PStr "")))
    /\ Recipe.cuisineType r
       = Str.trim (JS.ToString (JS.or (Recipe.p_cuisineType Examples.soup) (PStr "")))
    /\ Recipe.prepTime r = JS.ToNumber (Recipe.p_prepTime Examples.soup)
    /\ Recipe.difficulty r = Str.trim (JS.ToString (Recipe.p_difficulty Examples.soup))
    /\ Recipe.servings r = JS.ToNumber (Recipe.p_servings Examples.soup)
    /\ Recipe.createdDate r = Examples.today.
Proof.
  eexists. eexists. split; [vm_compute; reflexivity|].
  eapply (X3_Recipe_add_stored_fields Examples.today Examples.soup SampleData.recipes).
  vm_compute. reflexivity.
Defined.

(** X4: [Recipe.deleteById] with the id of the record a successful
    [Recipe.add] returned removes that record and gives back the collection
    as it was before the [add]. *)
Theorem X4_Recipe_add_then_deleteById (today : string) (po : option Recipe.payload)
    (s s' : Recipe.store) (r : Recipe.t) :
  Recipe.add today po s = (Ok r, s') ->
  Recipe.deleteById (PStr (Recipe.recipeId r)) s'
  = (Ok (Some r), Recipe.mkStore (Recipe.arrays s') (Recipe.recipes s)).
Proof.
  intros H. destruct (RepoFacts.Recipe_add_id _ _ _ _ _ H) as (E1 & E2 & E3).
  pose proof (RepoFacts.Recipe_fresh _ E3) as F. rewrite <- E2 in F.
  unfold Recipe.deleteById. rewrite JSFacts.or_str_empty, E1.
  rewrite (RepoFacts.rm_first Recipe.recipeId _ RepoFacts.Recipe_rm_eq (Recipe.recipeId r) _ [] r F eq_refl).
  now rewrite app_nil_r.
Qed.

Lemma X4_witness :
  exists r s',
    Recipe.add Examples.today (Some Examples.soup) SampleData.recipes = (Ok r, s')
    /\ Recipe.deleteById (PStr (Recipe.recipeId r)) s'
       = (Ok (Some r),
          Recipe.mkStore (Recipe.arrays s') (Recipe.recipes SampleData.recipes)).
Proof.
  eexists. eexists. split; [vm_compute; reflexivity|].
  eapply (X4_Recipe_add_then_deleteById Examples.today (Some Examples.soup)
            SampleData.recipes).
  vm_compute. reflexivity.
Defined.

(** X5: ids are not retired.  When the record a successful [Recipe.add]
    returned is deleted again, the next successful [Recipe.add] gives its
    record the same id. *)
Theorem X5_Recipe_id_reused (today today2 : string) (po po2 : option Recipe.payload)
    (s s1 s2 s3 : Recipe.store) (r r2 : Recipe.t) (removed : option Recipe.t) :
  Recipe.add today po s = (Ok r, s1) ->
  Recipe.deleteById (PStr (Recipe.recipeId r)) s1 = (Ok removed, s2) ->
  Recipe.add today2 po2 s2 = (Ok r2, s3) ->
  removed = Some r /\ Recipe.recipeId r2 = Recipe.recipeId r.
Proof.
  intros H1 H2 H3.
  destruct (RepoFacts.Recipe_add_id _ _ _ _ _ H1) as (E1 & E2 & E3).
  pose proof (RepoFacts.Recipe_fresh _ E3) as F. rewrite <- E2 in F.
  unfold Recipe.deleteById in H2. rewrite JSFacts.or_str_empty, E1 in H2.
  rewrite (RepoFacts.rm_first Recipe.recipeId _ RepoFacts.Recipe_rm_eq
             (Recipe.recipeId r) _ [] r F eq_refl) in H2.
  rewrite app_nil_r in H2. injection H2 as <- <-.
  destruct (RepoFacts.Recipe_add_id _ _ _ _ _ H3) as (_ & E2' & _).
  cbn [Recipe.recipes] in E2'. split; [reflexivity|congruence].
Qed.

Lemma X5_witness :
  exists r s1 removed s2 r2 s3,
    Recipe.add Examples.today (Some Examples.soup) SampleData.recipes = (Ok r, s1)
    /\ Recipe.deleteById (PStr (Recipe.recipeId r)) s1 = (Ok removed, s2)
    /\ Recipe.add Examples.today (Some Examples.soup) s2 = (Ok r2, s3)
    /\ removed = Some r /\ Recipe.recipeId r2 = Recipe.recipeId r.
Proof.
  do 6 eexists.
  split; [vm_compute; reflexivity|].
  split; [vm_compute; reflexivity|].
  split; [vm_compute; reflexivity|].
  eapply (X5_Recipe_id_reused Examples.today Examples.today (Some Examples.soup)
            (Some Examples.soup) SampleData.recipes).
  - vm_compute. reflexivity.
  - vm_compute. reflexivity.
  - vm_compute. reflexivity.
Defined.

(** X6: [Recipe.deleteById] never throws.  It removes the first record
    whose id is [String(recipeId || "")], returns it, and leaves the other
    records in their order and the arrays as they are; when no record has
    that id it returns null and changes nothing. *)
Theorem X6_Recipe_deleteById_spec (id : prim) (s : Recipe.store) :
  let rid := JS.ToString (JS.or id (PStr "")) in
  match Recipe.deleteById id s with
  | (Ok (Some removed), s') =>
      Recipe.recipeId removed = rid
      /\ Recipe.arrays s' = Recipe.arrays s
      /\ exists l1 l2,
           Recipe.recipes s = (l1 ++ removed :: l2)%list
           /\ Recipe.recipes s' = (l1 ++ l2)%list
           /\ Forall (fun r => Recipe.recipeId r <> rid) l1
  | (Ok None, s') =>
      s' = s /\ Forall (fun r => Recipe.recipeId r <> rid) (Recipe.recipes s)
  | (Throw _, _) => False
  end.
Proof.
  cbv zeta. unfold Recipe.deleteById.
  destruct (Recipe.removeFirst _ (Recipe.recipes s)) as [[removed rest]|] eqn:E.
  - destruct (RepoFacts.rm_some_inv Recipe.recipeId _ RepoFacts.Recipe_rm_eq _ _ _ _ E)
      as (l1 & l2 & E1 & E2 & E3 & E4).
    cbn [Recipe.arrays Recipe.recipes]. repeat split; try assumption.
    now exists l1, l2.
  - split; [reflexivity|].
    exact (RepoFacts.rm_none_inv Recipe.recipeId _ RepoFacts.Recipe_rm_eq _ _ E).
Qed.

(** X7: after [Recipe.deleteById] removed a record, looking up any other
    id gives what it gave before, and, when the ids of the collection were
    pairwise distinct, looking up the deleted id gives null. *)
Theorem X7_Recipe_deleteById_then_findById (id : prim) (s s' : Recipe.store)
    (removed : Recipe.t) :
  Recipe.deleteById id s = (Ok (Some removed), s') ->
  (forall id' : prim,
      JS.ToString (JS.or id' (PStr "")) <> JS.ToString (JS.or id (PStr "")) ->
      fst (Recipe.findById id' s') = fst (Recipe.findById id' s))
  /\ (List.NoDup (map Recipe.recipeId (Recipe.recipes s)) ->
      Recipe.findById id s' = (Ok None, s')).
Proof.
  unfold Recipe.deleteById.
  destruct (Recipe.removeFirst _ (Recipe.recipes s)) as [[x rest]|] eqn:E; [|discriminate].
  intros H. injection H as -> <-.
  destruct (RepoFacts.rm_some_inv Recipe.recipeId _ RepoFacts.Recipe_rm_eq _ _ _ _ E)
    as (l1 & l2 & E1 & E2 & E3 & E4).
  unfold Recipe.findById, gets. cbn [Recipe.recipes fst]. rewrite E1, E2. split.
  - intros id' Hid. f_equal.
    exact (RepoFacts.find_other Recipe.recipeId _ _ l1 l2 removed E3 Hid).
  - intros ND. f_equal. f_equal.
    apply RepoFacts.find_absent.
    exact (RepoFacts.nodup_absent Recipe.recipeId _ l1 l2 removed ND E3).
Qed.

Lemma X7_witness :
  exists s',
    Recipe.deleteById (PStr "R-00001") SampleData.recipes
    = (Ok (Some SampleData.carbonara), s')
    /\ (forall id' : prim,
           JS.ToString (JS.or id' (PStr "")) <> JS.ToString (JS.or (PStr "R-00001") (PStr "")) ->
           fst (Recipe.findById id' s') = fst (Recipe.findById id' SampleData.recipes))
    /\ (List.NoDup (map Recipe.recipeId (Recipe.recipes SampleData.recipes)) ->
        Recipe.findById (PStr "R-00001") s' = (Ok None, s')).
Proof.
  eexists. split; [vm_compute; reflexivity|].
  eapply (X7_Recipe_deleteById_then_findById (PStr "R-00001") SampleData.recipes).
  vm_compute. reflexivity.
Defined.

(** X8: the id [InventoryItem.add] gives a new item is the id of no item
    already in the collection, a collection with pairwise distinct ids keeps
    pairwise distinct ids, and [InventoryItem.findById] with the new id
    finds the new item. *)
Theorem X8_Inventory_add_unique_ids (today : string)
    (po : option InventoryItem.payload) (items items' : list InventoryItem.t)
    (i : InventoryItem.t) :
  InventoryItem.add today po items = (Ok i, items') ->
  Forall (fun i0 => InventoryItem.inventoryId i0 <> InventoryItem.inventoryId i) items
  /\ (List.NoDup (map InventoryItem.inventoryId items) ->
      List.NoDup (map InventoryItem.inventoryId items'))
  /\ InventoryItem.findById (PStr (InventoryItem.inventoryId i)) items'
     = (Ok (Some i), items').
Proof.
  intros H. destruct (RepoFacts.Inventory_add_id _ _ _ _ _ H) as (E1 & E2 & E3).
  pose proof (RepoFacts.Inventory_fresh _ E3) as F. rewrite <- E2 in F.
  split; [exact F|]. split.
  - intros ND. rewrite E1. now apply RepoFacts.nodup_snoc.
  - unfold InventoryItem.findById, gets. rewrite JSFacts.or_str_empty, E1.
    now rewrite (RepoFacts.find_first InventoryItem.inventoryId
                   (InventoryItem.inventoryId i) _ [] i F).
Qed.

Lemma X8_witness :
  exists i items',
    InventoryItem.add Examples.today (Some Examples.milkOfAiko) SampleData.inventory
    = (Ok i, items')
    /\ Forall (fun i0 => InventoryItem.inventoryId i0 <> InventoryItem.inventoryId i)
         SampleData.inventory
    /\ (List.NoDup (map InventoryItem.inventoryId SampleData.inventory) ->
        List.NoDup (map InventoryItem.inventoryId items'))
    /\ InventoryItem.findById (PStr (InventoryItem.inventoryId i)) items'
       = (Ok (Some i), items').
Proof.
  eexists. eexists. split; [vm_compute; reflexivity|].
  eapply (X8_Inventory_add_unique_ids Examples.today (Some Examples.milkOfAiko)
            SampleData.inventory).
  vm_compute. reflexivity.
Defined.

(** X9: [InventoryItem.deleteById] never throws.  It removes the first item
    whose id is [String(inventoryId || "")] and returns it, the other items
    keeping their order; when no item has that id it returns null and the
    collection is unchanged.  In particular, with the id of the item a
    successful [InventoryItem.add] returned it undoes the [add]: it returns
    that item and the collection is what it was. *)
Theorem X9_Inventory_deleteById_spec (id : prim) (items : list InventoryItem.t) :
  match InventoryItem.deleteById id items with
  | (Ok (Some removed), items') =>
      InventoryItem.inventoryId removed = JS.ToString (JS.or id (PStr ""))
      /\ exists l1 l2,
           items = (l1 ++ removed :: l2)%list
           /\ items' = (l1 ++ l2)%list
           /\ Forall (fun i => InventoryItem.inventoryId i
                               <> JS.ToString (JS.or id (PStr ""))) l1
  | (Ok None, items') =>
      items' = items
      /\ Forall (fun i => InventoryItem.inventoryId i
                          <> JS.ToString (JS.or id (PStr ""))) items
  | (Throw _, _) => False
  end
  /\ forall (today : string) (po : option InventoryItem.payload)
            (i : InventoryItem.t) (items' : list InventoryItem.t),
       InventoryItem.add today po items = (Ok i, items') ->
       InventoryItem.deleteById (PStr (InventoryItem.inventoryId i)) items'
       = (Ok (Some i), items).
Proof.
  split.
  - unfold InventoryItem.deleteById.
    destruct (InventoryItem.removeFirst _ items) as [[removed rest]|] eqn:E.
    + destruct (RepoFacts.rm_some_inv InventoryItem.inventoryId _
                  RepoFacts.Inventory_rm_eq _ _ _ _ E)
        as (l1 & l2 & E1 & E2 & E3 & E4).
      split; [assumption|]. now exists l1, l2.
    + split; [reflexivity|].
      exact (RepoFacts.rm_none_inv InventoryItem.inventoryId _
               RepoFacts.Inventory_rm_eq _ _ E).
  - intros today po i items' H.
    destruct (RepoFacts.Inventory_add_id _ _ _ _ _ H) as (E1 & E2 & E3).
    pose proof (RepoFacts.Inventory_fresh _ E3) as F. rewrite <- E2 in F.
    unfold InventoryItem.deleteById. rewrite JSFacts.or_str_empty, E1.
    rewrite (RepoFacts.rm_first InventoryItem.inventoryId _ RepoFacts.Inventory_rm_eq
               (InventoryItem.inventoryId i) _ [] i F eq_refl).
    now rewrite app_nil_r.
Qed.

Lemma X9_witness :
  exists i items',
    InventoryItem.add Examples.today (Some Examples.milkOfAiko) SampleData.inventory
    = (Ok i, items')
    /\ InventoryItem.deleteById (PStr (InventoryItem.inventoryId i)) items'
       = (Ok (Some i), SampleData.inventory).
Proof.
  eexists. eexists. split; [vm_compute; reflexivity|].
  eapply (proj2 (X9_Inventory_deleteById_spec PUndef SampleData.inventory)
            Examples.today (Some Examples.milkOfAiko)).
  vm_compute. reflexivity.
Defined.

(** X10: what a successful [InventoryItem.add] stores, with the aliases and
    the defaults of the form: ingredientName is [ingredientName], or [name]
    when that is falsy; cost is [cost], or [pricePerUnit] when [cost] is
    absent or null, or 0; expirationDate is [expirationDate], or [expiry],
    or the empty string; location defaults to "Unknown", purchaseDate and
    createdDate to the current date.  Text fields are trimmed and numeric
    fields are Numbers. *)
Theorem X10_Inventory_add_stored_fields (today : string) (p : InventoryItem.payload)
    (items items' : list InventoryItem.t) (i : InventoryItem.t) :
  InventoryItem.add today (Some p) items = (Ok i, items') ->
  InventoryItem.userId i = Str.trim (JS.ToString (InventoryItem.p_userId p))
  /\ InventoryItem.ingredientName i
     = Str.trim (JS.ToString (JS.or (InventoryItem.p_ingredientName p)
                                (InventoryItem.p_name p)))
  /\ InventoryItem.quantity i = JS.ToNumber (InventoryItem.p_quantity p)
  /\ InventoryItem.unit i = Str.trim (JS.ToString (InventoryItem.p_unit p))
  /\ InventoryItem.category i = Str.trim (JS.ToString (InventoryItem.p_category p))
  /\ InventoryItem.location i
     = Str.trim (JS.ToString (JS.or (InventoryItem.p_location p) (PStr "Unknown")))
  /\ InventoryItem.cost i
     = JS.ToNumber (JS.coalesce (JS.coalesce (InventoryItem.p_cost p)
                                   (InventoryItem.p_pricePerUnit p)) (PNum zero))
  /\ InventoryItem.purchaseDate i = JS.or (InventoryItem.p_purchaseDate p) (PStr today)
  /\ InventoryItem.expirationDate i
     = PStr (JS.ToString (JS.or (JS.or (InventoryItem.p_expirationDate p)
                                   (InventoryItem.p_expiry p)) (PStr "")))
  /\ InventoryItem.createdDate i
     = JS.ToString (JS.or (InventoryItem.p_createdDate p) (PStr today)).
Proof.
  intros H. exact (RepoFacts.Inventory_add_fields _ _ _ _ _ H).
Qed.

Lemma X10_witness :
  exists i items',
    InventoryItem.add Examples.today (Some Examples.milkOfAiko) SampleData.inventory
    = (Ok i, items')
    /\ InventoryItem.userId i
       = Str.trim (JS.ToString (InventoryItem.p_userId Examples.milkOfAiko))
    /\ InventoryItem.ingredientName i
       = Str.trim (JS.ToString (JS.or (InventoryItem.p_ingredientName Examples.milkOfAiko)
                                  (InventoryItem.p_name Examples.milkOfAiko)))
    /\ InventoryItem.quantity i = JS.ToNumber (InventoryItem.p_quantity Examples.milkOfAiko)
    /\ InventoryItem.unit i
       = Str.trim (JS.ToString (InventoryItem.p_unit Examples.milkOfAiko))
    /\ InventoryItem.category i
       = Str.trim (JS.ToString (InventoryItem.p_category Examples.milkOfAiko))
    /\ InventoryItem.location i
       = Str.trim (JS.ToString (JS.or (InventoryItem.p_location Examples.milkOfAiko)
                                  (PStr "Unknown")))
    /\ InventoryItem.cost i
       = JS.ToNumber (JS.coalesce (JS.coalesce (InventoryItem.p_cost Examples.milkOfAiko)
                                     (InventoryItem.p_pricePerUnit Examples.milkOfAiko))
                        (PNum zero))
    /\ InventoryItem.purchaseDate i
       = JS.or (InventoryItem.p_purchaseDate Examples.milkOfAiko) (PStr Examples.today)
    /\ InventoryItem.expirationDate i
       = PStr (JS.ToString (JS.or (JS.or (InventoryItem.p_expirationDate Examples.milkOfAiko)
                                     (InventoryItem.p_expiry Examples.milkOfAiko)) (PStr "")))
    /\ InventoryItem.createdDate i
       = JS.ToString (JS.or (InventoryItem.p_createdDate Examples.milkOfAiko)
                        (PStr Examples.today)).
Proof.
  eexists. eexists. split; [vm_compute; reflexivity|].
  eapply (X10_Inventory_add_stored_fields Examples.today Examples.milkOfAiko
            SampleData.inventory).
  vm_compute. reflexivity.
Defined.

(** X11: for every value, [Recipe.parseList] returns a new array and
    changes nothing else; every entry of it is a string that is not empty,
    has no white space at either end and holds no comma and no line feed;
    for a falsy value (absent, null, the empty string, 0, NaN, false) the
    array is empty. *)
Theorem X11_parseList_entries (str : prim) (s : Recipe.store) :
  exists l s',
    Recipe.parseList str s = (Ok l, s')
    /\ Recipe.arrays s !! l = None
    /\ Recipe.arrays s ⊆ Recipe.arrays s'
    /\ Recipe.recipes s' = Recipe.recipes s
    /\ Recipe.arrays s' !! l = Some (map PStr (Recipe.parseItems str))
    /\ Forall (fun x => Invariants.cleanEntry x = true) (Recipe.parseItems str)
    /\ (JS.truthy str = false -> Recipe.parseItems str = []).
Proof.
  unfold Recipe.parseList, Recipe.newArray.
  pose proof (HeapFacts.alloc_fresh (map PStr (Recipe.parseItems str)) (Recipe.arrays s)) as F.
  pose proof (HeapFacts.alloc_subseteq (map PStr (Recipe.parseItems str)) (Recipe.arrays s)) as S.
  pose proof (RepoFacts.alloc_lookup (map PStr (Recipe.parseItems str)) (Recipe.arrays s)) as R.
  destruct (Heap.alloc _ (Recipe.arrays s)) as [l h]. cbn [fst snd] in F, S, R.
  exists l. eexists. split; [reflexivity|]. cbn [Recipe.arrays Recipe.recipes].
  repeat split; try assumption.
  - apply List.Forall_forall. intros x. apply ParseFacts.parseItems_clean.
  - apply ParseFacts.parseItems_falsy.
Qed.

(** X12: [Recipe.parseList] gives back the entries of a list that was
    joined with commas, line feeds or CR LF pairs, each optionally followed
    by blanks, when the entries are not empty, have no white space at either
    end and hold no comma and no line feed. *)
Theorem X12_parseList_roundtrip (d ws : string) (xs : list string) (s : Recipe.store) :
  In d [","; String "010" ""; String "013" (String "010" "")] ->
  Str.all (fun c => Str.isSpace c && negb (Invariants.isSeparator c)) ws = true ->
  Forall (fun x => Invariants.cleanEntry x = true) xs ->
  exists l s',
    Recipe.parseList (PStr (String.concat (d ++ ws) xs)) s = (Ok l, s')
    /\ Heap.read (Recipe.arrays s') l = map PStr xs.
Proof.
  intros Hd Hws F. unfold Recipe.parseList, Recipe.newArray.
  rewrite (ParseFacts.parseItems_concat d ws xs Hd Hws F).
  pose proof (HeapFacts.read_alloc (map PStr xs) (Recipe.arrays s)) as R.
  destruct (Heap.alloc _ (Recipe.arrays s)) as [l h]. cbn [fst snd] in R.
  exists l. eexists. split; [reflexivity|exact R].
Qed.

Lemma X12_witness :
  exists l s',
    Recipe.parseList
      (PStr (String.concat ("," ++ " ") ["2 cups water"; "1 tbsp miso"; "salt"]))
      SampleData.recipes = (Ok l, s')
    /\ Heap.read (Recipe.arrays s') l
       = map PStr ["2 cups water"; "1 tbsp miso"; "salt"].
Proof.
  apply (X12_parseList_roundtrip "," " " ["2 cups water"; "1 tbsp miso"; "salt"]
           SampleData.recipes).
  - left. reflexivity.
  - vm_compute. reflexivity.
  - repeat constructor.
Defined.

(** X13: the record a successful [Recipe.add] returns has two arrays of its
    own, which were no arrays of the store before; they hold the entries
    that [parseList] reads from the payload's ingredients and instructions;
    and every array the store had is still there with its elements. *)
Theorem X13_Recipe_add_stores_parsed_lists (today : string) (p : Recipe.payload)
    (s s' : Recipe.store) (r : Recipe.t) :
  Recipe.add today (Some p) s = (Ok r, s') ->
  Heap.read (Recipe.arrays s') (Recipe.ingredients r)
  = map PStr (Recipe.parseItems (Recipe.p_ingredients p))
  /\ Heap.read (Recipe.arrays s') (Recipe.instructions r)
     = map PStr (Recipe.parseItems (Recipe.p_instructions p))
  /\ Recipe.arrays s !! Recipe.ingredients r = None
  /\ Recipe.arrays s !! Recipe.instructions r = None
  /\ Recipe.ingredients r <> Recipe.instructions r
  /\ Recipe.arrays s ⊆ Recipe.arrays s'.
Proof.
  intros H. destruct (RepoFacts.Recipe_add_lists _ _ _ _ _ H) as (A & B & C & D & E).
  pose proof (RecipeFacts2.Recipe_add_outcome today p s) as O. rewrite H in O.
  destruct O as (_ & O2 & _).
  unfold Heap.read. rewrite A, B. now repeat split.
Qed.

Lemma X13_witness :
  exists r s',
    Recipe.add Examples.today (Some Examples.soup) SampleData.recipes = (Ok r, s')
    /\ Heap.read (Recipe.arrays s') (Recipe.ingredients r)
       = map PStr (Recipe.parseItems (Recipe.p_ingredients Examples.soup))
    /\ Heap.read (Recipe.arrays s') (Recipe.instructions r)
       = map PStr (Recipe.parseItems (Recipe.p_instructions Examples.soup))
    /\ Recipe.arrays SampleData.recipes !! Recipe.ingredients r = None
    /\ Recipe.arrays SampleData.recipes !! Recipe.instructions r = None
    /\ Recipe.ingredients r <> Recipe.instructions r
    /\ Recipe.arrays SampleData.recipes ⊆ Recipe.arrays s'.
Proof.
  eexists. eexists. split; [vm_compute; reflexivity|].
  eapply (X13_Recipe_add_stores_parsed_lists Examples.today Examples.soup
            SampleData.recipes).
  vm_compute. reflexivity.
Defined.

(** X14: whatever object the [Recipe] constructor is given, a record it
    returns is well formed: the id has the R-00001 form, title and chef are
    not empty, the four text fields are trimmed, prepTime and servings are
    finite and positive, difficulty is Easy, Medium or Hard, createdDate has
    the YYYY-MM-DD form; its two lists are arrays of the store; the arrays the
    store had are kept and the collection is not touched. *)
Theorem X14_Recipe_constructor_invariant (today : string) (a : Recipe.args)
    (s s' : Recipe.store) (r : Recipe.t) :
  Recipe.new today a s = (Ok r, s') ->
  Invariants.recipeStored (Recipe.arrays s') r
  /\ Recipe.arrays s ⊆ Recipe.arrays s'
  /\ Recipe.recipes s' = Recipe.recipes s.
Proof.
  intros H. destruct (StoreFacts.Recipe_new_store _ _ _ _ _ H) as (A & B & C & D).
  repeat split; try assumption. eapply InvariantFacts.Recipe_new_ok, H.
Qed.

Lemma X14_witness :
  exists r s',
    Recipe.new Examples.today Examples.carbonaraArgs Examples.emptyStore = (Ok r, s')
    /\ Invariants.recipeStored (Recipe.arrays s') r
    /\ Recipe.arrays Examples.emptyStore ⊆ Recipe.arrays s'
    /\ Recipe.recipes s' = Recipe.recipes Examples.emptyStore.
Proof.
  eexists. eexists. split; [vm_compute; reflexivity|].
  eapply (X14_Recipe_constructor_invariant Examples.today Examples.carbonaraArgs
            Examples.emptyStore).
  vm_compute. reflexivity.
Defined.

(** X15: the operations of the Recipe repository keep the collection well
    formed.  When every record of the collection is well formed and has its
    two arrays in the store, this is still so after [Recipe.add], whether it
    returns or throws, and after [Recipe.deleteById]. *)
Theorem X15_Recipe_store_invariant (today : string) (po : option Recipe.payload)
    (id : prim) (s : Recipe.store) :
  Invariants.storeOk s ->
  Invariants.storeOk (snd (Recipe.add today po s))
  /\ Invariants.storeOk (snd (Recipe.deleteById id s)).
Proof.
  intros H. split.
  - now apply StoreFacts.Recipe_add_storeOk.
  - now apply StoreFacts.Recipe_delete_storeOk.
Qed.

Lemma X15_witness :
  Invariants.storeOk
    (snd (Recipe.add Examples.today (Some Examples.soup) SampleData.recipes))
  /\ Invariants.storeOk (snd (Recipe.deleteById (PStr "R-00001") SampleData.recipes)).
Proof.
  apply (X15_Recipe_store_invariant Examples.today (Some Examples.soup)
           (PStr "R-00001") SampleData.recipes).
  repeat constructor; try (eexists; vm_compute; reflexivity).
Defined.

(** X16: whatever object the [InventoryItem] constructor is given, an item
    it returns is well formed: the id has the I-00001 form; userId,
    ingredientName, unit, category and location are not empty and trimmed;
    quantity and cost are finite and not negative; purchaseDate and
    expirationDate are empty or have the YYYY-MM-DD form, and when both are
    there the purchase is not after the expiration; createdDate has the
    YYYY-MM-DD form. *)
Theorem X16_Inventory_constructor_invariant (today : string) (a : InventoryItem.args)
    (items items' : list InventoryItem.t) (i : InventoryItem.t) :
  InventoryItem.new today a items = (Ok i, items') ->
  Invariants.itemOk i = true /\ items' = items.
Proof.
  intros H. split; [eapply InvariantFacts.Inventory_new_ok, H|].
  unfold InventoryItem.new in H. destruct (InventoryItem.validate _ _ _); [discriminate|].
  unfold ret in H. now injection H.
Qed.

Lemma X16_witness :
  exists i,
    InventoryItem.new Examples.today
      (InventoryItem.newItemRaw Examples.today 3 Examples.milkOfAiko)
      SampleData.inventory = (Ok i, SampleData.inventory)
    /\ Invariants.itemOk i = true /\ SampleData.inventory = SampleData.inventory.
Proof.
  eexists. split; [vm_compute; reflexivity|].
  eapply (X16_Inventory_constructor_invariant Examples.today
            (InventoryItem.newItemRaw Examples.today 3 Examples.milkOfAiko)
            SampleData.inventory).
  vm_compute. reflexivity.
Defined.

(** X17: the operations of the Inventory repository keep the collection
    well formed: when every item is well formed, this is still so after
    [InventoryItem.add], whether it returns or throws, and after
    [InventoryItem.deleteById]. *)
Theorem X17_Inventory_collection_invariant (today : string)
    (po : option InventoryItem.payload) (id : prim) (items : list InventoryItem.t) :
  Forall (fun i => Invariants.itemOk i = true) items ->
  Forall (fun i => Invariants.itemOk i = true) (snd (InventoryItem.add today po items))
  /\ Forall (fun i => Invariants.itemOk i = true)
       (snd (InventoryItem.deleteById id items)).
Proof.
  intros H. split.
  - destruct (InventoryItem.add today po items) as [[i|msg] items'] eqn:E; cbn [snd].
    + pose proof (RepoFacts.Inventory_add_wellformed _ _ _ _ _ E) as W.
      destruct (RepoFacts.Inventory_add_id _ _ _ _ _ E) as (-> & _).
      apply Forall_app. split; [exact H|]. now repeat constructor.
    + destruct po as [p|].
      * pose proof (InventoryFacts.Inventory_add_outcome today p items) as O.
        rewrite E in O. now subst.
      * rewrite RepoFacts.Inventory_add_missing in E. injection E as _ <-. exact H.
  - unfold InventoryItem.deleteById.
    destruct (InventoryItem.removeFirst _ _) as [[x rest]|] eqn:E; cbn [snd]; [|exact H].
    destruct (RepoFacts.rm_some_inv InventoryItem.inventoryId _
                RepoFacts.Inventory_rm_eq _ _ _ _ E) as (l1 & l2 & E1 & -> & _).
    rewrite E1 in H. apply Forall_app in H as [H1 H2].
    apply Forall_app. split; [exact H1|]. now inversion H2.
Qed.

Lemma X17_witness :
  Forall (fun i => Invariants.itemOk i = true)
    (snd (InventoryItem.add Examples.today (Some Examples.milkOfAiko) SampleData.inventory))
  /\ Forall (fun i => Invariants.itemOk i = true)
       (snd (InventoryItem.deleteById (PStr "I-00001") SampleData.inventory)).
Proof.
  apply (X17_Inventory_collection_invariant Examples.today (Some Examples.milkOfAiko)
           (PStr "I-00001") SampleData.inventory).
  repeat constructor.
Defined.

(** X18: a body that the [validateRecipeBody] middleware lets through is
    stored by the POST /recipe-1 route: while the largest id number is below
    99999, the answer is the redirect 303 to the list, and one record is
    appended, with the next id and the current date. *)
Theorem X18_postRecipe_stores_accepted_body (today : string) (b : Recipe.payload)
    (s : Recipe.store) :
  Validators.validateRecipeBody b = Validators.Next ->
  Re.isYmd today = true ->
  (Spec.maxRecipeSuffix (Recipe.recipes s) < 99999)%N ->
  exists r s',
    App.postRecipe today b s = (Ok (App.Redirect 303 "/recipe-00000001"), s')
    /\ Recipe.recipes s' = (Recipe.recipes s ++ [r])%list
    /\ Recipe.recipeId r = Recipe.formatId (Spec.maxRecipeSuffix (Recipe.recipes s) + 1)
    /\ Recipe.createdDate r = today.
Proof.
  intros Hn Hd Hm.
  destruct (RecipeFacts2.Recipe_add_ok today b s
              (RouteFacts.validateRecipeBody_valid b Hn) Hd)
    as (r & h & Ha & _ & Hi & Hc & _).
  { rewrite IdFacts.Recipe_nextNum. lia. }
  exists r. eexists. rewrite RouteFacts.postRecipe_eq, Hn, Ha.
  split; [reflexivity|]. cbn [Recipe.recipes].
  rewrite IdFacts.Recipe_nextNum in Hi. now repeat split.
Qed.

Lemma X18_witness :
  exists r s',
    App.postRecipe Examples.today Examples.soup SampleData.recipes
    = (Ok (App.Redirect 303 "/recipe-00000001"), s')
    /\ Recipe.recipes s' = (Recipe.recipes SampleData.recipes ++ [r])%list
    /\ Recipe.recipeId r
       = Recipe.formatId (Spec.maxRecipeSuffix (Recipe.recipes SampleData.recipes) + 1)
    /\ Recipe.createdDate r = Examples.today.
Proof.
  apply (X18_postRecipe_stores_accepted_body Examples.today Examples.soup
           SampleData.recipes); vm_compute; reflexivity.
Defined.

(** X19: the POST /recipe-1 route, for every body: it answers either the
    redirect 303 to the list, and then exactly one well-formed record was
    appended; or 400, and then the collection is as it was; or it fails in
    the middleware, before anything is changed.  No array of the store is
    lost or changed. *)
Theorem X19_postRecipe_outcomes (today : string) (b : Recipe.payload)
    (s : Recipe.store) :
  exists resp s',
    App.postRecipe today b s = (Ok resp, s')
    /\ Recipe.arrays s ⊆ Recipe.arrays s'
    /\ match resp with
       | App.Redirect status url =>
           status = 303%nat /\ url = "/recipe-00000001"
           /\ exists r, Recipe.recipes s' = (Recipe.recipes s ++ [r])%list
                        /\ Invariants.recipeOk r = true
       | App.Send status _ => status = 400%nat /\ Recipe.recipes s' = Recipe.recipes s
       | App.Uncaught => s' = s
       end.
Proof.
  rewrite RouteFacts.postRecipe_eq.
  destruct (Validators.validateRecipeBody b).
  - pose proof (RecipeFacts2.Recipe_add_outcome today b s) as O.
    destruct (Recipe.add today (Some b) s) as [[r|msg] s'] eqn:E.
    + destruct O as (O1 & O2 & _). eexists. eexists. split; [reflexivity|].
      split; [exact O2|]. repeat split. exists r. split; [exact O1|].
      eapply RepoFacts.Recipe_add_wellformed, E.
    + destruct O as (O1 & O2). eexists. eexists. split; [reflexivity|]. now repeat split.
  - eexists. eexists. split; [reflexivity|]. now repeat split.
  - eexists. eexists. split; [reflexivity|]. now repeat split.
Qed.

(** X20: the POST /inventory-00000001 route, for every body: it answers
    either the redirect 303 to the dashboard, and then exactly one
    well-formed item was appended, whose userId is the trimmed userId of the
    body, or "TakumiWatanabe-00000001" when the body has none; or 400, and
    then the collection is as it was; or it fails in the middleware, before
    anything is changed. *)
Theorem X20_postInventory_outcomes (today : string) (b : InventoryItem.payload)
    (items : list InventoryItem.t) :
  exists resp items',
    App.postInventory today b items = (Ok resp, items')
    /\ match resp with
       | App.Redirect status url =>
           status = 303%nat /\ url = "/inventoryItem-00000001"
           /\ exists i, items' = (items ++ [i])%list
                        /\ Invariants.itemOk i = true
                        /\ InventoryItem.userId i
                           = if JS.truthy (InventoryItem.p_userId b)
                             then Str.trim (JS.ToString (InventoryItem.p_userId b))
                             else App.defaultUserId
       | App.Send status _ => status = 400%nat /\ items' = items
       | App.Uncaught => items' = items
       end.
Proof.
  rewrite RouteFacts.postInventory_eq.
  destruct (Validators.validateInventoryBody b).
  - cbv zeta.
    set (b' := if negb (JS.truthy (InventoryItem.p_userId b))
               then App.setUserId (PStr App.defaultUserId) b else b).
    pose proof (InventoryFacts.Inventory_add_outcome today b' items) as O.
    destruct (InventoryItem.add today (Some b') items) as [[i|msg] items'] eqn:E.
    + destruct O as (O1 & _ & _ & O4 & _). eexists. eexists. split; [reflexivity|].
      repeat split. exists i. split; [exact O1|]. split.
      * eapply RepoFacts.Inventory_add_wellformed, E.
      * rewrite O4. unfold b'.
        destruct (JS.truthy (InventoryItem.p_userId b)) eqn:T; cbn [negb].
        -- unfold JS.or. now rewrite T.
        -- destruct b. reflexivity.
    + eexists. eexists. split; [reflexivity|]. now split.
  - eexists. eexists. split; [reflexivity|]. now split.
  - eexists. eexists. split; [reflexivity|]. reflexivity.
Qed.

(** X21: an item that is past its expiration date cannot be added without a
    purchase date.  When the body passes the middleware, gives no
    purchaseDate, and its expirationDate is a date string that sorts before
    the current date, the POST /inventory-00000001 route answers 400 and
    stores nothing: the purchase date defaults to the current date, and the
    constructor refuses an expiration earlier than the purchase. *)
Theorem X21_expired_item_is_refused (today e : string) (b : InventoryItem.payload)
    (items : list InventoryItem.t) :
  Validators.validateInventoryBody b = Validators.Next ->
  JS.truthy (InventoryItem.p_purchaseDate b) = false ->
  InventoryItem.p_expirationDate b = PStr e ->
  Re.isYmd e = true ->
  Str.gtb today e = true ->
  exists msg, App.postInventory today b items = (Ok (App.Send 400 msg), items).
Proof.
  intros Hn Hp He Hy Hg. rewrite RouteFacts.postInventory_eq, Hn. cbv zeta.
  set (b' := if negb (JS.truthy (InventoryItem.p_userId b))
             then App.setUserId (PStr App.defaultUserId) b else b).
  assert (P : InventoryItem.p_purchaseDate b' = InventoryItem.p_purchaseDate b
              /\ InventoryItem.p_expirationDate b' = InventoryItem.p_expirationDate b).
  { unfold b'. destruct (negb _); [|now split]. destruct b. now split. }
  destruct P as [P1 P2].
  destruct (InventoryFacts.Inventory_add_invalid today b' items) as [msg Hm].
  - unfold Spec.validInventoryPayload.
    assert (N : Spec.notBefore (Spec.expirationOf b') (Spec.purchaseOf today b') = false).
    { assert (T : JS.truthy (PStr e) = true) by (destruct e; [discriminate|reflexivity]).
      assert (T2 : JS.truthy (PStr today) = true).
      { destruct today; [|reflexivity]. destruct e; discriminate. }
      assert (E1 : Spec.purchaseOf today b' = PStr today).
      { unfold Spec.purchaseOf, JS.or. now rewrite P1, Hp. }
      assert (E2 : Spec.expirationOf b' = PStr e).
      { unfold Spec.expirationOf, JS.or. now rewrite P2, He, T, T. }
      unfold Spec.notBefore. rewrite E1, E2, T, T2. simpl. now rewrite Hg. }
    rewrite N. apply andb_false_r.
  - exists msg. now rewrite Hm.
Qed.

Lemma X21_witness :
  exists msg,
    App.postInventory Examples.today Examples.staleMilk SampleData.inventory
    = (Ok (App.Send 400 msg), SampleData.inventory).
Proof.
  apply (X21_expired_item_is_refused Examples.today "2025-07-01" Examples.staleMilk
           SampleData.inventory); vm_compute; reflexivity.
Defined.

(** X22: the POST /delete-recipe-00000001 route, for every form.  Unless
    the confirm field is the string "on", nothing is deleted, and the
    redirect goes back to the confirmation page with the id
    percent-encoded, so that the id, whatever it is, adds no parameter to
    the URL, and different ids give different URLs.  With the confirmation,
    the first record with the id is removed and the redirect is 303 to the
    list; when no record has the id, nothing changes and the redirect
    reports an invalid id. *)
Theorem X22_postDeleteRecipe (body : App.deleteForm) (s : Recipe.store) :
  let rid := JS.ToString (JS.or (App.f_recipeId body) (PStr "")) in
  (App.f_confirm body <> PStr "on" ->
     exists e,
       App.postDeleteRecipe body s
       = (Ok (App.Redirect 302
                ("/delete-recipe-00000001?id=" ++ e ++ "&type=warning&msg="
                 ++ "Please%20tick%20the%20confirmation%20checkbox%20to%20proceed.")),
          s)
       /\ e = Uri.encodeURIComponent rid
       /\ Str.all (fun c => Uri.isUnreserved c || (c =? "%")%char) e = true
       /\ (forall rid', Uri.encodeURIComponent rid' = e -> rid' = rid))
  /\ (App.f_confirm body = PStr "on" ->
      (Forall (fun r => Recipe.recipeId r <> rid) (Recipe.recipes s) ->
       App.postDeleteRecipe body s
       = (Ok (App.Redirect 302
                "/delete-recipe-00000001?type=danger&msg=Invalid%20recipe%20ID%20selected."),
          s))
      /\ (forall l1 r l2,
             Recipe.recipes s = (l1 ++ r :: l2)%list ->
             Recipe.recipeId r = rid ->
             Forall (fun r0 => Recipe.recipeId r0 <> rid) l1 ->
             App.postDeleteRecipe body s
             = (Ok (App.Redirect 303 "/recipe-00000001"),
                Recipe.mkStore (Recipe.arrays s) (l1 ++ l2))))
  /\ (forall recipeId : string,
         App.postRecipeDelete recipeId s
         = (Ok (App.Redirect 303 "/recipe-00000001"),
            snd (Recipe.deleteById (PStr recipeId) s))).
Proof.
  cbv zeta. split; [|split].
  - intros Hc. assert (C : App.isOn (App.f_confirm body) = false).
    { destruct (App.isOn _) eqn:E; [|reflexivity]. now apply RouteFacts.isOn_iff in E. }
    unfold App.postDeleteRecipe. rewrite C. cbn [negb].
    eexists. split; [reflexivity|]. split; [reflexivity|]. split.
    + apply UriFacts.encode_safe.
    + intros rid'. apply UriFacts.encode_injective.
  - intros Hc. apply RouteFacts.isOn_iff in Hc.
    unfold App.postDeleteRecipe. rewrite Hc. cbn [negb].
    unfold bind, Recipe.deleteById. rewrite JSFacts.or_str_empty. split.
    + intros F.
      now rewrite (RepoFacts.rm_absent Recipe.recipeId _ RepoFacts.Recipe_rm_eq _ _ F).
    + intros l1 r l2 E Hr F. rewrite E.
      now rewrite (RepoFacts.rm_first Recipe.recipeId _ RepoFacts.Recipe_rm_eq _ _ _ _ F Hr).
  - intros recipeId. unfold App.postRecipeDelete, bind, Recipe.deleteById.
    cbn [JS.ToString]. now destruct (Recipe.removeFirst _ _) as [[x rest]|].
Qed.

Lemma X22_witness :
  App.postDeleteRecipe (App.mkDeleteForm (PStr "R-00001") (PStr "on")) SampleData.recipes
  = (Ok (App.Redirect 303 "/recipe-00000001"),
     Recipe.mkStore (Recipe.arrays SampleData.recipes) ([] ++ [SampleData.avocadoToast])).
Proof.
  apply (proj2 (proj1 (proj2 (X22_postDeleteRecipe
                                (App.mkDeleteForm (PStr "R-00001") (PStr "on"))
                                SampleData.recipes)) eq_refl)
           [] SampleData.carbonara [SampleData.avocadoToast]).
  - reflexivity.
  - reflexivity.
  - constructor.
Defined.

(** X23: the POST /inventory/:inventoryId/delete-00000001 route, for every
    id.  It removes the first item with the id and redirects (303) to the
    dashboard with a message that names the removed item, name and id
    percent-encoded; when no item has the id, nothing changes and the
    redirect reports that the id was not found.  The confirmation form's
    route only forwards (307) to this route, with the item id
    percent-encoded in the path. *)
Theorem X23_postInventoryDelete (inventoryId : string) (items : list InventoryItem.t) :
  (Forall (fun i => InventoryItem.inventoryId i <> inventoryId) items ->
   App.postInventoryDelete inventoryId items
   = (Ok (App.Redirect 302
            "/inventoryItem-00000001?type=danger&msg=Inventory%20ID%20not%20found."),
      items))
  /\ (forall l1 i l2,
         items = (l1 ++ i :: l2)%list ->
         InventoryItem.inventoryId i = inventoryId ->
         Forall (fun i0 => InventoryItem.inventoryId i0 <> inventoryId) l1 ->
         App.postInventoryDelete inventoryId items
         = (Ok (App.Redirect 303
                  ("/inventoryItem-00000001?type=success&msg=Deleted%3A%20"
                   ++ Uri.encodeURIComponent (InventoryItem.ingredientName i)
                   ++ "%20(ID%3A%20" ++ Uri.encodeURIComponent inventoryId ++ ")")),
            (l1 ++ l2)%list))
  /\ (forall itemId : prim,
         App.postDeleteInventoryItem itemId
         = App.Redirect 307
             ("/inventory/" ++ Uri.encodeURIComponent (JS.ToString itemId)
              ++ "/delete-00000001")
         /\ Str.all (fun c => Uri.isUnreserved c || (c =? "%")%char)
              (Uri.encodeURIComponent (JS.ToString itemId)) = true).
Proof.
  unfold App.postInventoryDelete, bind, InventoryItem.deleteById.
  rewrite JSFacts.or_str_empty. repeat split.
  - intros F.
    now rewrite (RepoFacts.rm_absent InventoryItem.inventoryId _
                   RepoFacts.Inventory_rm_eq _ _ F).
  - intros l1 i l2 E Hi F. rewrite E.
    rewrite (RepoFacts.rm_first InventoryItem.inventoryId _
               RepoFacts.Inventory_rm_eq _ _ _ _ F Hi).
    unfold ret. rewrite Hi, !UriFacts.encode_app. reflexivity.
  - apply UriFacts.encode_safe.
Qed.

Lemma X23_witness :
  App.postInventoryDelete "I-00002" SampleData.inventory
  = (Ok (App.Redirect 303
           ("/inventoryItem-00000001?type=success&msg=Deleted%3A%20"
            ++ Uri.encodeURIComponent (InventoryItem.ingredientName SampleData.pasta)
            ++ "%20(ID%3A%20" ++ Uri.encodeURIComponent "I-00002" ++ ")")),
     ([SampleData.tomatoes] ++ [])%list).
Proof.
  apply (proj1 (proj2 (X23_postInventoryDelete "I-00002" SampleData.inventory))
           [SampleData.tomatoes] SampleData.pasta []).
  - reflexivity.
  - reflexivity.
  - repeat constructor. discriminate.
Defined.

(** X24: the inventory value on the home page and the total value on the
    inventory dashboard are the same Number for every inventory, at any time
    and in any time zone; the dashboard changes nothing in the inventory and
    shows one derived view per item, in the order of the collection. *)
Theorem X24_inventory_value_agrees (otherForms : string -> Date.t) (tza : Z) (now : Date.t)
    (qMsg qType : option string) (recipes : list Recipe.t) (items : list InventoryItem.t) :
  exists d,
    App.inventoryDashboard otherForms tza now qMsg qType items = (Ok d, items)
    /\ map InventoryItem.item (App.items d) = items
    /\ App.totalValue d = App.inventoryValue (App.home recipes items).
Proof.
  eexists. split; [reflexivity|]. cbn [App.items App.totalValue]. split.
  - rewrite List.map_map. cbn [InventoryItem.derive InventoryItem.item]. apply List.map_id.
  - unfold App.home. cbn [App.inventoryValue]. now rewrite PageFacts.fold_left_map_acc.
Qed.

(** X25: the cuisine type count of the home page is the number of distinct
    cuisine types among the recipes, so it is at most the number of recipes;
    the categories and the locations of the dashboard list, without
    repetition, exactly the categories and locations of the items, an empty
    one counting as "Uncategorized" or "Unknown". *)
Theorem X25_distinct_values (otherForms : string -> Date.t) (tza : Z) (now : Date.t)
    (qMsg qType : option string) (recipes : list Recipe.t) (items : list InventoryItem.t) :
  (exists u,
      List.NoDup u
      /\ (forall c, In c u <-> exists r, In r recipes /\ Recipe.cuisineType r = c)
      /\ App.cuisineTypeCount (App.home recipes items) = length u
      /\ (length u <= App.totalRecipes (App.home recipes items))%nat)
  /\ (exists d,
         App.inventoryDashboard otherForms tza now qMsg qType items = (Ok d, items)
         /\ List.NoDup (App.categories d)
         /\ (forall c, In c (App.categories d)
                       <-> exists i, In i items
                                     /\ Arr.orStr (InventoryItem.category i) "Uncategorized" = c)
         /\ List.NoDup (App.locations d)
         /\ (forall c, In c (App.locations d)
                       <-> exists i, In i items
                                     /\ Arr.orStr (InventoryItem.location i) "Unknown" = c)).
Proof.
  split.
  - exists (Arr.uniq (map Recipe.cuisineType recipes)). repeat split.
    + apply PageFacts.uniqFrom_NoDup.
    + rewrite PageFacts.uniq_In, in_map_iff. intros (r & E & H). eauto.
    + rewrite PageFacts.uniq_In, in_map_iff. intros (r & H & E). eauto.
    + cbn [App.home App.totalRecipes].
      etransitivity; [apply PageFacts.uniqFrom_length|]. now rewrite length_map.
  - eexists. split; [reflexivity|]. cbn [App.categories App.locations].
    rewrite !List.map_map. cbn [InventoryItem.derive InventoryItem.item].
    repeat split; try apply PageFacts.uniqFrom_NoDup.
    + rewrite PageFacts.uniq_In, in_map_iff. intros (i & E & H). eauto.
    + rewrite PageFacts.uniq_In, in_map_iff. intros (i & H & E). eauto.
    + rewrite PageFacts.uniq_In, in_map_iff. intros (i & E & H). eauto.
    + rewrite PageFacts.uniq_In, in_map_iff. intros (i & H & E). eauto.
Qed.

(** X26: the filter page.  With no parameter, or with "all" for each, every
    recipe is shown; for any parameters the recipes shown are recipes of the
    collection, in its order, [shown] counts them and [total] counts the
    collection; and a selection matches whatever the case of its letters:
    a recipe is shown exactly when each selection is "all" or equals the
    recipe's field once both are put in lower case. *)
Theorem X26_filterRecipe (qMealType qCuisineType qDifficulty : option string)
    (recipes : list Recipe.t) :
  let v := App.filterRecipe qMealType qCuisineType qDifficulty recipes in
  App.filtered (App.filterRecipe None None None recipes) = recipes
  /\ App.filtered (App.filterRecipe (Some "all") (Some "all") (Some "all") recipes) = recipes
  /\ App.total v = length recipes
  /\ App.shown v = length (App.filtered v)
  /\ (App.shown v <= App.total v)%nat
  /\ (exists keep, App.filtered v = List.filter keep recipes)
  /\ (forall r, In r (App.filtered v)
                <-> In r recipes
                    /\ (default "all" qMealType = "all"
                        \/ Str.toLowerCase (Recipe.mealType r)
                           = Str.toLowerCase (default "all" qMealType))
                    /\ (default "all" qCuisineType = "all"
                        \/ Str.toLowerCase (Recipe.cuisineType r)
                           = Str.toLowerCase (default "all" qCuisineType))
                    /\ (default "all" qDifficulty = "all"
                        \/ Str.toLowerCase (Recipe.difficulty r)
                           = Str.toLowerCase (default "all" qDifficulty))).
Proof.
  cbv zeta. unfold App.filterRecipe. cbn [App.filtered App.total App.shown].
  assert (A : forall l : list Recipe.t, List.filter (fun _ => true) l = l).
  { induction l as [|x l IH]; simpl; [reflexivity|]. now rewrite IH. }
  repeat split.
  - apply A.
  - apply A.
  - apply List.filter_length_le.
  - eexists. reflexivity.
  - apply filter_In in H. tauto.
  - apply filter_In in H as [_ H]. rewrite !andb_true_iff in H.
    destruct H as [[H _] _]. unfold App.eqOrAll in H.
    rewrite orb_true_iff, !String.eqb_eq, JSFacts.or_str_empty in H. exact H.
  - apply filter_In in H as [_ H]. rewrite !andb_true_iff in H.
    destruct H as [[_ H] _]. unfold App.eqOrAll in H.
    rewrite orb_true_iff, !String.eqb_eq, JSFacts.or_str_empty in H. exact H.
  - apply filter_In in H as [_ H]. rewrite !andb_true_iff in H.
    destruct H as [_ H]. unfold App.eqOrAll in H.
    rewrite orb_true_iff, !String.eqb_eq, JSFacts.or_str_empty in H. exact H.
  - intros (H1 & H2 & H3 & H4). apply filter_In. split; [exact H1|].
    unfold App.eqOrAll. rewrite !andb_true_iff, !orb_true_iff, !String.eqb_eq,
      !JSFacts.or_str_empty. tauto.
Qed.

(** X27: the options the filter page offers for meal type and for cuisine
    type are in ascending order, without repetition, and are exactly the
    values of the field in the collection that are not empty; and every
    option offered, when it is selected alone, shows at least one recipe. *)
Theorem X27_filter_options (qMealType qCuisineType qDifficulty : option string)
    (recipes : list Recipe.t) :
  let v := App.filterRecipe qMealType qCuisineType qDifficulty recipes in
  Sorted (fun a b => Str.gtb a b = false) (App.mealTypes v)
  /\ List.NoDup (App.mealTypes v)
  /\ (forall m, In m (App.mealTypes v)
                <-> m <> "" /\ exists r, In r recipes /\ Recipe.mealType r = m)
  /\ Sorted (fun a b => Str.gtb a b = false) (App.cuisineTypes v)
  /\ List.NoDup (App.cuisineTypes v)
  /\ (forall c, In c (App.cuisineTypes v)
                <-> c <> "" /\ exists r, In r recipes /\ Recipe.cuisineType r = c)
  /\ (forall m, In m (App.mealTypes v) ->
                App.filtered (App.filterRecipe (Some m) None None recipes) <> [])
  /\ (forall c, In c (App.cuisineTypes v) ->
                App.filtered (App.filterRecipe None (Some c) None recipes) <> []).
Proof.
  cbv zeta. cbn [App.filterRecipe App.mealTypes App.cuisineTypes].
  destruct (PageFacts.options_spec (map Recipe.mealType recipes)) as (M1 & M2 & M3).
  destruct (PageFacts.options_spec (map Recipe.cuisineType recipes)) as (C1 & C2 & C3).
  assert (M : forall m, In m (App.options (map Recipe.mealType recipes))
                        <-> m <> "" /\ exists r, In r recipes /\ Recipe.mealType r = m).
  { intros m. rewrite M3, in_map_iff. split.
    - intros [(r & E & H) N]. eauto.
    - intros [N (r & H & E)]. eauto. }
  assert (C : forall c, In c (App.options (map Recipe.cuisineType recipes))
                        <-> c <> "" /\ exists r, In r recipes /\ Recipe.cuisineType r = c).
  { intros m. rewrite C3, in_map_iff. split.
    - intros [(r & E & H) N]. eauto.
    - intros [N (r & H & E)]. eauto. }
  repeat split; try assumption; try (now apply M); try (now apply C).
  - intros m Hm E. apply M in Hm as [_ (r & Hr & Em)].
    assert (I : In r (App.filtered (App.filterRecipe (Some m) None None recipes))).
    { cbn [App.filterRecipe App.filtered]. apply filter_In. split; [exact Hr|].
      unfold App.eqOrAll. unfold default, from_option, id. cbn [JS.ToString].
      rewrite Em, !JSFacts.or_str_empty, !String.eqb_refl, ?orb_true_r. reflexivity. }
    rewrite E in I. destruct I.
  - intros c Hc E. apply C in Hc as [_ (r & Hr & Ec)].
    assert (I : In r (App.filtered (App.filterRecipe None (Some c) None recipes))).
    { cbn [App.filterRecipe App.filtered]. apply filter_In. split; [exact Hr|].
      unfold App.eqOrAll. unfold default, from_option, id. cbn [JS.ToString].
      rewrite Ec, !JSFacts.or_str_empty, !String.eqb_refl, ?orb_true_r. reflexivity. }
    rewrite E in I. destruct I.
Qed.

(** X28: [withDerived] does not depend on the time of day.  In a host whose
    local time is [tza] milliseconds ahead of UTC, for every instant [t] of
    the local day that starts at the local midnight [m], the start of day
    that [withDerived] computes is [m], and the result is what it is at [m];
    the collection is returned unchanged and there is one view per item, in
    order. *)
Theorem X28_withDerived_time_of_day (otherForms : string -> Date.t) (tza m t : Z)
    (items : list InventoryItem.t) :
  ((m + tza) mod Date.msPerDay = 0)%Z ->
  (m <= t < m + Date.msPerDay)%Z ->
  Date.setHours0 tza (Some t) = Date.timeClip m
  /\ InventoryItem.withDerived otherForms tza (Some t) items
     = InventoryItem.withDerived otherForms tza (Some m) items
  /\ exists ds,
       InventoryItem.withDerived otherForms tza (Some t) items = (Ok ds, items)
       /\ map InventoryItem.item ds = items.
Proof.
  intros Hm Ht.
  pose proof (DateFacts.setHours0_midnight tza m t Hm Ht) as E1.
  pose proof (DateFacts.setHours0_midnight tza m m Hm ltac:(unfold Date.msPerDay; lia)) as E2.
  split; [exact E1|]. split.
  - unfold InventoryItem.withDerived. now rewrite E1, E2.
  - eexists. split; [reflexivity|]. rewrite List.map_map.
    cbn [InventoryItem.derive InventoryItem.item]. apply List.map_id.
Qed.

Lemma X28_witness :
  Date.setHours0 Examples.tzaEast (Some Examples.nineEast)
  = Date.timeClip Examples.midnightEast
  /\ InventoryItem.withDerived Examples.dateOnly Examples.tzaEast (Some Examples.nineEast)
       SampleData.inventory
     = InventoryItem.withDerived Examples.dateOnly Examples.tzaEast (Some Examples.midnightEast)
         SampleData.inventory
  /\ exists ds,
       InventoryItem.withDerived Examples.dateOnly Examples.tzaEast (Some Examples.nineEast)
         SampleData.inventory = (Ok ds, SampleData.inventory)
       /\ map InventoryItem.item ds = SampleData.inventory.
Proof.
  apply (X28_withDerived_time_of_day Examples.dateOnly Examples.tzaEast Examples.midnightEast
           Examples.nineEast SampleData.inventory).
  - reflexivity.
  - unfold Examples.midnightEast, Examples.nineEast, Date.msPerDay. lia.
Defined.

(** X29: the [InventoryItem] constructor compares the two dates as strings,
    and for strings in the YYYY-MM-DD form that is the comparison of the
    dates: [purchaseDate > expirationDate] holds exactly when the number
    yyyymmdd of the purchase is the larger one.  So an item the constructor
    returns, when it was given both dates, has a purchase date that is not
    after its expiration date. *)
Theorem X29_constructor_date_order (p e : string) :
  Re.isYmd p = true -> Re.isYmd e = true ->
  JS.gt (PStr p) (PStr e) = (Invariants.ymdNumber e <? Invariants.ymdNumber p)%Z
  /\ forall (today : string) (a : InventoryItem.args)
            (items items' : list InventoryItem.t) (i : InventoryItem.t),
       InventoryItem.a_purchaseDate a = PStr p ->
       InventoryItem.a_expirationDate a = PStr e ->
       InventoryItem.new today a items = (Ok i, items') ->
       (Invariants.ymdNumber p <= Invariants.ymdNumber e)%Z.
Proof.
  intros Hp He. pose proof (DateFacts.gt_ymd p e Hp He) as G. split; [exact G|].
  intros today a items items' i Ap Ae. unfold InventoryItem.new.
  destruct (InventoryItem.validate a _ _) as [msg|] eqn:V; [discriminate|]. intros _.
  apply InventoryFacts.Inventory_validate_None in V. unfold Checks.inventory in V.
  rewrite !andb_true_iff in V. destruct V as [_ V].
  unfold Spec.notBefore in V. rewrite Ap, Ae, G in V.
  assert (Tp : JS.truthy (PStr p) = true) by (destruct p; [discriminate|reflexivity]).
  assert (Te : JS.truthy (PStr e) = true) by (destruct e; [discriminate|reflexivity]).
  rewrite Tp, Te in V. simpl in V. apply negb_true_iff, Z.ltb_ge in V. exact V.
Qed.

Lemma X29_witness :
  JS.gt (PStr "2025-07-18") (PStr "2025-07-25")
  = (Invariants.ymdNumber "2025-07-25" <? Invariants.ymdNumber "2025-07-18")%Z
  /\ forall (today : string) (a : InventoryItem.args)
            (items items' : list InventoryItem.t) (i : InventoryItem.t),
       InventoryItem.a_purchaseDate a = PStr "2025-07-18" ->
       InventoryItem.a_expirationDate a = PStr "2025-07-25" ->
       InventoryItem.new today a items = (Ok i, items') ->
       (Invariants.ymdNumber "2025-07-18" <= Invariants.ymdNumber "2025-07-25")%Z.
Proof.
  apply (X29_constructor_date_order "2025-07-18" "2025-07-25"); reflexivity.
Defined.

(** X30: refining a search never adds results.  When the trimmed query of
    one search occurs, whatever the case of its letters, in the trimmed
    query of another search with the same scale, every result of the second
    search is a result of the first, and the second count is at most the
    first. *)
Theorem X30_search_refinement (q1 q2 : string) (qScale : option string)
    (s : Recipe.store) :
  Spec.ciSubstring (Str.trim q1) (Str.trim q2) ->
  exists v1 v2,
    App.searchRecipe (Some q1) qScale s = (Ok v1, s)
    /\ App.searchRecipe (Some q2) qScale s = (Ok v2, s)
    /\ (forall x, In x (App.results v2) -> In x (App.results v1))
    /\ (App.count v2 <= App.count v1)%nat.
Proof.
  intros H. eexists. eexists.
  split; [apply AppFacts.searchRecipe_eq|]. split; [apply AppFacts.searchRecipe_eq|].
  cbv zeta. cbn [App.results App.count App.param JS.defined orb].
  rewrite !JSFacts.or_str_empty.
  assert (M : forall r, App.matches (Recipe.arrays s) (Str.trim q2) r = true ->
                        App.matches (Recipe.arrays s) (Str.trim q1) r = true).
  { intros r. rewrite !AppFacts.matches_spec. now apply SearchFacts.textMatch_refine. }
  split.
  - intros x. rewrite !in_map_iff. intros (r & E & I). exists r. split; [exact E|].
    apply filter_In in I as [I1 I2]. apply filter_In. split; [exact I1|now apply M].
  - rewrite !length_map. now apply SearchFacts.filter_length_mono.
Qed.

Lemma X30_witness :
  exists v1 v2,
    App.searchRecipe (Some "toast") None SampleData.recipes = (Ok v1, SampleData.recipes)
    /\ App.searchRecipe (Some " Avocado Toast ") None SampleData.recipes
       = (Ok v2, SampleData.recipes)
    /\ (forall x, In x (App.results v2) -> In x (App.results v1))
    /\ (App.count v2 <= App.count v1)%nat.
Proof.
  apply (X30_search_refinement "toast" " Avocado Toast " None SampleData.recipes).
  exists "avocado ", "". reflexivity.
Defined.
